(** * Parquet to Postgres importer: a shallow embedding of the import run

    Two versions of the Streamlit script live in the repository:
    - [src/app.py], embedded below as module [App];
    - the [app.py] text that [src/recreate_project.py] writes out
      (the entry "app.py" of [PROJECT_FILES]), embedded as module [Recreated].

    Both are straight-line scripts around one [for] loop.  The embedding is a
    state-and-exception monad over a machine that holds the script's
    variables, the destination database and the chronological log of every
    call the script makes to Streamlit, SQLAlchemy, PyArrow and GeoPandas.
    What those libraries answer is not part of the repository: it is the
    interface [Library], over which every definition and theorem is
    parametric.  [Reference] is one concrete instance, used to run the
    scripts on concrete inputs.

    Around the import run, module [Page] embeds the top of the page (the
    widgets, the choice of the source and the button), and module [Project]
    embeds [recreate_files] of [src/recreate_project.py] over a directory of
    files with their modes.  [src/generate_data.py] draws its data from
    numpy's random generator and is not embedded. *)

From Stdlib Require Import ZArith NArith QArith List String Bool Lia.
From Stdlib.Strings Require Import Byte.
Import ListNotations.
Open Scope string_scope.
Open Scope N_scope.

(** ** Python values *)

(** The exception classes the scripts can meet.  [WKBReadingError] is the
    decode error of [GeoSeries.from_wkb] (the script imports it from
    [shapely.errors]); [AttributeError] is what a name missing from a module
    raises. *)
Inductive Exn : Type :=
| NameError (name : string)
| AttributeError (msg : string)
| TypeError (msg : string)
| ValueError (msg : string)
| ZeroDivisionError
| WKBReadingError (msg : string)
| OSError (msg : string)
| DatabaseError (msg : string)
| ArgumentError (msg : string).

Definition is_ValueError (e : Exn) : bool :=
  match e with ValueError _ => true | _ => false end.

Definition is_geometry_decode_error (e : Exn) : bool :=
  match e with WKBReadingError _ => true | _ => false end.

Inductive Result (A : Type) : Type :=
| Ok (a : A)
| Raise (e : Exn).
Arguments Ok {A} a.
Arguments Raise {A} e.

Definition is_ok {A} (r : Result A) : bool :=
  match r with Ok _ => true | Raise _ => false end.

(** Truthiness of a [str]: only the empty string is falsy. *)
Definition truthy (s : string) : bool :=
  match s with EmptyString => false | _ => true end.

(** ** Data model *)

Inductive CRS : Type :=
| EPSG (code : Z)
| WKT (text : string).

Definition CRS_eqb (a b : CRS) : bool :=
  match a, b with
  | EPSG x, EPSG y => Z.eqb x y
  | WKT x, WKT y => String.eqb x y
  | _, _ => false
  end.

(** A decoded geometry object, identified by its canonical well-known-binary. *)
Record Geometry : Type := Shape { wkb : list byte }.

Inductive Cell : Type :=
| PyNone
| PyBytes (b : list byte)
| PyStr (s : string)
| PyInt (z : Z)
| PyGeom (g : Geometry).

Definition isinstance_bytes (c : Cell) : bool :=
  match c with PyBytes _ => true | _ => false end.

Inductive Dtype : Type :=
| DObject
| DCategory
| DString
| DGeometry (crs : option CRS)
| DNumeric.

Record Series : Type := { dtype : Dtype; values : list Cell }.

(** A pandas frame: the length of its index and its named columns. *)
Record DataFrame : Type := { nrows : N; columns : list (string * Series) }.

Definition len (df : DataFrame) : N := nrows df.

(** The row count of a conversion result; a failed conversion has no rows. *)
Definition rows_of (r : Result DataFrame) : N :=
  match r with Ok df => len df | Raise _ => 0 end.

Fixpoint column (name : string) (cols : list (string * Series)) : option Series :=
  match cols with
  | [] => None
  | (n, s) :: rest => if String.eqb n name then Some s else column name rest
  end.

Record GeoDataFrame : Type :=
  { gdf_frame : DataFrame;
    gdf_geometry : list (option Geometry);
    gdf_crs : option CRS }.

Definition with_crs (g : GeoDataFrame) (c : CRS) : GeoDataFrame :=
  {| gdf_frame := gdf_frame g; gdf_geometry := gdf_geometry g; gdf_crs := Some c |}.

(** [GeoDataFrame.set_crs(crs, allow_override=..., inplace=True)]: sets the
    reference system; without [allow_override] a different system already
    present is an error. *)
Definition set_crs (c : CRS) (allow_override : bool) (g : GeoDataFrame)
  : Result GeoDataFrame :=
  match gdf_crs g with
  | None => Ok (with_crs g c)
  | Some old =>
      if allow_override || CRS_eqb old c then Ok (with_crs g c)
      else Raise (ValueError "The GeoSeries already has a CRS which is not equal to the passed CRS.")
  end.

(** The [geometry=] argument of the [GeoDataFrame] constructor: a column
    name, or the values themselves. *)
Inductive GeometryArg : Type :=
| GeomColumn (name : string)
| GeomValues (s : Series).

(** What is handed to the sink: [to_sql] of a plain frame or [to_postgis] of
    a geo frame. *)
Inductive Chunk : Type :=
| Plain (df : DataFrame)
| Spatial (gdf : GeoDataFrame).

Definition is_spatial (c : Chunk) : bool :=
  match c with Spatial _ => true | Plain _ => false end.

(** The three entries of the select box labelled If Table Exists:
    'fail', 'replace' and 'append'. *)
Inductive IfExists : Type := fail_ | replace_ | append_.

Definition IfExists_eqb (a b : IfExists) : bool :=
  match a, b with
  | fail_, fail_ | replace_, replace_ | append_, append_ => true
  | _, _ => false
  end.

(** ** The source *)

(** An uploaded file object; [seek0] is what [source.seek(0)] answers. *)
Record UploadedFile : Type := { file_name : string; seek0 : Result unit }.

Inductive Source : Type :=
| SourcePath (path : string)
| SourceUpload (f : UploadedFile).

Definition isinstance_str (s : Source) : bool :=
  match s with SourcePath _ => true | SourceUpload _ => false end.

(** [hasattr(source, 'seek')]: a [str] has no [seek], a file object has. *)
Definition hasattr_seek (s : Source) : bool :=
  match s with SourcePath _ => false | SourceUpload _ => true end.

(** A record batch; [to_pandas ignore_metadata] is its conversion. *)
Record Batch : Type := { to_pandas : bool -> Result DataFrame }.

Record ParquetFile : Type :=
  { num_row_groups : N;
    num_rows : option N;
    iter_batches : N -> list Batch }.

(** What [gpd.read_parquet] returned, as far as the probe looks at it. *)
Inductive ProbeFrame : Type :=
| ProbeGeo (active_geometry_name : option string) (crs : option CRS)
| ProbePlain.

Record Engine : Type := { url : string }.

(** ** The libraries *)

Class Library : Type :=
  { Db : Type;
    create_engine : string -> Result Engine;
    execute : Engine -> Db -> string -> Db * Result unit;
    read_parquet : Source -> option N -> Result ProbeFrame;
    pq_ParquetFile : Source -> Result ParquetFile;
    (** [gpd.from_wkb], the call of [src/app.py], line 95 *)
    from_wkb : Series -> Result Series;
    (** [gpd.GeoSeries.from_wkb], the call of the recreated script,
        lines 152 and 176 *)
    GeoSeries_from_wkb : Series -> Result Series;
    gpd_GeoDataFrame : DataFrame -> GeometryArg -> Result GeoDataFrame;
    to_sql : Engine -> Db -> string -> IfExists -> DataFrame -> Db * Result unit;
    to_postgis : Engine -> Db -> string -> IfExists -> GeoDataFrame -> Db * Result unit }.

(** ** The log *)

Inductive Msg : Type :=
| FillConnectionDetails
| ProvideValidFile
| ErrorDuringImport (e : Exn).

Inductive Event : Type :=
| st_error (m : Msg)
| st_exception (e : Exn)
| st_info (row_groups : N) (rows : option N)
| st_success_detected (col : string) (crs : option CRS)
| st_success_imported (rows : N) (table : string)
| progress_bar_progress (value : Q)
| status_text_text (rows : N) (total : option (option N))
| call_create_engine (db_url : string)
| call_execute (sql : string)
| call_read_parquet (s : Source) (rows : option N)
| call_seek (s : Source)
| call_ParquetFile (s : Source)
| call_write (table : string) (if_exists : IfExists) (c : Chunk) (raised : option Exn).

(** ** The machine and its monad *)

Section Machine.
Context {L : Library}.

Record Machine : Type :=
  { log : list Event;
    store : Db;
    rows_processed : N;
    total_rows : option N;
    is_first_chunk : bool;
    gdf_chunk : option GeoDataFrame;
    is_spatial_file : bool;
    detected_geometry_col : option string;
    detected_crs : option CRS }.

(** The script starts with an empty log; [gdf_chunk] is unbound. *)
Definition boot (db : Db) : Machine :=
  {| log := []; store := db; rows_processed := 0; total_rows := None;
     is_first_chunk := true; gdf_chunk := None; is_spatial_file := false;
     detected_geometry_col := None; detected_crs := None |}.

Definition M (A : Type) : Type := Machine -> Machine * Result A.

Definition ret {A} (a : A) : M A := fun m => (m, Ok a).

Definition bind {A B} (c : M A) (k : A -> M B) : M B :=
  fun m => match c m with
           | (m', Ok a) => k a m'
           | (m', Raise e) => (m', Raise e)
           end.

Definition raise {A} (e : Exn) : M A := fun m => (m, Raise e).

(** A library answer that touches nothing in the machine. *)
Definition lift {A} (r : Result A) : M A := fun m => (m, r).

(** [try: body except: handler] *)
Definition try_except {A} (body : M A) (handler : Exn -> M A) : M A :=
  fun m => match body m with
           | (m', Ok a) => (m', Ok a)
           | (m', Raise e) => handler e m'
           end.

(** The machine after the events [evs] were appended to its log. *)
Definition logged (evs : list Event) (m : Machine) : Machine :=
  {| log := log m ++ evs; store := store m;
     rows_processed := rows_processed m; total_rows := total_rows m;
     is_first_chunk := is_first_chunk m; gdf_chunk := gdf_chunk m;
     is_spatial_file := is_spatial_file m;
     detected_geometry_col := detected_geometry_col m;
     detected_crs := detected_crs m |}.

Definition emit (e : Event) : M unit := fun m => (logged [e] m, Ok tt).

Definition set_store (d : Db) (m : Machine) : Machine :=
  {| log := log m; store := d;
     rows_processed := rows_processed m; total_rows := total_rows m;
     is_first_chunk := is_first_chunk m; gdf_chunk := gdf_chunk m;
     is_spatial_file := is_spatial_file m;
     detected_geometry_col := detected_geometry_col m;
     detected_crs := detected_crs m |}.

Definition assign_rows_processed (n : N) : M unit :=
  fun m => ({| log := log m; store := store m;
               rows_processed := n; total_rows := total_rows m;
               is_first_chunk := is_first_chunk m; gdf_chunk := gdf_chunk m;
               is_spatial_file := is_spatial_file m;
               detected_geometry_col := detected_geometry_col m;
               detected_crs := detected_crs m |}, Ok tt).

Definition assign_total_rows (t : option N) : M unit :=
  fun m => ({| log := log m; store := store m;
               rows_processed := rows_processed m; total_rows := t;
               is_first_chunk := is_first_chunk m; gdf_chunk := gdf_chunk m;
               is_spatial_file := is_spatial_file m;
               detected_geometry_col := detected_geometry_col m;
               detected_crs := detected_crs m |}, Ok tt).

Definition assign_is_first_chunk (b : bool) : M unit :=
  fun m => ({| log := log m; store := store m;
               rows_processed := rows_processed m; total_rows := total_rows m;
               is_first_chunk := b; gdf_chunk := gdf_chunk m;
               is_spatial_file := is_spatial_file m;
               detected_geometry_col := detected_geometry_col m;
               detected_crs := detected_crs m |}, Ok tt).

Definition assign_gdf_chunk (g : GeoDataFrame) : M unit :=
  fun m => ({| log := log m; store := store m;
               rows_processed := rows_processed m; total_rows := total_rows m;
               is_first_chunk := is_first_chunk m; gdf_chunk := Some g;
               is_spatial_file := is_spatial_file m;
               detected_geometry_col := detected_geometry_col m;
               detected_crs := detected_crs m |}, Ok tt).

Definition assign_detected (col : string) (c : option CRS) : M unit :=
  fun m => ({| log := log m; store := store m;
               rows_processed := rows_processed m; total_rows := total_rows m;
               is_first_chunk := is_first_chunk m; gdf_chunk := gdf_chunk m;
               is_spatial_file := true;
               detected_geometry_col := Some col;
               detected_crs := c |}, Ok tt).

Definition assign_probe_defaults : M unit :=
  fun m => ({| log := log m; store := store m;
               rows_processed := rows_processed m; total_rows := total_rows m;
               is_first_chunk := is_first_chunk m; gdf_chunk := gdf_chunk m;
               is_spatial_file := false;
               detected_geometry_col := None;
               detected_crs := None |}, Ok tt).

Definition get {A} (f : Machine -> A) : M A := fun m => (m, Ok (f m)).

(** Two machines that differ at most in the variable [gdf_chunk]. *)
Definition same_core (m m' : Machine) : Prop :=
  log m' = log m /\ store m' = store m /\
  rows_processed m' = rows_processed m /\ total_rows m' = total_rows m /\
  is_first_chunk m' = is_first_chunk m /\
  is_spatial_file m' = is_spatial_file m /\
  detected_geometry_col m' = detected_geometry_col m /\
  detected_crs m' = detected_crs m.

(** A computation that neither logs nor touches anything but [gdf_chunk]. *)
Definition Quiet {A} (c : M A) : Prop := forall m, same_core m (fst (c m)).

(** Reading the variable [gdf_chunk]: unbound is a [NameError]. *)
Definition read_gdf_chunk : M GeoDataFrame :=
  fun m => match gdf_chunk m with
           | Some g => (m, Ok g)
           | None => (m, Raise (NameError "gdf_chunk"))
           end.

End Machine.

Declare Scope py_scope.
Delimit Scope py_scope with py.
Notation "x <- c ;; k" := (bind c (fun x => k))
  (at level 61, c at next level, right associativity) : py_scope.
Notation "c ;; k" := (bind c (fun _ => k))
  (at level 61, right associativity) : py_scope.
Open Scope py_scope.

(** ** What the caller supplies *)

Inductive InputMethod : Type := UploadFile | LocalFilePath.

(** The sidebar and main-area widgets when the button is pressed.
    [file_path] is set only when the typed path exists. *)
Record Form : Type :=
  { db_host : string;
    db_port : string;
    db_name : string;
    db_user : string;
    db_password : string;
    table_name : string;
    if_exists_opt : IfExists;
    input_method : InputMethod;
    uploaded_file : option UploadedFile;
    file_path : option string }.

Definition db_url (f : Form) : string :=
  "postgresql://" ++ db_user f ++ ":" ++ db_password f ++ "@"
    ++ db_host f ++ ":" ++ db_port f ++ "/" ++ db_name f.

(** [source = None], then the two [if]/[elif] assignments; the result is
    [Some] exactly when [if source:] passes. *)
Definition determine_source (f : Form) : option Source :=
  match input_method f with
  | UploadFile =>
      match uploaded_file f with
      | Some u => Some (SourceUpload u)
      | None => None
      end
  | LocalFilePath =>
      match file_path f with
      | Some p => if truthy p then Some (SourcePath p) else None
      | None => None
      end
  end.

Definition batch_size : N := 50000.

(** ** Steps the two scripts share *)

Section Steps.
Context {L : Library}.

Fixpoint for_each {A} (xs : list A) (body : A -> M unit) : M unit :=
  match xs with
  | [] => ret tt
  | x :: rest => body x ;; for_each rest body
  end.

(** [chunk_to_write.to_postgis(...)] or [chunk_to_write.to_sql(...)]; the
    call and what it raised, if anything, go to the log. *)
Definition write (engine : Engine) (table : string) (current_if_exists : IfExists)
    (chunk_to_write : Chunk) : M unit :=
  fun m =>
    let (db, r) :=
      match chunk_to_write with
      | Spatial g => to_postgis engine (store m) table current_if_exists g
      | Plain d => to_sql engine (store m) table current_if_exists d
      end in
    match r with
    | Ok _ =>
        emit (call_write table current_if_exists chunk_to_write None) (set_store db m)
    | Raise e =>
        (emit (call_write table current_if_exists chunk_to_write (Some e)) ;; raise e)
          (set_store db m)
    end.

(** From [current_if_exists = ...] to [is_first_chunk = False]. *)
Definition write_and_count (f : Form) (engine : Engine) (df_chunk : DataFrame)
    (chunk_to_write : Chunk) : M unit :=
  first <- get is_first_chunk ;;
  let current_if_exists := if first then if_exists_opt f else append_ in
  write engine (table_name f) current_if_exists chunk_to_write ;;
  n <- get rows_processed ;;
  assign_rows_processed (n + len df_chunk) ;;
  assign_is_first_chunk false.

(** [a / b] on a row count and a value that is an [int] or [None]. *)
Definition py_truediv (a : N) (b : option N) : Result Q :=
  match b with
  | Some t =>
      if t =? 0 then Raise ZeroDivisionError
      else Ok (Z.of_N a # Z.to_pos (Z.of_N t))
  | None => Raise (TypeError "unsupported operand type(s) for /: 'int' and 'NoneType'")
  end.

(** [min(a, b)]: the first argument unless the second is smaller. *)
Definition py_min (a b : Q) : Q := if Qle_bool a b then a else b.

(** [if total_rows:] on an [int] or [None]. *)
Definition truthy_int (t : option N) : bool :=
  match t with
  | Some n => negb (n =? 0)
  | None => false
  end.

(** [total_rows > k] *)
Definition py_gt (t : option N) (k : N) : Result bool :=
  match t with
  | Some n => Ok (k <? n)
  | None => Raise (TypeError "'>' not supported between instances of 'NoneType' and 'int'")
  end.

(** [if gdf_chunk.crs is None: gdf_chunk.set_crs(epsg=4326, inplace=True)] *)
Definition assume_4326 : M unit :=
  g <- read_gdf_chunk ;;
  match gdf_crs g with
  | None => g' <- lift (set_crs (EPSG 4326) false g) ;; assign_gdf_chunk g'
  | Some _ => ret tt
  end.

(** The outer [except Exception as e:] of both scripts. *)
Definition report_failure (e : Exn) : M unit :=
  emit (st_error (ErrorDuringImport e)) ;;
  emit (st_exception e).

End Steps.

(** ** [src/app.py] *)

Module App.
Section Script.
Context {L : Library}.

(** Lines 80-109: geometry detection on one chunk. *)
Definition normalize (df_chunk : DataFrame) : M Chunk :=
  let geo_col := "geometry" in
  match column geo_col (columns df_chunk) with
  | Some col =>
      match dtype col with
      | DObject | DCategory =>
          try_except
            (geoms <- lift (from_wkb col) ;;
             g <- lift (gpd_GeoDataFrame df_chunk (GeomValues geoms)) ;;
             assign_gdf_chunk g)
            (fun _ =>
               g <- lift (gpd_GeoDataFrame df_chunk (GeomColumn geo_col)) ;;
               assign_gdf_chunk g)
      | _ => ret tt
      end ;;
      assume_4326 ;;
      chunk_to_write <- read_gdf_chunk ;;
      ret (Spatial chunk_to_write)
  | None => ret (Plain df_chunk)
  end.

(** [len(df_chunk)] for this batch. *)
Definition chunk_len (batch : Batch) : N := rows_of (to_pandas batch false).

Definition prepare (batch : Batch) : M (DataFrame * Chunk) :=
  df_chunk <- lift (to_pandas batch false) ;;
  chunk_to_write <- normalize df_chunk ;;
  ret (df_chunk, chunk_to_write).

(** Lines 126-131. *)
Definition update_progress : M unit :=
  total <- get total_rows ;;
  (if truthy_int total then
     n <- get rows_processed ;;
     q <- lift (py_truediv n total) ;;
     emit (progress_bar_progress (py_min q 1))
   else ret tt) ;;
  n <- get rows_processed ;;
  emit (status_text_text n (Some total)).

(** The body of the [for] loop, lines 78-131. *)
Definition body (f : Form) (engine : Engine) (batch : Batch) : M unit :=
  p <- prepare batch ;;
  write_and_count f engine (fst p) (snd p) ;;
  update_progress.

(** Lines 55-75: everything in the [try] block before the loop. *)
Definition setup (f : Form) (source : Source) : M (Engine * ParquetFile) :=
  emit (call_create_engine (db_url f)) ;;
  engine <- lift (create_engine (db_url f)) ;;
  emit (call_ParquetFile source) ;;
  parquet_file <- lift (pq_ParquetFile source) ;;
  emit (st_info (num_row_groups parquet_file) (num_rows parquet_file)) ;;
  emit (progress_bar_progress 0) ;;
  assign_rows_processed 0 ;;
  assign_total_rows (num_rows parquet_file) ;;
  assign_is_first_chunk true ;;
  ret (engine, parquet_file).

(** Lines 55-133, the [try] block. *)
Definition stream (f : Form) (source : Source) : M unit :=
  p <- setup f source ;;
  for_each (iter_batches (snd p) batch_size) (body f (fst p)) ;;
  n <- get rows_processed ;;
  emit (st_success_imported n (table_name f)).

(** Lines 38-139: what pressing the button runs. *)
Definition start_import (f : Form) : M unit :=
  if negb (truthy (db_name f)) || negb (truthy (db_user f)) then
    emit (st_error FillConnectionDetails)
  else
    match determine_source f with
    | Some source => try_except (stream f source) report_failure
    | None => emit (st_error ProvideValidFile)
    end.

End Script.
End App.

(** ** The [app.py] of [src/recreate_project.py] *)

Module Recreated.
Section Script.
Context {L : Library}.

(** Lines 69-88: the probe step. *)
Definition probe (source : Source) : M unit :=
  assign_probe_defaults ;;
  try_except
    (let rows := if isinstance_str source then Some 1 else None in
     emit (call_read_parquet source rows) ;;
     probe_gdf <- lift (read_parquet source rows) ;;
     match probe_gdf with
     | ProbeGeo active_geometry_name crs =>
         let col :=
           match active_geometry_name with
           | Some n => if truthy n then n else "geometry"
           | None => "geometry"
           end in
         assign_detected col crs ;;
         emit (st_success_detected col crs)
     | ProbePlain => ret tt
     end)
    (fun probe_error =>
       if hasattr_seek source then
         match source with
         | SourceUpload u =>
             emit (call_seek source) ;;
             lift (seek0 u)
         | SourcePath _ => ret tt
         end
       else ret tt).

(** Lines 116-126: the conversion with its two fallbacks. *)
Definition convert (batch : Batch) : Result DataFrame :=
  match to_pandas batch false with
  | Ok df => Ok df
  | Raise e =>
      if is_ValueError e then to_pandas batch true
      else
        match to_pandas batch true with
        | Ok df => Ok df
        | Raise _ => Raise e
        end
  end.

(** [if detected_crs: ... elif gdf_chunk.crs is None: ...] *)
Definition apply_crs (detected : option CRS) : M unit :=
  g <- read_gdf_chunk ;;
  match detected with
  | Some c => g' <- lift (set_crs c true g) ;; assign_gdf_chunk g'
  | None => assume_4326
  end.

(** [is_spatial_file and detected_geometry_col in df_chunk.columns], with
    the column it names. *)
Definition probed_column (spatial_file : bool) (name : option string)
    (df_chunk : DataFrame) : option (string * Series) :=
  if spatial_file then
    match name with
    | Some n =>
        match column n (columns df_chunk) with
        | Some col_data => Some (n, col_data)
        | None => None
        end
    | None => None
    end
  else None.

(** The column that the normalizer below hands to [GeoSeries.from_wkb], if
    any: on the probed path one of dtype object, category or string whose
    first value is [bytes]; on the fallback path the column named
    'geometry'. *)
Definition decoded_column (spatial_file : bool) (name : option string)
    (df_chunk : DataFrame) : option Series :=
  match probed_column spatial_file name df_chunk with
  | Some (_, col_data) =>
      match dtype col_data with
      | DObject | DCategory | DString =>
          match values col_data with
          | v :: _ => if isinstance_bytes v then Some col_data else None
          | [] => None
          end
      | _ => None
      end
  | None => column "geometry" (columns df_chunk)
  end.

(** Lines 128-179. *)
Definition normalize (df_chunk : DataFrame) : M Chunk :=
  spatial_file <- get is_spatial_file ;;
  name <- get detected_geometry_col ;;
  detected <- get detected_crs ;;
  match probed_column spatial_file name df_chunk with
  | Some (n, col_data) =>
      match dtype col_data with
      | DObject | DCategory | DString =>
          let first_val :=
            match values col_data with
            | v :: _ => v
            | [] => PyNone
            end in
          geometry_objects <-
            (if isinstance_bytes first_val then lift (GeoSeries_from_wkb col_data)
             else ret col_data) ;;
          g <- lift (gpd_GeoDataFrame df_chunk (GeomValues geometry_objects)) ;;
          assign_gdf_chunk g
      | _ =>
          g <- lift (gpd_GeoDataFrame df_chunk (GeomColumn n)) ;;
          assign_gdf_chunk g
      end ;;
      apply_crs detected ;;
      chunk_to_write <- read_gdf_chunk ;;
      ret (Spatial chunk_to_write)
  | None =>
      match column "geometry" (columns df_chunk) with
      | Some col =>
          geoms <- lift (GeoSeries_from_wkb col) ;;
          g <- lift (gpd_GeoDataFrame df_chunk (GeomValues geoms)) ;;
          assign_gdf_chunk g ;;
          assume_4326 ;;
          chunk_to_write <- read_gdf_chunk ;;
          ret (Spatial chunk_to_write)
      | None => ret (Plain df_chunk)
      end
  end.

(** [len(df_chunk)] for this batch. *)
Definition chunk_len (batch : Batch) : N := rows_of (convert batch).

Definition prepare (batch : Batch) : M (DataFrame * Chunk) :=
  df_chunk <- lift (convert batch) ;;
  chunk_to_write <- normalize df_chunk ;;
  ret (df_chunk, chunk_to_write).

(** Lines 106-110. *)
Definition default_total_rows (reported : option N) : option N :=
  if truthy_int reported && match reported with Some n => 0 <? n | None => false end
  then reported
  else Some 1.

(** Lines 192-197. *)
Definition update_progress : M unit :=
  total <- get total_rows ;;
  more <- lift (py_gt total 1) ;;
  (if more : bool then
     n <- get rows_processed ;;
     q <- lift (py_truediv n total) ;;
     emit (progress_bar_progress (py_min q 1))
   else ret tt) ;;
  n <- get rows_processed ;;
  emit (status_text_text n None).

(** The body of the [for] loop, lines 116-197. *)
Definition body (f : Form) (engine : Engine) (batch : Batch) : M unit :=
  p <- prepare batch ;;
  write_and_count f engine (fst p) (snd p) ;;
  update_progress.

Definition enable_postgis (engine : Engine) : M unit :=
  fun m =>
    let sql := "CREATE EXTENSION IF NOT EXISTS postgis;" in
    let (db, r) := execute engine (store m) sql in
    (emit (call_execute sql) ;; lift r) (set_store db m).

(** Lines 59-113: everything in the [try] block before the loop. *)
Definition setup (f : Form) (source : Source) : M (Engine * ParquetFile) :=
  emit (call_create_engine (db_url f)) ;;
  engine <- lift (create_engine (db_url f)) ;;
  enable_postgis engine ;;
  probe source ;;
  emit (call_ParquetFile source) ;;
  parquet_file <- lift (pq_ParquetFile source) ;;
  emit (st_info (num_row_groups parquet_file) (num_rows parquet_file)) ;;
  emit (progress_bar_progress 0) ;;
  assign_rows_processed 0 ;;
  assign_total_rows (default_total_rows (num_rows parquet_file)) ;;
  assign_is_first_chunk true ;;
  ret (engine, parquet_file).

(** Lines 59-199, the [try] block. *)
Definition stream (f : Form) (source : Source) : M unit :=
  p <- setup f source ;;
  for_each (iter_batches (snd p) batch_size) (body f (fst p)) ;;
  n <- get rows_processed ;;
  emit (st_success_imported n (table_name f)).

(** Lines 42-205: what pressing the button runs. *)
Definition start_import (f : Form) : M unit :=
  if negb (truthy (db_name f)) || negb (truthy (db_user f))
     || negb (truthy (db_password f)) then
    emit (st_error FillConnectionDetails)
  else
    match determine_source f with
    | Some source => try_except (stream f source) report_failure
    | None => emit (st_error ProvideValidFile)
    end.

End Script.
End Recreated.

(** ** Reading the log *)

(** The [if_exists] argument of every write call, in order. *)
Definition write_policies (evs : list Event) : list IfExists :=
  flat_map (fun e => match e with call_write _ p _ _ => [p] | _ => [] end) evs.

(** The chunks whose write call returned. *)
Definition written (evs : list Event) : list Chunk :=
  flat_map (fun e => match e with call_write _ _ c None => [c] | _ => [] end) evs.

(** The [if_exists] argument of the write calls that raised. *)
Definition failed_writes (evs : list Event) : list IfExists :=
  flat_map (fun e => match e with call_write _ p _ (Some _) => [p] | _ => [] end) evs.

(** The cumulative counts shown in the status line. *)
Definition status_reports (evs : list Event) : list N :=
  flat_map (fun e => match e with status_text_text n _ => [n] | _ => [] end) evs.

(** The totals shown next to the status line ([src/app.py] only). *)
Definition status_totals (evs : list Event) : list (option N) :=
  flat_map (fun e => match e with status_text_text _ (Some t) => [t] | _ => [] end) evs.


(** The row count of the final success message. *)
Definition success_reports (evs : list Event) : list N :=
  flat_map (fun e => match e with st_success_imported n _ => [n] | _ => [] end) evs.

Definition errors (evs : list Event) : list Msg :=
  flat_map (fun e => match e with st_error m => [m] | _ => [] end) evs.

(** Calls that reach outside the process: database, file system, file object. *)
Definition is_io (e : Event) : bool :=
  match e with
  | call_create_engine _ | call_execute _ | call_read_parquet _ _
  | call_seek _ | call_ParquetFile _ | call_write _ _ _ _ => true
  | _ => false
  end.

(** Events that none of the observers above sees. *)
Definition silent (evs : list Event) : Prop :=
  write_policies evs = [] /\ written evs = [] /\ failed_writes evs = [] /\
  status_reports evs = [] /\ errors evs = [] /\ success_reports evs = [].

(** [acc + x1], [acc + x1 + x2], ... *)
Fixpoint running (acc : N) (xs : list N) : list N :=
  match xs with
  | [] => []
  | x :: rest => (acc + x) :: running (acc + x) rest
  end.

Definition total (xs : list N) : N := fold_right N.add 0 xs.

(** The policy the [n] first write calls of a run carry, under the rule
    "configured on the first chunk, 'append' afterwards". *)
Definition expected_policies (first : bool) (configured : IfExists) (n : nat)
  : list IfExists :=
  match n with
  | O => []
  | S n' => (if first then configured else append_) :: repeat append_ n'
  end.

(** The policy of the write call of chunk number [k] (from 0) under the
    same rule. *)
Definition policy_at (first : bool) (configured : IfExists) (k : nat) : IfExists :=
  match k with
  | O => if first then configured else append_
  | S _ => append_
  end.



(** How many of the write calls carry 'replace'. *)
Definition replacements (ps : list IfExists) : nat :=
  List.length (filter (IfExists_eqb replace_) ps).

(** A list of counts that starts at or above [from] and never goes down. *)
Fixpoint nondecreasing (from : N) (xs : list N) : Prop :=
  match xs with
  | [] => True
  | x :: rest => from <= x /\ nondecreasing x rest
  end.

(** ** The two scripts side by side *)

Inductive Script : Type := app_py | recreate_project_py.

Section Scripts.
Context {L : Library}.

Definition start_import (s : Script) : Form -> M unit :=
  match s with
  | app_py => App.start_import
  | recreate_project_py => Recreated.start_import
  end.

(** How each script turns a batch into [df_chunk]. *)
Definition conversion (s : Script) (batch : Batch) : Result DataFrame :=
  match s with
  | app_py => to_pandas batch false
  | recreate_project_py => Recreated.convert batch
  end.

Definition chunk_len (s : Script) (batch : Batch) : N :=
  rows_of (conversion s batch).

Definition setup (s : Script) : Form -> Source -> M (Engine * ParquetFile) :=
  match s with
  | app_py => App.setup
  | recreate_project_py => Recreated.setup
  end.

Definition body (s : Script) : Form -> Engine -> Batch -> M unit :=
  match s with
  | app_py => App.body
  | recreate_project_py => Recreated.body
  end.

Definition update_progress (s : Script) : M unit :=
  match s with
  | app_py => App.update_progress
  | recreate_project_py => Recreated.update_progress
  end.

(** How each script turns [df_chunk] into [chunk_to_write]. *)
Definition normalize (s : Script) : DataFrame -> M Chunk :=
  match s with
  | app_py => App.normalize
  | recreate_project_py => Recreated.normalize
  end.


(** The parameters each script insists on before it starts. *)
Definition config_ok (s : Script) (f : Form) : bool :=
  match s with
  | app_py => truthy (db_name f) && truthy (db_user f)
  | recreate_project_py =>
      truthy (db_name f) && truthy (db_user f) && truthy (db_password f)
  end.


(** The machine when the script has run to its end. *)
Definition final (s : Script) (f : Form) (db : Db) : Machine :=
  fst (start_import s f (boot db)).

End Scripts.

(** ** A reference library

    A small database and the documented behaviour of the GeoPandas calls,
    over a file system given as two functions.  The decoder of one WKB value
    is a parameter too. *)

Module Reference.

Record Database : Type :=
  { tables : list (string * N);
    drops : nat }.

Definition empty : Database := {| tables := []; drops := 0%nat |}.

Fixpoint table_rows (name : string) (ts : list (string * N)) : option N :=
  match ts with
  | [] => None
  | (n, r) :: rest => if String.eqb n name then Some r else table_rows name rest
  end.

Fixpoint set_table (name : string) (rows : N) (ts : list (string * N))
  : list (string * N) :=
  match ts with
  | [] => [(name, rows)]
  | (n, r) :: rest =>
      if String.eqb n name then (n, rows) :: rest
      else (n, r) :: set_table name rows rest
  end.

(** [if_exists] as pandas documents it: 'fail' raises when the table is
    there, 'replace' drops it first, 'append' inserts.  An empty table name
    is refused before any SQL is sent. *)
Definition insert (db : Database) (table : string) (p : IfExists) (rows : N)
  : Database * Result unit :=
  if negb (truthy table) then
    (db, Raise (ValueError "Empty table name specified"))
  else
    match table_rows table (tables db), p with
    | None, _ =>
        ({| tables := set_table table rows (tables db); drops := drops db |}, Ok tt)
    | Some _, fail_ =>
        (db, Raise (ValueError "Table already exists."))
    | Some _, replace_ =>
        ({| tables := set_table table rows (tables db); drops := S (drops db) |}, Ok tt)
    | Some old, append_ =>
        ({| tables := set_table table (old + rows) (tables db); drops := drops db |}, Ok tt)
    end.

(** A little-endian WKB point: byte order 01, type 01 00 00 00, 16 bytes. *)
Definition loads_point (b : list byte) : option Geometry :=
  match b with
  | x01 :: x01 :: x00 :: x00 :: x00 :: xy =>
      if Nat.eqb (List.length xy) 16 then Some (Shape b) else None
  | _ => None
  end.

Section WithFiles.
Variable loads : list byte -> option Geometry.
Variable probe_answer : Source -> option N -> Result ProbeFrame.
Variable open_answer : Source -> Result ParquetFile.

Fixpoint decode (cells : list Cell) : Result (list Cell) :=
  match cells with
  | [] => Ok []
  | c :: rest =>
      match c with
      | PyNone =>
          match decode rest with
          | Ok r => Ok (PyNone :: r)
          | Raise e => Raise e
          end
      | PyBytes b =>
          match loads b with
          | Some g =>
              match decode rest with
              | Ok r => Ok (PyGeom g :: r)
              | Raise e => Raise e
              end
          | None => Raise (WKBReadingError "Could not create geometry because of errors while reading input.")
          end
      | PyStr _ =>
          Raise (WKBReadingError "Could not create geometry because of errors while reading input.")
      | _ => Raise (TypeError "Expected bytes or string")
      end
  end.

Definition ref_GeoSeries_from_wkb (s : Series) : Result Series :=
  match decode (values s) with
  | Ok cells => Ok {| dtype := DGeometry None; values := cells |}
  | Raise e => Raise e
  end.

(** The module [geopandas] has no function [from_wkb] of its own. *)
Definition ref_from_wkb (s : Series) : Result Series :=
  Raise (AttributeError "module 'geopandas' has no attribute 'from_wkb'").

Fixpoint as_geometries (cells : list Cell) : Result (list (option Geometry)) :=
  match cells with
  | [] => Ok []
  | c :: rest =>
      match c with
      | PyNone =>
          match as_geometries rest with
          | Ok r => Ok (None :: r)
          | Raise e => Raise e
          end
      | PyGeom g =>
          match as_geometries rest with
          | Ok r => Ok (Some g :: r)
          | Raise e => Raise e
          end
      | _ => Raise (TypeError "Input must be valid geometry objects")
      end
  end.

Definition series_crs (s : Series) : option CRS :=
  match dtype s with DGeometry c => c | _ => None end.

Definition from_values (df : DataFrame) (s : Series) : Result GeoDataFrame :=
  if negb (N.of_nat (List.length (values s)) =? nrows df) then
    Raise (ValueError "Length of values does not match length of index")
  else
    match as_geometries (values s) with
    | Ok gs => Ok {| gdf_frame := df; gdf_geometry := gs; gdf_crs := series_crs s |}
    | Raise e => Raise e
    end.

Definition ref_GeoDataFrame (df : DataFrame) (a : GeometryArg) : Result GeoDataFrame :=
  match a with
  | GeomValues s => from_values df s
  | GeomColumn n =>
      match column n (columns df) with
      | Some s => from_values df s
      | None => Raise (ValueError "Unknown column")
      end
  end.

Definition library : Library :=
  {| Db := Database;
     create_engine := fun u => Ok {| url := u |};
     execute := fun _ db _ => (db, Ok tt);
     read_parquet := probe_answer;
     pq_ParquetFile := open_answer;
     from_wkb := ref_from_wkb;
     GeoSeries_from_wkb := ref_GeoSeries_from_wkb;
     gpd_GeoDataFrame := ref_GeoDataFrame;
     to_sql := fun _ db table p df => insert db table p (len df);
     to_postgis := fun _ db table p g => insert db table p (len (gdf_frame g)) |}.

End WithFiles.
End Reference.

(** ** Concrete inputs *)

Module Inputs.

Definition form (policy : IfExists) : Form :=
  {| db_host := "192.168.1.2"; db_port := "5432"; db_name := "spatial";
     db_user := "hart"; db_password := "secret"; table_name := "imported_data";
     if_exists_opt := policy; input_method := LocalFilePath;
     uploaded_file := None; file_path := Some "/mnt/data/big_file.parquet" |}.

Definition upload_form (policy : IfExists) (u : UploadedFile) : Form :=
  {| db_host := "192.168.1.2"; db_port := "5432"; db_name := "spatial";
     db_user := "hart"; db_password := "secret"; table_name := "imported_data";
     if_exists_opt := policy; input_method := UploadFile;
     uploaded_file := Some u; file_path := None |}.

Definition ints (n : N) : Series :=
  {| dtype := DNumeric; values := repeat (PyInt 0) (N.to_nat n) |}.

(** A frame of [n] rows with one integer column. *)
Definition plain_frame (n : N) : DataFrame :=
  {| nrows := n; columns := [("id", ints n)] |}.

Definition batch_of (df : DataFrame) : Batch :=
  {| to_pandas := fun _ => Ok df |}.

Definition file_of (rows : option N) (frames : list DataFrame) : ParquetFile :=
  {| num_row_groups := 1; num_rows := rows;
     iter_batches := fun _ => map batch_of frames |}.

(** POINT (1 2) as little-endian well-known-binary. *)
Definition point_1_2 : list byte :=
  [x01; x01; x00; x00; x00;
   x00; x00; x00; x00; x00; x00; xf0; x3f;
   x00; x00; x00; x00; x00; x00; x00; x40].

Definition malformed : list byte := [xff; x00].

(** A frame with an integer column and a column of the given name, dtype
    and cells. *)
Definition geo_frame (name : string) (d : Dtype) (cells : list Cell) : DataFrame :=
  {| nrows := N.of_nat (List.length cells);
     columns := [("id", ints (N.of_nat (List.length cells)));
                 (name, {| dtype := d; values := cells |})] |}.

(** The probe of a plain Parquet file fails (no geo metadata). *)
Definition no_geo : Source -> option N -> Result ProbeFrame :=
  fun _ _ => Raise (ValueError "Missing geo metadata in Parquet/Feather file.").

Definition lib (probe : Source -> option N -> Result ProbeFrame) (pf : ParquetFile)
  : Library :=
  Reference.library Reference.loads_point probe (fun _ => Ok pf).

(** A database in which the target table is already there. *)
Definition occupied : Reference.Database :=
  {| Reference.tables := [("imported_data", 10)]; Reference.drops := 0%nat |}.

(** One plain batch, then one whose 'geometry' column is numeric. *)
Definition numeric_geometry : ParquetFile :=
  file_of (Some 3) [plain_frame 2; geo_frame "geometry" DNumeric [PyInt 7]].

Definition numeric_lib : Library := lib no_geo numeric_geometry.

(** The connection is filled in, the table name is not. *)
Definition no_table_form : Form :=
  {| db_host := "192.168.1.2"; db_port := "5432"; db_name := "spatial";
     db_user := "hart"; db_password := "secret"; table_name := "";
     if_exists_opt := append_; input_method := LocalFilePath;
     uploaded_file := None; file_path := Some "/mnt/data/big_file.parquet" |}.

(** The table is named, the database is not. *)
Definition no_database_form : Form :=
  {| db_host := "192.168.1.2"; db_port := "5432"; db_name := "";
     db_user := "hart"; db_password := "secret"; table_name := "imported_data";
     if_exists_opt := append_; input_method := LocalFilePath;
     uploaded_file := None; file_path := Some "/mnt/data/big_file.parquet" |}.



(** An uploaded file whose [seek] raises. *)
Definition closed_upload : UploadedFile :=
  {| file_name := "points.parquet";
     seek0 := Raise (ValueError "I/O operation on closed file.") |}.

Definition open_upload : UploadedFile :=
  {| file_name := "points.parquet"; seek0 := Ok tt |}.

(** One batch whose 'geometry' column holds POINT (1 2) as WKB. *)
Definition one_point : ParquetFile :=
  file_of (Some 1) [geo_frame "geometry" DObject [PyBytes point_1_2]].

(** One batch whose 'geometry' column holds bytes that are not WKB. *)
Definition bad_bytes : ParquetFile :=
  file_of (Some 1) [geo_frame "geometry" DObject [PyBytes malformed]].

Definition bad_lib : Library := lib no_geo bad_bytes.

(** A null geometry in row 0, a WKB point in row 1. *)
Definition null_then_point : DataFrame :=
  geo_frame "geometry" DObject [PyNone; PyBytes point_1_2].

(** The two bytes as a column, and the frame of the batch above. *)
Definition bad_column : Series :=
  {| dtype := DObject; values := [PyBytes malformed] |}.

Definition bad_frame : DataFrame :=
  geo_frame "geometry" DObject [PyBytes malformed].

(** The frame of [one_point], and the geo frame it becomes. *)
Definition point_frame : DataFrame :=
  geo_frame "geometry" DObject [PyBytes point_1_2].

Definition point_gdf : GeoDataFrame :=
  {| gdf_frame := point_frame;
     gdf_geometry := [Some (Shape point_1_2)];
     gdf_crs := Some (EPSG 4326) |}.

(** The machine after a probe that found a column 'geometry' without a
    reference system. *)
Definition probed_machine : @Machine bad_lib :=
  fst (assign_detected (L := bad_lib) "geometry" None
         (boot (L := bad_lib) Reference.empty)).

(** Two plain batches of 2 rows and 1 row. *)
Definition two_batches : ParquetFile :=
  file_of (Some 3) [plain_frame 2; plain_frame 1].

Definition small_lib : Library := lib no_geo two_batches.

(** Three plain batches of 50000, 50000 and 7 rows. *)
Definition three_batches : ParquetFile :=
  file_of (Some 100007) [plain_frame 50000; plain_frame 50000; plain_frame 7].

Definition plain_lib : Library := lib no_geo three_batches.


(** The logs of three runs on these inputs. *)
Definition no_table_log (s : Script) : list Event :=
  log (final (L := plain_lib) s no_table_form Reference.empty).

Definition closed_upload_log : list Event :=
  log (final (L := small_lib) recreate_project_py
         (upload_form append_ closed_upload) Reference.empty).

Definition bad_bytes_log (s : Script) : list Event :=
  log (final (L := bad_lib) s (form append_) Reference.empty).

End Inputs.

(** ** More readings of the log *)

(** The values handed to [progress_bar.progress]. *)
Definition progress_values (evs : list Event) : list Q :=
  flat_map (fun e => match e with progress_bar_progress v => [v] | _ => [] end) evs.

(** The table each write call names. *)
Definition write_tables (evs : list Event) : list string :=
  flat_map (fun e => match e with call_write t _ _ _ => [t] | _ => [] end) evs.

(** An event a run on the form [f] may log: a write call names the form's
    table, a progress value lies between 0 and 1. *)
Definition sound_event (f : Form) (e : Event) : Prop :=
  match e with
  | call_write t _ _ _ => t = table_name f
  | progress_bar_progress v => (0 <= v /\ v <= 1)%Q
  | _ => True
  end.

Section Emitting.
Context {L : Library}.

(** A computation that only appends events satisfying [P] to the log. *)
Definition Emits (P : Event -> Prop) {A} (c : M A) : Prop :=
  forall m, exists evs, log (fst (c m)) = (log m ++ evs)%list /\ Forall P evs.

(** The frames a script gets out of a list of batches. *)
Definition frames (s : Script) (bs : list Batch) : list DataFrame :=
  flat_map (fun b => match conversion s b with Ok df => [df] | Raise _ => [] end) bs.

(** The [rows=] argument of the probe's [read_parquet] call. *)
Definition probe_rows (source : Source) : option N :=
  if isinstance_str source then Some 1 else None.

(** The test of the recreated script's first branch:
    [is_spatial_file and detected_geometry_col in df_chunk.columns]. *)
Definition has_probed_column (m : Machine) (df : DataFrame) : bool :=
  match Recreated.probed_column (is_spatial_file m) (detected_geometry_col m) df with
  | Some _ => true
  | None => false
  end.

(** ['geometry' in df_chunk.columns] *)
Definition has_geometry_column (df : DataFrame) : bool :=
  match column "geometry" (columns df) with
  | Some _ => true
  | None => false
  end.

End Emitting.

(** ** The widgets above the button

    Lines 13-36 of both scripts: the sidebar fields, the choice of input
    method, and the two widgets of which only the chosen one is drawn. *)

Module Page.

Record Widgets : Type :=
  { host : string;
    port : string;
    database : string;
    username : string;
    password : string;
    target_table : string;
    if_table_exists : IfExists;
    method : InputMethod;
    file_uploader : option UploadedFile;
    file_path_input : string;
    button : bool }.

Section Resolve.
(** [os.path.exists] *)
Variable path_exists : string -> bool.

(** [uploaded_file] after lines 27-30: the uploader is drawn, and read, only
    under the upload method. *)
Definition uploaded (w : Widgets) : option UploadedFile :=
  match method w with
  | UploadFile => file_uploader w
  | LocalFilePath => None
  end.

(** [file_path] after lines 26-36. *)
Definition resolved_path (w : Widgets) : option string :=
  match method w with
  | UploadFile => None
  | LocalFilePath =>
      if truthy (file_path_input w) && path_exists (file_path_input w)
      then Some (file_path_input w)
      else None
  end.

(** Whether line 36 shows "File not found.". *)
Definition file_not_found (w : Widgets) : bool :=
  match method w with
  | UploadFile => false
  | LocalFilePath =>
      if truthy (file_path_input w) && path_exists (file_path_input w) then false
      else truthy (file_path_input w)
  end.

(** The variables the button handler reads. *)
Definition form_of (w : Widgets) : Form :=
  {| db_host := host w; db_port := port w; db_name := database w;
     db_user := username w; db_password := password w;
     table_name := target_table w; if_exists_opt := if_table_exists w;
     input_method := method w;
     uploaded_file := uploaded w; file_path := resolved_path w |}.

(** One run of the script: whether "File not found." was shown, and what
    the button handler did to the machine, if the button was pressed. *)
Definition script {L : Library} (s : Script) (w : Widgets) (m : Machine)
  : bool * (Machine * Result unit) :=
  (file_not_found w,
   if button w then start_import s (form_of w) m else (m, Ok tt)).

End Resolve.
End Page.

(** ** [recreate_files] of [src/recreate_project.py] *)

Module Project.

Local Open Scope Z_scope.

(** A file of the working directory: its text and its [st_mode]. *)
Record File : Type := { content : string; st_mode : Z }.

Definition FileSystem : Type := string -> option File.

(** The directory and what was printed, one entry per [print]. *)
Record World : Type := { fs : FileSystem; stdout : list string }.

(** [s.endswith(suffix)] *)
Definition endswith (s suffix : string) : bool :=
  let n := String.length s in
  let k := String.length suffix in
  (k <=? n)%nat && String.eqb (substring (n - k) k s) suffix.

(** The permission bits [chmod] can set, 0o7777, and the three execute
    bits, 0o111. *)
Definition permission_bits : Z := 4095.
Definition execute_bits : Z := 73.

Section Files.
(** The five texts of [PROJECT_FILES]. *)
Variables app_py_text requirements_txt_text Dockerfile_text run_sh_text
  generate_data_py_text : string.
(** The mode [open] gives a file it creates. *)
Variable default_mode : Z.
(** The names [open(..., 'w')] and [os.chmod] refuse. *)
Variable unwritable : string -> bool.
Variable not_owner : string -> bool.

Definition PROJECT_FILES : list (string * string) :=
  [("app.py", app_py_text);
   ("requirements.txt", requirements_txt_text);
   ("Dockerfile", Dockerfile_text);
   ("run.sh", run_sh_text);
   ("generate_data.py", generate_data_py_text)].

Fixpoint lookup (name : string) (items : list (string * string)) : option string :=
  match items with
  | [] => None
  | (n, c) :: rest => if String.eqb n name then Some c else lookup name rest
  end.

Definition mode_of (d : FileSystem) (filename : string) : Z :=
  match d filename with
  | Some f => st_mode f
  | None => default_mode
  end.

(** [with open(filename, 'w') as f: f.write(content)]: the file is created
    or truncated and holds [content]; an existing file keeps its mode. *)
Definition open_write (filename text : string) (d : FileSystem) : Result FileSystem :=
  if unwritable filename then Raise (OSError "Permission denied")
  else
    Ok (fun n =>
          if String.eqb n filename
          then Some {| content := text; st_mode := mode_of d filename |}
          else d n).

(** [os.stat(filename)] *)
Definition stat (filename : string) (d : FileSystem) : Result File :=
  match d filename with
  | Some f => Ok f
  | None => Raise (OSError "No such file or directory")
  end.

(** [os.chmod(filename, mode)]: the permission bits of [mode] replace those
    of the file, the file-type bits stay. *)
Definition chmod (filename : string) (mode : Z) (d : FileSystem) : Result FileSystem :=
  match d filename with
  | None => Raise (OSError "No such file or directory")
  | Some f =>
      if not_owner filename then Raise (OSError "Operation not permitted")
      else
        Ok (fun n =>
              if String.eqb n filename
              then Some {| content := content f;
                           st_mode := Z.lor (Z.land (st_mode f) (Z.lnot permission_bits))
                                        (Z.land mode permission_bits) |}
              else d n)
  end.

Definition print (line : string) (w : World) : World :=
  {| fs := fs w; stdout := (stdout w ++ [line])%list |}.

(** The body of the loop of [recreate_files]. *)
Definition recreate_one (filename text : string) (w : World) : World * Result unit :=
  match open_write filename text (fs w) with
  | Raise e => (w, Raise e)
  | Ok d1 =>
      let w1 := {| fs := d1; stdout := stdout w |} in
      if endswith filename ".sh" then
        match stat filename d1 with
        | Raise e => (w1, Raise e)
        | Ok st =>
            match chmod filename (Z.lor (st_mode st) execute_bits) d1 with
            | Raise e => (w1, Raise e)
            | Ok d2 =>
                (print ("Created/Updated " ++ filename)
                   {| fs := d2; stdout := stdout w |}, Ok tt)
            end
        end
      else (print ("Created/Updated " ++ filename) w1, Ok tt)
  end.

Fixpoint recreate_all (items : list (string * string)) (w : World)
  : World * Result unit :=
  match items with
  | [] => (w, Ok tt)
  | (filename, text) :: rest =>
      match recreate_one filename text w with
      | (w1, Ok _) => recreate_all rest w1
      | (w1, Raise e) => (w1, Raise e)
      end
  end.

Definition recreate_files (w : World) : World * Result unit :=
  match recreate_all PROJECT_FILES (print "Recreating project files..." w) with
  | (w1, Ok _) =>
      (print "  ./run.sh"
         (print (String (Ascii.ascii_of_nat 10) "Done! You can run the app using:") w1),
       Ok tt)
  | (w1, Raise e) => (w1, Raise e)
  end.

(** The mode a project file has after a run that reached it. *)
Definition mode_after (d : FileSystem) (filename : string) : Z :=
  if endswith filename ".sh" then Z.lor (mode_of d filename) execute_bits
  else mode_of d filename.

End Files.
End Project.

(** ** More concrete inputs *)

Module Samples.

Definition widgets (m : InputMethod) (u : option UploadedFile) (path : string)
  : Page.Widgets :=
  {| Page.host := "192.168.1.2"; Page.port := "5432"; Page.database := "spatial";
     Page.username := "hart"; Page.password := "secret";
     Page.target_table := "imported_data"; Page.if_table_exists := append_;
     Page.method := m; Page.file_uploader := u; Page.file_path_input := path;
     Page.button := true |}.

(** Only this path exists. *)
Definition one_file : string -> bool :=
  fun p => String.eqb p "/mnt/data/big_file.parquet".

(** A batch whose default conversion raises [ValueError] and whose
    conversion without metadata gives two rows. *)
Definition knime_batch : Batch :=
  {| to_pandas := fun ignore_metadata =>
       if ignore_metadata then Ok (Inputs.plain_frame 2)
       else Raise (ValueError "unsupported metadata") |}.

(** A batch that converts in neither way. *)
Definition broken_batch : Batch :=
  {| to_pandas := fun ignore_metadata =>
       if ignore_metadata then Raise (TypeError "second")
       else Raise (OSError "first") |}.

(** A file without batches. *)
Definition no_batches : ParquetFile := Inputs.file_of (Some 0) [].

Definition empty_lib : Library := Inputs.lib Inputs.no_geo no_batches.

(** A library that cannot open the file. *)
Definition unreadable_lib : Library :=
  Reference.library Reference.loads_point Inputs.no_geo
    (fun _ => Raise (OSError "Parquet magic bytes not found in footer.")).

(** [gpd.read_parquet] on an uploaded GeoParquet file in EPSG:3857 with no
    active geometry name; with [rows=1], as for a path, the call raises. *)
Definition geometry_3857 : Source -> option N -> Result ProbeFrame :=
  fun _ rows =>
    match rows with
    | None => Ok (ProbeGeo None (Some (EPSG 3857)))
    | Some _ =>
        Raise (TypeError "read_table() got an unexpected keyword argument 'rows'")
    end.

(** A library whose probe finds a geo frame with column 'geometry'. *)
Definition probed_lib : Library := Inputs.lib geometry_3857 Inputs.one_point.




(** The reference library over the two plain batches, with an engine or an
    SQL statement that may raise. *)
Definition faulty_lib (engine_error execute_error : option Exn) : Library :=
  {| Db := Reference.Database;
     create_engine := fun u =>
       match engine_error with
       | Some e => Raise e
       | None => Ok {| url := u |}
       end;
     execute := fun _ db _ =>
       (db, match execute_error with
            | Some e => Raise e
            | None => Ok tt
            end);
     read_parquet := Inputs.no_geo;
     pq_ParquetFile := fun _ => Ok Inputs.two_batches;
     from_wkb := Reference.ref_from_wkb;
     GeoSeries_from_wkb := Reference.ref_GeoSeries_from_wkb Reference.loads_point;
     gpd_GeoDataFrame := Reference.ref_GeoDataFrame;
     to_sql := fun _ db table p df => Reference.insert db table p (len df);
     to_postgis := fun _ db table p g =>
       Reference.insert db table p (len (gdf_frame g)) |}.

Definition bad_port : Exn := ArgumentError "invalid literal for int() with base 10".

Definition no_privilege : Exn :=
  DatabaseError "permission denied to create extension postgis".

(** A directory with a read-only [run.sh] and a stray file. *)
Definition directory : Project.FileSystem :=
  fun n =>
    if String.eqb n "run.sh"
    then Some {| Project.content := "old"; Project.st_mode := 33188%Z |}
    else if String.eqb n "notes.txt"
    then Some {| Project.content := "keep"; Project.st_mode := 33188%Z |}
    else None.

Definition world : Project.World :=
  {| Project.fs := directory; Project.stdout := [] |}.

Definition nothing : string -> bool := fun _ => false.

Definition only_dockerfile : string -> bool :=
  fun n => String.eqb n "Dockerfile".

End Samples.

(** * Properties *)

Open Scope list_scope.

Section Quietness.
Context {L : Library}.

Lemma same_core_refl (m : Machine) : same_core m m.
Proof. unfold same_core; intuition. Qed.

Lemma same_core_trans (a b c : Machine) :
  same_core a b -> same_core b c -> same_core a c.
Proof. unfold same_core; intuition congruence. Qed.

Lemma quiet_ret {A} (a : A) : Quiet (ret a).
Proof. intro m; apply same_core_refl. Qed.

Lemma quiet_raise {A} (e : Exn) : Quiet (@raise L A e).
Proof. intro m; apply same_core_refl. Qed.

Lemma quiet_lift {A} (r : Result A) : Quiet (lift r).
Proof. intro m; apply same_core_refl. Qed.

Lemma quiet_get {A} (f : Machine -> A) : Quiet (get f).
Proof. intro m; apply same_core_refl. Qed.

Lemma quiet_read_gdf_chunk : Quiet read_gdf_chunk.
Proof.
  intro m; unfold read_gdf_chunk.
  destruct (gdf_chunk m); apply same_core_refl.
Qed.

Lemma quiet_assign_gdf_chunk (g : GeoDataFrame) : Quiet (assign_gdf_chunk g).
Proof. intro m; unfold same_core; simpl; intuition. Qed.

Lemma quiet_bind {A B} (c : M A) (k : A -> M B) :
  Quiet c -> (forall a, Quiet (k a)) -> Quiet (bind c k).
Proof.
  intros Hc Hk m. unfold bind.
  specialize (Hc m). destruct (c m) as [m1 [a | e]]; simpl in *.
  - eapply same_core_trans; [exact Hc | apply Hk].
  - exact Hc.
Qed.

Lemma quiet_try_except {A} (c : M A) (h : Exn -> M A) :
  Quiet c -> (forall e, Quiet (h e)) -> Quiet (try_except c h).
Proof.
  intros Hc Hh m. unfold try_except.
  specialize (Hc m). destruct (c m) as [m1 [a | e]]; simpl in *.
  - exact Hc.
  - eapply same_core_trans; [exact Hc | apply Hh].
Qed.

Lemma quiet_assume_4326 : Quiet assume_4326.
Proof.
  unfold assume_4326. apply quiet_bind; [apply quiet_read_gdf_chunk | intro g].
  destruct (gdf_crs g).
  - apply quiet_ret.
  - apply quiet_bind; [apply quiet_lift | intro; apply quiet_assign_gdf_chunk].
Qed.

End Quietness.

Create HintDb quiet.
#[local] Hint Resolve quiet_ret quiet_raise quiet_lift quiet_get
  quiet_read_gdf_chunk quiet_assign_gdf_chunk quiet_assume_4326 : quiet.

(** Splits a [Quiet] goal along the shape of the computation. *)
Ltac quiet :=
  repeat first
    [ solve [auto with quiet]
    | apply quiet_bind; [ | intro ]
    | apply quiet_try_except; [ | intro ]
    | match goal with
      | |- Quiet (match ?x with _ => _ end) => destruct x
      | |- Quiet (let (_, _) := ?x in _) => destruct x
      end ].

Section Normalizers.
Context {L : Library}.

Lemma quiet_App_normalize (df : DataFrame) : Quiet (App.normalize df).
Proof. unfold App.normalize. quiet. Qed.

Lemma quiet_App_prepare (b : Batch) : Quiet (App.prepare b).
Proof.
  unfold App.prepare.
  apply quiet_bind; [auto with quiet | intro df].
  apply quiet_bind; [apply quiet_App_normalize | intro; auto with quiet].
Qed.

Lemma quiet_apply_crs (d : option CRS) : Quiet (Recreated.apply_crs d).
Proof. unfold Recreated.apply_crs. quiet. Qed.

Lemma quiet_Recreated_normalize (df : DataFrame) : Quiet (Recreated.normalize df).
Proof.
  pose proof quiet_apply_crs as Hcrs.
  unfold Recreated.normalize. quiet.
Qed.

Lemma quiet_Recreated_prepare (b : Batch) : Quiet (Recreated.prepare b).
Proof.
  unfold Recreated.prepare.
  apply quiet_bind; [auto with quiet | intro df].
  apply quiet_bind; [apply quiet_Recreated_normalize | intro; auto with quiet].
Qed.

End Normalizers.

(** ** Observers and appended logs *)

Lemma write_policies_app (a b : list Event) :
  write_policies (a ++ b) = write_policies a ++ write_policies b.
Proof. apply flat_map_app. Qed.

Lemma written_app (a b : list Event) : written (a ++ b) = written a ++ written b.
Proof. apply flat_map_app. Qed.

Lemma status_reports_app (a b : list Event) :
  status_reports (a ++ b) = status_reports a ++ status_reports b.
Proof. apply flat_map_app. Qed.

Lemma status_totals_app (a b : list Event) :
  status_totals (a ++ b) = status_totals a ++ status_totals b.
Proof. apply flat_map_app. Qed.

Lemma failed_writes_app (a b : list Event) :
  failed_writes (a ++ b) = failed_writes a ++ failed_writes b.
Proof. apply flat_map_app. Qed.

Lemma success_reports_app (a b : list Event) :
  success_reports (a ++ b) = success_reports a ++ success_reports b.
Proof. apply flat_map_app. Qed.

Lemma errors_app (a b : list Event) : errors (a ++ b) = errors a ++ errors b.
Proof. apply flat_map_app. Qed.

Lemma expected_policies_later (c : IfExists) (n : nat) :
  expected_policies false c n = repeat append_ n.
Proof. destruct n; reflexivity. Qed.

(** ** One iteration, and the whole loop

    Both scripts run the same loop around their own normalizer and their own
    progress report.  The loop is analysed once, over any pair of these that
    keeps quiet before the write and reports the running count after it. *)

Section Loop.
Context {L : Library}.
Variable prepare : Batch -> M (DataFrame * Chunk).
Variable report : M unit.
Variable conv : Batch -> Result DataFrame.
Variable good : option N -> Prop.
Variable f : Form.
Variable engine : Engine.

Hypothesis prepare_quiet : forall b, Quiet (prepare b).
Hypothesis prepare_conv :
  forall b m m' df c, prepare b m = (m', Ok (df, c)) -> conv b = Ok df.

Let chunk_len (b : Batch) : N := rows_of (conv b).
Hypothesis report_spec :
  forall m, good (total_rows m) ->
    exists evs,
      report m = (logged evs m, Ok tt) /\
      status_reports evs = [rows_processed m] /\
      write_policies evs = [] /\ written evs = [] /\ failed_writes evs = [] /\
      errors evs = [] /\ success_reports evs = [].

Let body (b : Batch) : M unit :=
  p <- prepare b ;;
  write_and_count f engine (fst p) (snd p) ;;
  report.

Let current (m : Machine) : IfExists :=
  if is_first_chunk m then if_exists_opt f else append_.

Lemma iteration (b : Batch) (m m' : Machine) (r : Result unit) :
  good (total_rows m) ->
  body b m = (m', r) ->
  exists evs,
    log m' = log m ++ evs /\
    total_rows m' = total_rows m /\
    errors evs = [] /\ success_reports evs = [] /\
    ((r = Ok tt /\
      is_ok (conv b) = true /\
      rows_processed m' = rows_processed m + chunk_len b /\
      is_first_chunk m' = false /\
      status_reports evs = [rows_processed m + chunk_len b] /\
      List.length (written evs) = 1%nat /\
      write_policies evs = [current m] /\
      failed_writes evs = [])
     \/
     (exists e, r = Raise e /\
      rows_processed m' = rows_processed m /\
      is_first_chunk m' = is_first_chunk m /\
      status_reports evs = [] /\
      written evs = [] /\
      (write_policies evs = [] /\ failed_writes evs = [] \/
       write_policies evs = [current m] /\ failed_writes evs = [current m]))).
Proof.
  intros Hgood Hbody. unfold body, bind in Hbody.
  pose proof (prepare_quiet b m) as Hq.
  destruct (prepare b m) as [m1 [[df c] | e]] eqn:Hp; simpl in Hq, Hbody.
  2:{ inversion Hbody; subst; clear Hbody.
      destruct Hq as (Hl & _ & Hr & Ht & Hf & _).
      exists []. rewrite app_nil_r.
      repeat split; auto. right. exists e. repeat split; auto. }
  apply prepare_conv in Hp.
  assert (Hlen : len df = chunk_len b) by (unfold chunk_len; rewrite Hp; reflexivity).
  destruct Hq as (Hl & _ & Hr & Ht & Hf & _).
  unfold write_and_count, bind, get, write in Hbody. simpl in Hbody.
  set (cur := if is_first_chunk m1 then if_exists_opt f else append_) in *.
  assert (Hcur : cur = current m) by (unfold cur, current; rewrite Hf; reflexivity).
  destruct (match c with
            | Spatial g => to_postgis engine (store m1) (table_name f) cur g
            | Plain d => to_sql engine (store m1) (table_name f) cur d
            end) as [db [u | e]]; simpl in Hbody.
  - match type of Hbody with report ?m2 = _ =>
      destruct (report_spec m2) as (evs & Hrep & Hs & Hw & Hwr & Hfw & He & Hsu);
        [simpl; rewrite Ht; exact Hgood | ]
    end.
    rewrite Hrep in Hbody. inversion Hbody; subst m' r; clear Hbody Hrep.
    simpl in Hs. simpl.
    exists (call_write (table_name f) cur c None :: evs).
    rewrite Hl, <- app_assoc. simpl.
    repeat split; auto.
    left. rewrite Hs, Hw, Hwr, Hr, Hlen, Hcur, Hp. simpl. repeat split; auto.
  - inversion Hbody; subst m' r; clear Hbody. simpl.
    exists [call_write (table_name f) cur c (Some e)].
    rewrite Hl. repeat split; auto.
    right. exists e. simpl. rewrite Hcur. repeat split; auto.
Qed.

Lemma loop_spec (bs : list Batch) :
  forall (m m' : Machine) (r : Result unit),
    good (total_rows m) ->
    for_each bs body m = (m', r) ->
    exists (evs : list Event) (k j : nat),
      log m' = log m ++ evs /\
      (k <= List.length bs)%nat /\
      (r = Ok tt -> k = List.length bs) /\
      Forall (fun b => is_ok (conv b) = true) (firstn k bs) /\
      rows_processed m' = rows_processed m + total (firstn k (map chunk_len bs)) /\
      is_first_chunk m' = match k with O => is_first_chunk m | S _ => false end /\
      total_rows m' = total_rows m /\
      status_reports evs
        = running (rows_processed m) (firstn k (map chunk_len bs)) /\
      List.length (written evs) = k /\
      (j = k \/ j = S k) /\ (r = Ok tt -> j = k) /\
      write_policies evs
        = expected_policies (is_first_chunk m) (if_exists_opt f) j /\
      failed_writes evs
        = (if Nat.eqb j k then []
           else [policy_at (is_first_chunk m) (if_exists_opt f) k]) /\
      errors evs = [] /\ success_reports evs = [].
Proof.
  induction bs as [| b rest IH]; intros m m' r Hgood Hrun.
  - inversion Hrun; subst. exists [], 0%nat, 0%nat.
    rewrite app_nil_r. simpl. rewrite N.add_0_r. repeat split; auto.
  - simpl in Hrun. unfold bind in Hrun.
    destruct (body b m) as [m1 r1] eqn:Hb.
    destruct (iteration b m m1 r1 Hgood Hb)
      as (evs1 & Hl1 & Ht1 & He1 & Hs1 & [Hok | Hbad]).
    + destruct Hok as (-> & Hc1 & Hr1 & Hf1 & Hst1 & Hw1 & Hp1 & Hfw1).
      assert (Hgood1 : good (total_rows m1)) by (rewrite Ht1; exact Hgood).
      destruct (IH m1 m' r Hgood1 Hrun)
        as (evs2 & k & j & Hl & Hk & Hall & Hconv & Hr & Hf & Ht & Hst & Hw & Hj
            & Hjok & Hp & Hfw & He & Hs).
      exists (evs1 ++ evs2), (S k), (S j).
      rewrite write_policies_app, written_app, status_reports_app,
        failed_writes_app, errors_app, success_reports_app, length_app.
      rewrite Hl, Hl1, Hst, Hst1, Hw, Hw1, Hp, Hp1, Hfw, Hfw1, He, He1, Hs, Hs1,
        Hf1, expected_policies_later.
      simpl. rewrite app_assoc.
      repeat split; auto; try lia.
      * rewrite Hf. destruct k; [exact Hf1 | reflexivity].
      * rewrite Ht. exact Ht1.
      * rewrite Hr1. reflexivity.
      * destruct (Nat.eqb j k); [reflexivity | destruct k; reflexivity].
    + destruct Hbad as (e & -> & Hr1 & Hf1 & Hst1 & Hw1 & Hp1).
      inversion Hrun; subst m' r; clear Hrun.
      destruct Hp1 as [[Hp1 Hfw1] | [Hp1 Hfw1]].
      * exists evs1, 0%nat, 0%nat. simpl. rewrite N.add_0_r, Hw1.
        repeat split; auto; try lia; discriminate.
      * exists evs1, 0%nat, 1%nat. simpl. rewrite N.add_0_r, Hw1.
        repeat split; auto; try lia; discriminate.
Qed.

End Loop.

(** ** From the button to the end of the run *)

Section Run.
Context {L : Library}.
Variable prepare : Batch -> M (DataFrame * Chunk).
Variable report : M unit.
Variable conv : Batch -> Result DataFrame.
Variable good : option N -> Prop.
Variable f : Form.
Variable source : Source.
Variable setup : M (Engine * ParquetFile).

Hypothesis prepare_quiet : forall b, Quiet (prepare b).
Hypothesis prepare_conv :
  forall b m m' df c, prepare b m = (m', Ok (df, c)) -> conv b = Ok df.

Let chunk_len (b : Batch) : N := rows_of (conv b).
Hypothesis report_spec :
  forall m, good (total_rows m) ->
    exists evs,
      report m = (logged evs m, Ok tt) /\
      status_reports evs = [rows_processed m] /\
      write_policies evs = [] /\ written evs = [] /\ failed_writes evs = [] /\
      errors evs = [] /\ success_reports evs = [].
Hypothesis setup_spec :
  forall m m0 r, setup m = (m0, r) ->
    exists evs,
      log m0 = log m ++ evs /\ silent evs /\
      match r with
      | Ok p =>
          pq_ParquetFile source = Ok (snd p) /\
          rows_processed m0 = 0 /\ is_first_chunk m0 = true /\
          good (total_rows m0)
      | Raise _ =>
          rows_processed m0 = rows_processed m /\
          is_first_chunk m0 = is_first_chunk m
      end.

Let stream : M unit :=
  p <- setup ;;
  for_each (iter_batches (snd p) batch_size)
    (fun b => q <- prepare b ;;
              write_and_count f (fst p) (fst q) (snd q) ;;
              report) ;;
  n <- get rows_processed ;;
  emit (st_success_imported n (table_name f)).

Lemma run_spec (m m' : Machine) :
  log m = [] -> rows_processed m = 0 -> is_first_chunk m = true ->
  fst (try_except stream report_failure m) = m' ->
  exists k j : nat,
    List.length (written (log m')) = k /\
    (j = k \/ j = S k) /\
    write_policies (log m') = expected_policies true (if_exists_opt f) j /\
    failed_writes (log m')
      = (if Nat.eqb j k then [] else [policy_at true (if_exists_opt f) k]) /\
    is_first_chunk m' = Nat.eqb k 0 /\
    (forall pf, pq_ParquetFile source = Ok pf ->
       let lens := map chunk_len (iter_batches pf batch_size) in
       (k <= List.length lens)%nat /\
       Forall (fun b => is_ok (conv b) = true)
         (firstn k (iter_batches pf batch_size)) /\
       rows_processed m' = total (firstn k lens) /\
       status_reports (log m') = running 0 (firstn k lens) /\
       (errors (log m') = [] ->
          k = List.length lens /\ j = k /\
          success_reports (log m') = [total lens])) /\
    (errors (log m') = [] -> exists pf, pq_ParquetFile source = Ok pf).
Proof.
  intros Hlog Hrows Hfirst Hrun.
  unfold try_except, stream, bind in Hrun.
  destruct (setup m) as [m0 [[engine pf] | e]] eqn:Hsetup.
  - apply setup_spec in Hsetup.
    destruct Hsetup as (evs0 & Hl0 & (Hp0 & Hw0 & Hfw0 & Hst0 & He0 & Hs0) & Hopen
                        & Hr0 & Hf0 & Hgood).
    simpl in Hopen, Hrun. rewrite Hlog in Hl0. simpl in Hl0.
    match type of Hrun with context [for_each ?bs ?b m0] =>
      destruct (for_each bs b m0) as [m1 r1] eqn:Hloop end.
    destruct (loop_spec prepare report conv good f engine
                prepare_quiet prepare_conv report_spec _ _ _ _ Hgood Hloop)
      as (evs & k & j & Hl & Hk & Hall & Hconv & Hr & Hf & _ & Hst & Hw & Hj
          & Hjok & Hp & Hfw & He & Hs).
    rewrite Hl0 in Hl. rewrite Hr0 in Hr, Hst. rewrite Hf0 in Hf, Hp, Hfw.
    rewrite N.add_0_l in Hr.
    exists k, j.
    destruct r1 as [[] | e]; simpl in Hrun; subst m'; simpl; rewrite Hl;
      repeat rewrite written_app, ?write_policies_app, ?failed_writes_app,
        ?status_reports_app, ?errors_app, ?success_reports_app;
      rewrite Hw0, Hp0, Hfw0, Hst0, He0, Hs0, Hp, Hfw, Hst, He, Hs; simpl;
      repeat rewrite app_nil_r.
    + specialize (Hall eq_refl). specialize (Hjok eq_refl). subst j.
      split; [exact Hw | ]. split; [exact Hj | ]. split; [reflexivity | ].
      split; [reflexivity | ]. split; [rewrite Hf; destruct k; reflexivity | ].
      split.
      * intros pf0 H0. replace pf0 with pf by congruence.
        cbv zeta. rewrite length_map.
        split; [lia | ]. split; [exact Hconv | ]. split; [exact Hr | ].
        split; [reflexivity | ]. intros _.
        split; [exact Hall | ]. split; [reflexivity | ].
        rewrite Hr, Hall, <- (length_map chunk_len), firstn_all. reflexivity.
      * intros _. exists pf. exact Hopen.
    + split; [exact Hw | ]. split; [exact Hj | ]. split; [reflexivity | ].
      split; [reflexivity | ]. split; [rewrite Hf; destruct k; reflexivity | ].
      split; [ | discriminate ].
      intros pf0 H0. replace pf0 with pf by congruence.
      cbv zeta. rewrite length_map.
      split; [lia | ]. split; [exact Hconv | ]. split; [exact Hr | ].
      split; [reflexivity | discriminate ].
  - apply setup_spec in Hsetup.
    destruct Hsetup as (evs0 & Hl0 & (Hp0 & Hw0 & Hfw0 & Hst0 & He0 & Hs0) & Hr0 & Hf0).
    rewrite Hlog in Hl0. simpl in Hl0, Hrun. subst m'. simpl.
    exists 0%nat, 0%nat. rewrite Hl0.
    repeat rewrite written_app, ?write_policies_app, ?failed_writes_app,
      ?status_reports_app, ?errors_app, ?success_reports_app.
    rewrite Hw0, Hp0, Hfw0, Hst0, He0, Hs0. simpl.
    repeat split; auto; try lia; try discriminate; congruence.
Qed.

End Run.

(** ** The two scripts as instances *)

Section Instances.
Context {L : Library}.

Lemma logged_logged (a b : list Event) (m : Machine) :
  logged b (logged a m) = logged (a ++ b) m.
Proof. unfold logged; simpl. rewrite app_assoc. reflexivity. Qed.

Lemma App_prepare_conv (b : Batch) (m m' : Machine) (df : DataFrame) (c : Chunk) :
  App.prepare b m = (m', Ok (df, c)) -> to_pandas b false = Ok df.
Proof.
  unfold App.prepare, bind, lift.
  destruct (to_pandas b false) as [d | e]; [ | discriminate ].
  destruct (App.normalize d m) as [m1 [c1 | e1]]; simpl; [ | discriminate ].
  intros H; inversion H; subst; reflexivity.
Qed.

Lemma Recreated_prepare_conv (b : Batch) (m m' : Machine) (df : DataFrame) (c : Chunk) :
  Recreated.prepare b m = (m', Ok (df, c)) -> Recreated.convert b = Ok df.
Proof.
  unfold Recreated.prepare, bind, lift.
  destruct (Recreated.convert b) as [d | e]; [ | discriminate ].
  destruct (Recreated.normalize d m) as [m1 [c1 | e1]]; simpl; [ | discriminate ].
  intros H; inversion H; subst; reflexivity.
Qed.

(** The progress report of [src/app.py] never raises. *)
Lemma App_report (m : Machine) :
  True ->
  exists evs,
    App.update_progress m = (logged evs m, Ok tt) /\
    status_reports evs = [rows_processed m] /\
    write_policies evs = [] /\ written evs = [] /\ failed_writes evs = [] /\
    errors evs = [] /\ success_reports evs = [].
Proof.
  intros _. unfold App.update_progress, bind, get, lift, ret, emit. simpl.
  destruct (total_rows m) as [t | ] eqn:Ht; simpl.
  - destruct (t =? 0) eqn:Hz; simpl.
    + eexists. split; [reflexivity | simpl; repeat split].
    + rewrite logged_logged. eexists. split; [reflexivity | simpl; repeat split].
  - eexists. split; [reflexivity | simpl; repeat split].
Qed.

(** The one of the recreated script does not either, once [total_rows] is
    an integer. *)
Lemma Recreated_report (m : Machine) :
  total_rows m <> None ->
  exists evs,
    Recreated.update_progress m = (logged evs m, Ok tt) /\
    status_reports evs = [rows_processed m] /\
    write_policies evs = [] /\ written evs = [] /\ failed_writes evs = [] /\
    errors evs = [] /\ success_reports evs = [].
Proof.
  intros Hsome. unfold Recreated.update_progress, bind, get, lift, ret, emit. simpl.
  destruct (total_rows m) as [t | ] eqn:Ht; [ | congruence ]. simpl.
  destruct (1 <? t) eqn:Hgt; simpl.
  - assert (Hz : (t =? 0) = false)
      by (apply N.eqb_neq; apply N.ltb_lt in Hgt; lia).
    rewrite Hz. simpl. rewrite logged_logged.
    eexists. split; [reflexivity | simpl; repeat split].
  - eexists. split; [reflexivity | simpl; repeat split].
Qed.

Lemma App_setup_spec (f : Form) (source : Source) (m m0 : Machine)
    (r : Result (Engine * ParquetFile)) :
  App.setup f source m = (m0, r) ->
  exists evs,
    log m0 = log m ++ evs /\ silent evs /\
    match r with
    | Ok p =>
        pq_ParquetFile source = Ok (snd p) /\
        rows_processed m0 = 0 /\ is_first_chunk m0 = true /\ True
    | Raise _ =>
        rows_processed m0 = rows_processed m /\
        is_first_chunk m0 = is_first_chunk m
    end.
Proof.
  unfold App.setup, bind, lift, emit, ret, assign_rows_processed,
    assign_total_rows, assign_is_first_chunk. simpl.
  destruct (create_engine (db_url f)) as [engine | e]; simpl.
  2:{ intros H; inversion H; subst; simpl.
      eexists; split; [reflexivity | split; [repeat split | auto]]. }
  destruct (pq_ParquetFile source) as [pf | e] eqn:Hopen; simpl.
  2:{ intros H; inversion H; subst; simpl.
      eexists; split; [rewrite <- !app_assoc; reflexivity
                      | split; [repeat split | auto]]. }
  intros H; inversion H; subst; simpl.
  eexists; split; [rewrite <- !app_assoc; reflexivity
                  | split; [repeat split | auto]].
Qed.

(** The probe logs its calls and a detection notice, nothing else, and
    leaves the counters alone. *)
Lemma probe_spec (source : Source) (m m0 : Machine) (r : Result unit) :
  Recreated.probe source m = (m0, r) ->
  exists evs,
    log m0 = log m ++ evs /\ silent evs /\
    store m0 = store m /\
    rows_processed m0 = rows_processed m /\
    is_first_chunk m0 = is_first_chunk m /\
    total_rows m0 = total_rows m /\
    gdf_chunk m0 = gdf_chunk m.
Proof.
  unfold Recreated.probe, bind, try_except, lift, emit, ret,
    assign_probe_defaults, assign_detected. simpl.
  destruct (read_parquet source _) as [[name crs | ] | e]; simpl.
  - intros H; inversion H; subst; simpl.
    eexists; split; [rewrite <- !app_assoc; reflexivity
                    | split; [repeat split | auto 10]].
  - intros H; inversion H; subst; simpl.
    eexists; split; [reflexivity | split; [repeat split | auto 10]].
  - destruct source as [p | u]; simpl.
    + intros H; inversion H; subst; simpl.
      eexists; split; [reflexivity | split; [repeat split | auto 10]].
    + destruct (seek0 u); intros H; inversion H; subst; simpl;
        (eexists; split; [rewrite <- !app_assoc; reflexivity
                         | split; [repeat split | auto 10]]).
Qed.

Lemma Recreated_setup_spec (f : Form) (source : Source) (m m0 : Machine)
    (r : Result (Engine * ParquetFile)) :
  Recreated.setup f source m = (m0, r) ->
  exists evs,
    log m0 = log m ++ evs /\ silent evs /\
    match r with
    | Ok p =>
        pq_ParquetFile source = Ok (snd p) /\
        rows_processed m0 = 0 /\ is_first_chunk m0 = true /\
        total_rows m0 <> None
    | Raise _ =>
        rows_processed m0 = rows_processed m /\
        is_first_chunk m0 = is_first_chunk m
    end.
Proof.
  unfold Recreated.setup, Recreated.enable_postgis.
  unfold bind at 1. unfold emit at 1.
  unfold bind at 1. unfold lift at 1.
  destruct (create_engine (db_url f)) as [engine | e]; simpl.
  2:{ intros H; inversion H; subst; simpl.
      eexists; split; [reflexivity | split; [repeat split | auto]]. }
  unfold bind at 1.
  match goal with |- context [execute engine ?d ?q] =>
    destruct (execute engine d q) as [db [[] | e]] end;
    unfold bind at 1; unfold emit at 1; unfold lift at 1; simpl.
  2:{ intros H; inversion H; subst; simpl.
      eexists; split; [rewrite <- !app_assoc; reflexivity
                      | split; [repeat split | auto]]. }
  unfold bind at 1.
  match goal with |- context [Recreated.probe source ?m1] =>
    destruct (Recreated.probe source m1) as [m2 r2] eqn:Hprobe end.
  apply probe_spec in Hprobe.
  destruct Hprobe as (evs & Hl & (Hp & Hw & Hfw & Hst & He & Hs) & _ & Hr & Hf & _).
  simpl in Hl, Hr, Hf.
  destruct r2 as [[] | e]; simpl.
  2:{ intros H; inversion H; subst; simpl.
      exists ([call_create_engine (db_url f);
               call_execute "CREATE EXTENSION IF NOT EXISTS postgis;"] ++ evs).
      split; [rewrite Hl, <- !app_assoc; reflexivity | ].
      split; [ | auto].
      unfold silent.
      rewrite write_policies_app, written_app, failed_writes_app,
        status_reports_app, errors_app, success_reports_app.
      rewrite Hp, Hw, Hfw, Hst, He, Hs. simpl. repeat split. }
  unfold bind, lift, emit, ret, assign_rows_processed, assign_total_rows,
    assign_is_first_chunk. simpl.
  destruct (pq_ParquetFile source) as [pf | e] eqn:Hopen; simpl;
    intros H; inversion H; subst; simpl.
  - exists ([call_create_engine (db_url f);
             call_execute "CREATE EXTENSION IF NOT EXISTS postgis;"] ++ evs
            ++ [call_ParquetFile source;
                st_info (num_row_groups pf) (num_rows pf);
                progress_bar_progress 0]).
    split; [rewrite Hl, <- !app_assoc; reflexivity | ].
    split.
    + unfold silent.
      rewrite !write_policies_app, !written_app, !failed_writes_app,
        !status_reports_app, !errors_app, !success_reports_app.
      rewrite Hp, Hw, Hfw, Hst, He, Hs. simpl. repeat split.
    + repeat split; auto.
      unfold Recreated.default_total_rows.
      destruct (num_rows pf) as [n | ]; simpl; [ | discriminate ].
      destruct (negb (n =? 0) && (0 <? n)); discriminate.
  - exists ([call_create_engine (db_url f);
             call_execute "CREATE EXTENSION IF NOT EXISTS postgis;"] ++ evs
            ++ [call_ParquetFile source]).
    split; [rewrite Hl, <- !app_assoc; reflexivity | ].
    split; [ | auto].
    unfold silent.
    rewrite !write_policies_app, !written_app, !failed_writes_app,
      !status_reports_app, !errors_app, !success_reports_app.
    rewrite Hp, Hw, Hfw, Hst, He, Hs. simpl. repeat split.
Qed.

End Instances.

(** ** What every run satisfies *)

Section Summary.
Context {L : Library}.

Lemma no_run_summary (f : Form) (m' : Machine) (msg : Msg) (db : Db) :
  m' = logged [st_error msg] (boot db) ->
  exists k j : nat,
    List.length (written (log m')) = k /\
    (j = k \/ j = S k) /\
    write_policies (log m') = expected_policies true (if_exists_opt f) j /\
    failed_writes (log m')
      = (if Nat.eqb j k then [] else [policy_at true (if_exists_opt f) k]) /\
    is_first_chunk m' = Nat.eqb k 0 /\
    (forall (conv : Batch -> Result DataFrame) (pf : ParquetFile),
       let lens := map (fun b => rows_of (conv b)) (iter_batches pf batch_size) in
       (k <= List.length lens)%nat /\
       Forall (fun b => is_ok (conv b) = true)
         (firstn k (iter_batches pf batch_size)) /\
       rows_processed m' = total (firstn k lens) /\
       status_reports (log m') = running 0 (firstn k lens) /\
       (errors (log m') = [] ->
          k = List.length lens /\ j = k /\
          success_reports (log m') = [total lens])) /\
    (errors (log m') = [] -> False).
Proof.
  intros ->. exists 0%nat, 0%nat. simpl.
  repeat split; auto; try lia; discriminate.
Qed.

Lemma run_summary (s : Script) (f : Form) (db : Db) :
  let m' := final s f db in
  exists k j : nat,
    List.length (written (log m')) = k /\
    (j = k \/ j = S k) /\
    write_policies (log m') = expected_policies true (if_exists_opt f) j /\
    failed_writes (log m')
      = (if Nat.eqb j k then [] else [policy_at true (if_exists_opt f) k]) /\
    is_first_chunk m' = Nat.eqb k 0 /\
    (forall src pf,
       determine_source f = Some src -> pq_ParquetFile src = Ok pf ->
       let lens := map (chunk_len s) (iter_batches pf batch_size) in
       (k <= List.length lens)%nat /\
       Forall (fun b => is_ok (conversion s b) = true)
         (firstn k (iter_batches pf batch_size)) /\
       rows_processed m' = total (firstn k lens) /\
       status_reports (log m') = running 0 (firstn k lens) /\
       (errors (log m') = [] ->
          k = List.length lens /\ j = k /\
          success_reports (log m') = [total lens])) /\
    (errors (log m') = [] ->
       exists src pf, determine_source f = Some src /\ pq_ParquetFile src = Ok pf).
Proof.
  intro m'. subst m'. unfold final.
  assert (Hno : forall msg,
    fst (emit (st_error msg) (boot db)) = logged [st_error msg] (boot db))
    by reflexivity.
  destruct s; simpl; unfold App.start_import, Recreated.start_import.
  - destruct (negb (truthy (db_name f)) || negb (truthy (db_user f))).
    { destruct (no_run_summary f _ _ db (Hno FillConnectionDetails))
        as (k & j & H1 & H2 & H3 & H4 & H5 & H6 & H7).
      exists k, j. do 5 (split; [assumption | ]). split.
      - intros src pf _ _. exact (H6 (conversion app_py) pf).
      - intros He. destruct (H7 He). }
    destruct (determine_source f) as [src | ].
    2:{ destruct (no_run_summary f _ _ db (Hno ProvideValidFile))
        as (k & j & H1 & H2 & H3 & H4 & H5 & H6 & H7).
      exists k, j. do 5 (split; [assumption | ]). split.
      - intros src pf _ _. exact (H6 (conversion app_py) pf).
      - intros He. destruct (H7 He). }
    destruct (run_spec App.prepare App.update_progress
                (fun b => to_pandas b false)
                (fun _ => True) f src (App.setup f src)
                quiet_App_prepare App_prepare_conv App_report
                (App_setup_spec f src) (boot db) _
                eq_refl eq_refl eq_refl eq_refl)
      as (k & j & H1 & H2 & H3 & H4 & H5 & H6 & H7).
    exists k, j. do 5 (split; [assumption | ]). split.
    + intros s0 pf Hs Hopen. inversion Hs; subst s0. exact (H6 pf Hopen).
    + intros He. destruct (H7 He) as (pf & Hopen). exists src, pf. auto.
  - destruct (negb (truthy (db_name f)) || negb (truthy (db_user f))
              || negb (truthy (db_password f))).
    { destruct (no_run_summary f _ _ db (Hno FillConnectionDetails))
        as (k & j & H1 & H2 & H3 & H4 & H5 & H6 & H7).
      exists k, j. do 5 (split; [assumption | ]). split.
      - intros src pf _ _. exact (H6 (conversion recreate_project_py) pf).
      - intros He. destruct (H7 He). }
    destruct (determine_source f) as [src | ].
    2:{ destruct (no_run_summary f _ _ db (Hno ProvideValidFile))
        as (k & j & H1 & H2 & H3 & H4 & H5 & H6 & H7).
      exists k, j. do 5 (split; [assumption | ]). split.
      - intros src pf _ _. exact (H6 (conversion recreate_project_py) pf).
      - intros He. destruct (H7 He). }
    destruct (run_spec Recreated.prepare Recreated.update_progress
                Recreated.convert (fun t => t <> None) f src
                (Recreated.setup f src)
                quiet_Recreated_prepare Recreated_prepare_conv Recreated_report
                (Recreated_setup_spec f src) (boot db) _
                eq_refl eq_refl eq_refl eq_refl)
      as (k & j & H1 & H2 & H3 & H4 & H5 & H6 & H7).
    exists k, j. do 5 (split; [assumption | ]). split.
    + intros s0 pf Hs Hopen. inversion Hs; subst s0. exact (H6 pf Hopen).
    + intros He. destruct (H7 He) as (pf & Hopen). exists src, pf. auto.
Qed.

End Summary.

(** ** The write mode of each chunk *)

Lemma nth_error_expected_policies (first : bool) (c : IfExists) (n i : nat)
    (p : IfExists) :
  nth_error (expected_policies first c n) i = Some p -> p = policy_at first c i.
Proof.
  destruct n as [| n]; destruct i as [| i]; simpl; try discriminate.
  - intros H; inversion H; reflexivity.
  - intros H. apply nth_error_In in H. apply repeat_spec in H. exact H.
Qed.

Lemma replacements_expected_policies (first : bool) (c : IfExists) (n : nat) :
  (replacements (expected_policies first c n) <= 1)%nat.
Proof.
  unfold replacements. destruct n as [| n]; simpl; [lia | ].
  assert (Hrest : filter (IfExists_eqb replace_) (repeat append_ n) = []).
  { induction n as [| n IH]; simpl; [reflexivity | exact IH]. }
  rewrite Hrest. destruct first, c; simpl; lia.
Qed.

(** C1. In every run of either script the [if_exists] argument of the write
    call of the first chunk is the configured policy and that of every later
    chunk is 'append'; so 'replace' is passed at most once, and only on the
    first chunk.  In a run that shows no error every batch has its write
    call, under exactly this rule. *)
Theorem first_chunk_policy {L : Library} (s : Script) (f : Form) (db : Db) :
  let policies := write_policies (log (final s f db)) in
  (forall i p, nth_error policies i = Some p ->
               p = match i with O => if_exists_opt f | S _ => append_ end) /\
  (forall i, nth_error policies (S i) <> Some replace_) /\
  (replacements policies <= 1)%nat /\
  (errors (log (final s f db)) = [] ->
   exists src pf,
     determine_source f = Some src /\ pq_ParquetFile src = Ok pf /\
     policies = expected_policies true (if_exists_opt f)
                  (List.length (iter_batches pf batch_size))).
Proof.
  intro policies. subst policies.
  destruct (run_summary s f db) as (k & j & Hk & Hj & Hp & _ & _ & Hpf & Hok).
  rewrite Hp. split; [ | split; [ | split]].
  - intros i p H. apply nth_error_expected_policies in H. exact H.
  - intros i H. apply nth_error_expected_policies in H. discriminate.
  - apply replacements_expected_policies.
  - intros He. destruct (Hok He) as (src & pf & Hs & Ho).
    exists src, pf. split; [exact Hs | split; [exact Ho | ]].
    destruct (Hpf src pf Hs Ho) as (_ & _ & _ & _ & Hall).
    destruct (Hall He) as (Hlen & Hjk & _).
    rewrite length_map in Hlen. congruence.
Qed.

(** Under 'replace' into a table that exists, the three batches are written
    with 'replace', 'append', 'append'; the reference database drops the
    table once and ends with the rows of the three batches. *)
Lemma first_chunk_policy_witness :
  write_policies (log (final (L := Inputs.plain_lib) recreate_project_py
                         (Inputs.form replace_) Inputs.occupied))
  = [replace_; append_; append_] /\
  (replacements [replace_; append_; append_] <= 1)%nat /\
  Reference.drops (store (final (L := Inputs.plain_lib) recreate_project_py
                            (Inputs.form replace_) Inputs.occupied)) = 1%nat /\
  Reference.table_rows "imported_data"
    (Reference.tables (store (final (L := Inputs.plain_lib) recreate_project_py
                                (Inputs.form replace_) Inputs.occupied)))
  = Some 100007.
Proof.
  pose proof (first_chunk_policy (L := Inputs.plain_lib) recreate_project_py
                (Inputs.form replace_) Inputs.occupied) as H.
  cbv zeta in H. destruct H as (_ & _ & Hcount & Hall).
  destruct (Hall eq_refl) as (src & pf & Hs & Ho & Hp).
  inversion Hs; subst src. inversion Ho; subst pf.
  split; [exact Hp | ]. split; [exact Hcount | ].
  split; vm_compute; reflexivity.
Defined.

(** ** Progress accounting *)

Lemma running_nondecreasing (xs : list N) :
  forall acc, nondecreasing acc (running acc xs).
Proof.
  induction xs as [| x rest IH]; intro acc; simpl; [exact I | ].
  split; [lia | apply IH].
Qed.

Lemma last_running (xs : list N) :
  forall acc d,
    last (running acc xs) d = match xs with [] => d | _ :: _ => acc + total xs end.
Proof.
  induction xs as [| x rest IH]; intros acc d; [reflexivity | ].
  change (running acc (x :: rest)) with ((acc + x) :: running (acc + x) rest).
  change (total (x :: rest)) with (x + total rest).
  destruct rest as [| y r].
  - simpl. lia.
  - specialize (IH (acc + x) d).
    change (running (acc + x) (y :: r))
      with ((acc + x + y) :: running (acc + x + y) r) in *.
    change (last ((acc + x) :: (acc + x + y) :: running (acc + x + y) r) d)
      with (last ((acc + x + y) :: running (acc + x + y) r) d).
    rewrite IH. lia.
Qed.

Lemma running_last (xs : list N) (acc : N) :
  last (running acc xs) acc = acc + total xs.
Proof.
  rewrite last_running. destruct xs; [simpl; lia | reflexivity].
Qed.

(** C2. In a run of either script that shows no error, every batch was
    converted, the counts shown after the chunks are the running sums of the
    batches' row counts (so they never go down), and the final message and
    the variable [rows_processed] hold the sum over all batches. *)
Theorem progress_accounting {L : Library} (s : Script) (f : Form) (db : Db) :
  errors (log (final s f db)) = [] ->
  exists src pf,
    determine_source f = Some src /\ pq_ParquetFile src = Ok pf /\
    let batches := iter_batches pf batch_size in
    let lens := map (chunk_len s) batches in
    Forall (fun b => is_ok (conversion s b) = true) batches /\
    status_reports (log (final s f db)) = running 0 lens /\
    nondecreasing 0 (status_reports (log (final s f db))) /\
    success_reports (log (final s f db)) = [total lens] /\
    rows_processed (final s f db) = total lens.
Proof.
  intro He.
  destruct (run_summary s f db) as (k & j & _ & _ & _ & _ & _ & Hpf & Hok).
  destruct (Hok He) as (src & pf & Hs & Ho).
  exists src, pf. split; [exact Hs | split; [exact Ho | ]].
  destruct (Hpf src pf Hs Ho) as (_ & Hconv & Hr & Hst & Hall).
  destruct (Hall He) as (Hlen & _ & Hsucc).
  cbv zeta.
  assert (Hk : k = List.length (iter_batches pf batch_size))
    by (rewrite length_map in Hlen; exact Hlen).
  rewrite Hlen, firstn_all in Hr, Hst.
  rewrite Hk, firstn_all in Hconv.
  split; [exact Hconv | ]. split; [exact Hst | ].
  split; [rewrite Hst; apply running_nondecreasing | ].
  split; [exact Hsucc | exact Hr].
Qed.

(** Batches of 50000, 50000 and 7 rows under 'append': the status line shows
    50000, 100000, 100007 and the final message 100007, in both scripts. *)
Lemma progress_accounting_witness :
  (status_reports (log (final (L := Inputs.plain_lib) app_py
                          (Inputs.form append_) Reference.empty))
   = [50000; 100000; 100007] /\
   success_reports (log (final (L := Inputs.plain_lib) app_py
                           (Inputs.form append_) Reference.empty))
   = [100007]) /\
  (status_reports (log (final (L := Inputs.plain_lib) recreate_project_py
                          (Inputs.form append_) Reference.empty))
   = [50000; 100000; 100007] /\
   success_reports (log (final (L := Inputs.plain_lib) recreate_project_py
                           (Inputs.form append_) Reference.empty))
   = [100007]).
Proof.
  split.
  - destruct (progress_accounting (L := Inputs.plain_lib) app_py
                (Inputs.form append_) Reference.empty eq_refl)
      as (src & pf & Hs & Ho & H).
    inversion Hs; subst src. inversion Ho; subst pf.
    cbv zeta in H. destruct H as (_ & Hst & _ & Hsu & _).
    split; [exact Hst | exact Hsu].
  - destruct (progress_accounting (L := Inputs.plain_lib) recreate_project_py
                (Inputs.form append_) Reference.empty eq_refl)
      as (src & pf & Hs & Ho & H).
    inversion Hs; subst src. inversion Ho; subst pf.
    cbv zeta in H. destruct H as (_ & Hst & _ & Hsu & _).
    split; [exact Hst | exact Hsu].
Defined.

(** ** The counters and the write call *)

(** C9. At the end of every run of either script, whatever stopped it,
    [is_first_chunk] is still true exactly when no write call has returned,
    [rows_processed] and the counts shown are the running sums over the
    batches whose write call returned, and a write call that raised is the
    last one and carried the policy of its position: the configured one if
    it was the first chunk. *)
Theorem counters_follow_returned_writes {L : Library} (s : Script) (f : Form)
    (db : Db) :
  let m' := final s f db in
  let k := List.length (written (log m')) in
  is_first_chunk m' = Nat.eqb k 0 /\
  (failed_writes (log m') = [] /\
   List.length (write_policies (log m')) = k
   \/
   failed_writes (log m') = [policy_at true (if_exists_opt f) k] /\
   List.length (write_policies (log m')) = S k /\
   errors (log m') <> []) /\
  (forall src pf,
     determine_source f = Some src -> pq_ParquetFile src = Ok pf ->
     let lens := map (chunk_len s) (iter_batches pf batch_size) in
     rows_processed m' = total (firstn k lens) /\
     status_reports (log m') = running 0 (firstn k lens) /\
     last (status_reports (log m')) 0 = rows_processed m').
Proof.
  intros m' k. subst m' k.
  destruct (run_summary s f db) as (k & j & Hk & Hj & Hp & Hfw & Hf & Hpf & Hok).
  rewrite Hk. split; [exact Hf | split].
  - assert (Hlen : List.length (write_policies (log (final s f db))) = j).
    { rewrite Hp. destruct j; simpl; [ | rewrite repeat_length]; reflexivity. }
    rewrite Hlen, Hfw.
    destruct Hj as [-> | ->].
    + left. rewrite Nat.eqb_refl. auto.
    + right. assert (Hne : Nat.eqb (S k) k = false) by (apply Nat.eqb_neq; lia).
      rewrite Hne. repeat split; auto.
      intro He. destruct (Hok He) as (src & pf & Hs & Ho).
      destruct (Hpf src pf Hs Ho) as (_ & _ & _ & _ & Hall).
      destruct (Hall He) as (_ & Hjk & _). lia.
  - intros src pf Hs Ho. cbv zeta.
    destruct (Hpf src pf Hs Ho) as (_ & _ & Hr & Hst & _).
    split; [exact Hr | split; [exact Hst | ]].
    rewrite Hst, Hr, running_last. reflexivity.
Qed.

(** A first write under 'fail' into a table that exists: nothing is counted,
    [is_first_chunk] stays true, and the call that raised carried 'fail'. *)
Lemma counters_follow_returned_writes_witness :
  is_first_chunk (final (L := Inputs.plain_lib) app_py (Inputs.form fail_)
                    Inputs.occupied) = true /\
  failed_writes (log (final (L := Inputs.plain_lib) app_py (Inputs.form fail_)
                        Inputs.occupied)) = [fail_] /\
  rows_processed (final (L := Inputs.plain_lib) app_py (Inputs.form fail_)
                    Inputs.occupied) = 0.
Proof.
  pose proof (counters_follow_returned_writes (L := Inputs.plain_lib) app_py
                (Inputs.form fail_) Inputs.occupied) as H.
  cbv zeta in H. destruct H as (Hfirst & Hwrite & Hrows).
  destruct (Hrows _ _ eq_refl eq_refl) as (Hr & _).
  split; [exact Hfirst | split; [ | exact Hr]].
  destruct Hwrite as [[Hw _] | [Hw _]]; [ | exact Hw].
  vm_compute in Hw. discriminate Hw.
Defined.

(** ** Runs that stop inside the loop *)

Section Aborts.
Context {L : Library}.

Lemma for_each_app {A} (xs ys : list A) (step : A -> M unit) (m : Machine) :
  for_each (xs ++ ys) step m
  = match for_each xs step m with
    | (m1, Ok _) => for_each ys step m1
    | (m1, Raise e) => (m1, Raise e)
    end.
Proof.
  revert m. induction xs as [| x rest IH]; intro m; [reflexivity | ].
  simpl. unfold bind. destruct (step x m) as [m1 [[] | e]]; [apply IH | reflexivity].
Qed.

(** A batch whose iteration raises ends the run: the exception reaches the
    outer handler, which shows it, and no later batch is touched. *)
Lemma run_aborts (s : Script) (f : Form) (db : Db) (src : Source)
    (engine : Engine) (pf : ParquetFile) (m0 m1 m2 : Machine)
    (pre post : list Batch) (b : Batch) (e : Exn) :
  config_ok s f = true ->
  determine_source f = Some src ->
  setup s f src (boot db) = (m0, Ok (engine, pf)) ->
  iter_batches pf batch_size = pre ++ b :: post ->
  for_each pre (body s f engine) m0 = (m1, Ok tt) ->
  body s f engine b m1 = (m2, Raise e) ->
  start_import s f (boot db)
  = (logged [st_error (ErrorDuringImport e); st_exception e] m2, Ok tt).
Proof.
  intros Hcfg Hsrc Hsetup Hsplit Hpre Hb.
  destruct s; simpl in *; unfold App.start_import, Recreated.start_import.
  - apply andb_true_iff in Hcfg. destruct Hcfg as [H1 H2].
    rewrite H1, H2, Hsrc. simpl.
    unfold try_except, App.stream. unfold bind at 1. rewrite Hsetup. simpl.
    unfold bind at 1. rewrite Hsplit, for_each_app, Hpre. simpl.
    unfold bind at 1. rewrite Hb.
    unfold report_failure, bind, emit. simpl. rewrite logged_logged. reflexivity.
  - apply andb_true_iff in Hcfg. destruct Hcfg as [Hcfg H3].
    apply andb_true_iff in Hcfg. destruct Hcfg as [H1 H2].
    rewrite H1, H2, H3, Hsrc. simpl.
    unfold try_except, Recreated.stream. unfold bind at 1. rewrite Hsetup. simpl.
    unfold bind at 1. rewrite Hsplit, for_each_app, Hpre. simpl.
    unfold bind at 1. rewrite Hb.
    unfold report_failure, bind, emit. simpl. rewrite logged_logged. reflexivity.
Qed.

End Aborts.

(** ** The unbound [gdf_chunk] of [src/app.py] *)

Section Unbound.
Context {L : Library}.

Lemma App_setup_gdf_chunk (f : Form) (src : Source) (m m0 : Machine)
    (r : Result (Engine * ParquetFile)) :
  App.setup f src m = (m0, r) -> gdf_chunk m0 = gdf_chunk m.
Proof.
  unfold App.setup, bind, lift, emit, ret, assign_rows_processed,
    assign_total_rows, assign_is_first_chunk. simpl.
  destruct (create_engine (db_url f)); simpl;
    [destruct (pq_ParquetFile src); simpl | ];
    intros H; inversion H; reflexivity.
Qed.

Lemma write_and_count_gdf_chunk (f : Form) (engine : Engine) (df : DataFrame)
    (c : Chunk) (m : Machine) :
  gdf_chunk (fst (write_and_count f engine df c m)) = gdf_chunk m.
Proof.
  unfold write_and_count, write, bind, get, emit, raise,
    assign_rows_processed, assign_is_first_chunk. simpl.
  destruct c;
    [destruct (to_sql _ _ _ _ _) as [d [[] | e]]
    | destruct (to_postgis _ _ _ _ _) as [d [[] | e]]]; reflexivity.
Qed.

(** A batch without a 'geometry' column never binds [gdf_chunk]. *)
Lemma App_body_plain (f : Form) (engine : Engine) (b : Batch) (m : Machine) :
  (forall df, to_pandas b false = Ok df -> column "geometry" (columns df) = None) ->
  gdf_chunk (fst (App.body f engine b m)) = gdf_chunk m.
Proof.
  intro Hplain. unfold App.body, App.prepare.
  unfold bind at 1. unfold bind at 1. unfold lift at 1.
  destruct (to_pandas b false) as [df | e]; [ | reflexivity ].
  unfold App.normalize. rewrite (Hplain df eq_refl). unfold ret at 1 2. simpl.
  unfold bind at 1.
  pose proof (write_and_count_gdf_chunk f engine df (Plain df) m) as Hw.
  destruct (write_and_count f engine df (Plain df) m) as [m1 [[] | e]];
    simpl in Hw; [ | exact Hw ].
  destruct (App_report m1 I) as (evs & Hrep & _). rewrite Hrep. exact Hw.
Qed.

Lemma App_loop_plain (f : Form) (engine : Engine) (bs : list Batch) :
  Forall (fun b => forall df, to_pandas b false = Ok df ->
                              column "geometry" (columns df) = None) bs ->
  forall m, gdf_chunk (fst (for_each bs (App.body f engine) m)) = gdf_chunk m.
Proof.
  induction 1 as [| b rest Hb _ IH]; intro m; [reflexivity | ].
  simpl. unfold bind.
  pose proof (App_body_plain f engine b m Hb) as H1.
  destruct (App.body f engine b m) as [m1 [[] | e]]; simpl in H1.
  - rewrite IH. exact H1.
  - exact H1.
Qed.

End Unbound.

(** C8. In [src/app.py], when the first batch that has a 'geometry' column
    has it with a dtype other than object or category, the normalizer reads
    [gdf_chunk] before any assignment: it raises [NameError], the chunk is
    not written, and the run ends with that error shown. *)
Theorem gdf_chunk_read_unbound {L : Library} (f : Form) (db : Db) (src : Source)
    (engine : Engine) (pf : ParquetFile) (m0 m1 : Machine)
    (pre post : list Batch) (b : Batch) (df : DataFrame) (col : Series) :
  config_ok app_py f = true ->
  determine_source f = Some src ->
  App.setup f src (boot db) = (m0, Ok (engine, pf)) ->
  iter_batches pf batch_size = pre ++ b :: post ->
  Forall (fun b' => forall df', to_pandas b' false = Ok df' ->
                                column "geometry" (columns df') = None) pre ->
  for_each pre (App.body f engine) m0 = (m1, Ok tt) ->
  to_pandas b false = Ok df ->
  column "geometry" (columns df) = Some col ->
  dtype col <> DObject -> dtype col <> DCategory ->
  App.normalize df m1 = (m1, Raise (NameError "gdf_chunk")) /\
  App.start_import f (boot db)
  = (logged [st_error (ErrorDuringImport (NameError "gdf_chunk"));
             st_exception (NameError "gdf_chunk")] m1, Ok tt).
Proof.
  intros Hcfg Hsrc Hsetup Hsplit Hplain Hpre Hconv Hcol Hobj Hcat.
  assert (Hunbound : gdf_chunk m1 = None).
  { pose proof (App_loop_plain f engine pre Hplain m0) as H.
    rewrite Hpre in H. simpl in H. rewrite H.
    apply App_setup_gdf_chunk in Hsetup. exact Hsetup. }
  assert (Hnorm : App.normalize df m1 = (m1, Raise (NameError "gdf_chunk"))).
  { unfold App.normalize. rewrite Hcol.
    destruct (dtype col); try congruence;
      unfold bind, ret, assume_4326, bind, read_gdf_chunk;
      rewrite Hunbound; reflexivity. }
  split; [exact Hnorm | ].
  apply (run_aborts app_py f db src engine pf m0 m1 m1 pre post b); auto.
  simpl. unfold App.body, App.prepare, bind, lift. rewrite Hconv, Hnorm.
  reflexivity.
Qed.

(** A plain batch and then a batch whose 'geometry' column is numeric: the
    first is written, the second stops the run with the [NameError]. *)
Lemma gdf_chunk_read_unbound_witness :
  errors (log (final (L := Inputs.numeric_lib) app_py (Inputs.form append_)
                 Reference.empty))
  = [ErrorDuringImport (NameError "gdf_chunk")] /\
  List.length (written (log (final (L := Inputs.numeric_lib) app_py
                               (Inputs.form append_) Reference.empty))) = 1%nat.
Proof.
  pose (m0 := fst (App.setup (L := Inputs.numeric_lib) (Inputs.form append_)
                     (SourcePath "/mnt/data/big_file.parquet")
                     (boot (L := Inputs.numeric_lib) Reference.empty))).
  pose (b1 := Inputs.batch_of (Inputs.plain_frame 2)).
  pose (df2 := Inputs.geo_frame "geometry" DNumeric [PyInt 7]).
  pose (m1 := fst (for_each [b1]
                     (App.body (L := Inputs.numeric_lib) (Inputs.form append_)
                        {| url := db_url (Inputs.form append_) |}) m0)).
  destruct (gdf_chunk_read_unbound (L := Inputs.numeric_lib)
              (Inputs.form append_) Reference.empty
              (SourcePath "/mnt/data/big_file.parquet")
              {| url := db_url (Inputs.form append_) |}
              Inputs.numeric_geometry m0 m1
              [b1] [] (Inputs.batch_of df2) df2
              {| dtype := DNumeric; values := [PyInt 7] |})
    as (_ & Hrun).
  - reflexivity.
  - reflexivity.
  - reflexivity.
  - reflexivity.
  - constructor; [ | constructor ].
    intros df' H. inversion H; subst df'. reflexivity.
  - reflexivity.
  - reflexivity.
  - reflexivity.
  - discriminate.
  - discriminate.
  - unfold final. simpl start_import. rewrite Hrun. split; reflexivity.
Defined.

(** ** The first value decides the decoding *)

(** C10. On the probed path of the recreated script, a geometry column of
    dtype object, category or string whose first value is not [bytes] (or
    that is empty) goes to the [GeoDataFrame] constructor as it is:
    the normalizer is the constructor on the raw column followed by the
    reference-system step, and [GeoSeries.from_wkb] has no part in it, whatever the
    later values are. *)
Theorem first_value_decides_decoding {L : Library} (df : DataFrame) (m : Machine)
    (n : string) (col_data : Series) :
  Recreated.probed_column (is_spatial_file m) (detected_geometry_col m) df
    = Some (n, col_data) ->
  dtype col_data = DObject \/ dtype col_data = DCategory
    \/ dtype col_data = DString ->
  match values col_data with
  | v :: _ => isinstance_bytes v = false
  | [] => True
  end ->
  Recreated.decoded_column (is_spatial_file m) (detected_geometry_col m) df = None /\
  Recreated.normalize df m
  = (g <- lift (gpd_GeoDataFrame df (GeomValues col_data)) ;;
     assign_gdf_chunk g ;;
     Recreated.apply_crs (detected_crs m) ;;
     chunk_to_write <- read_gdf_chunk ;;
     ret (Spatial chunk_to_write)) m.
Proof.
  intros Hcol Hdtype Hfirst.
  unfold Recreated.decoded_column, Recreated.normalize.
  unfold bind at 1 2 3. unfold get. rewrite Hcol.
  assert (Hskip : isinstance_bytes match values col_data with
                                   | v :: _ => v
                                   | [] => PyNone
                                   end = false)
    by (destruct (values col_data); [reflexivity | exact Hfirst]).
  destruct Hdtype as [Hd | [Hd | Hd]]; rewrite Hd.
  all: split;
    [ destruct (values col_data); [reflexivity | rewrite Hfirst; reflexivity]
    | rewrite Hskip; unfold bind, ret, lift;
      destruct (gpd_GeoDataFrame df (GeomValues col_data)); reflexivity ].
Qed.

(** A null geometry in row 0 and a WKB point in row 1: the point is not
    decoded, and the reference constructor rejects the bytes. *)
Lemma first_value_decides_decoding_witness :
  Recreated.normalize (L := Inputs.bad_lib) Inputs.null_then_point
    Inputs.probed_machine
  = (Inputs.probed_machine,
     Raise (TypeError "Input must be valid geometry objects")).
Proof.
  destruct (first_value_decides_decoding (L := Inputs.bad_lib)
              Inputs.null_then_point Inputs.probed_machine "geometry"
              {| dtype := DObject; values := [PyNone; PyBytes Inputs.point_1_2] |})
    as (_ & Hnorm).
  - reflexivity.
  - left. reflexivity.
  - reflexivity.
  - rewrite Hnorm. reflexivity.
Defined.

(** ** Parameter validation *)

(** C6, as the scripts have it.  With an empty database name or user name,
    and in the recreated script also with an empty password, pressing the
    button only shows the request to fill in the connection details: the
    log gets that one message, which is no call to the outside, and the
    machine is otherwise untouched. *)
Theorem missing_connection_parameter {L : Library} (s : Script) (f : Form)
    (m : Machine) :
  db_name f = "" \/ db_user f = ""
    \/ (s = recreate_project_py /\ db_password f = "") ->
  start_import s f m = (logged [st_error FillConnectionDetails] m, Ok tt) /\
  existsb is_io [st_error FillConnectionDetails] = false /\
  store (fst (start_import s f m)) = store m.
Proof.
  intro Hmissing.
  assert (Hrun : start_import s f m
                 = (logged [st_error FillConnectionDetails] m, Ok tt)).
  { destruct s; simpl; unfold App.start_import, Recreated.start_import.
    - destruct Hmissing as [H | [H | [H _]]]; [ | | discriminate H ];
        rewrite H; simpl; rewrite ?orb_true_r; reflexivity.
    - destruct Hmissing as [H | [H | [_ H]]];
        rewrite H; simpl; rewrite ?orb_true_r; reflexivity. }
  rewrite Hrun. repeat split.
Qed.

Lemma missing_connection_parameter_witness :
  log (final (L := Inputs.plain_lib) app_py Inputs.no_database_form
         Reference.empty)
  = [st_error FillConnectionDetails].
Proof.
  destruct (missing_connection_parameter (L := Inputs.plain_lib) app_py
              Inputs.no_database_form
              (boot (L := Inputs.plain_lib) Reference.empty))
    as (Hrun & _).
  - left. reflexivity.
  - unfold final. rewrite Hrun. reflexivity.
Defined.

(** With the connection filled in and the table name left empty, neither
    script shows the configuration message: both create the engine, open
    the file and issue a write call for the table '', and what is shown is
    the error of that call. *)
Lemma missing_table_name_not_checked :
  table_name Inputs.no_table_form = "" /\
  (errors (Inputs.no_table_log app_py)
   = [ErrorDuringImport (ValueError "Empty table name specified")] /\
   existsb is_io (Inputs.no_table_log app_py) = true /\
   write_policies (Inputs.no_table_log app_py) = [append_]) /\
  (errors (Inputs.no_table_log recreate_project_py)
   = [ErrorDuringImport (ValueError "Empty table name specified")] /\
   existsb is_io (Inputs.no_table_log recreate_project_py) = true /\
   write_policies (Inputs.no_table_log recreate_project_py) = [append_]).
Proof.
  split; [reflexivity | ].
  split; repeat split; vm_compute; reflexivity.
Qed.

(** ** The total-rows estimate *)

Section Estimate.
Context {L : Library}.




End Estimate.




(** ** A failed probe *)

Section Probe.
Context {L : Library}.

Lemma probe_after_failure (source : Source) (m : Machine) (e : Exn) :
  read_parquet source (if isinstance_str source then Some 1 else None) = Raise e ->
  Recreated.probe source m
  = match source with
    | SourcePath _ =>
        (logged [call_read_parquet source (Some 1)]
           (fst (assign_probe_defaults m)), Ok tt)
    | SourceUpload u =>
        (logged [call_read_parquet source None; call_seek source]
           (fst (assign_probe_defaults m)), seek0 u)
    end.
Proof.
  intro Hfail.
  unfold Recreated.probe, bind, try_except, lift, emit, ret. simpl.
  rewrite Hfail. destruct source as [p | u]; simpl; [reflexivity | ].
  rewrite logged_logged. destruct (seek0 u); reflexivity.
Qed.

(** When the rewind itself raises, the exception leaves the probe's handler
    and ends the run before the file is opened for streaming. *)
Lemma seek_failure_aborts (f : Form) (db : Db) (u : UploadedFile)
    (engine : Engine) (e e' : Exn) :
  config_ok recreate_project_py f = true ->
  determine_source f = Some (SourceUpload u) ->
  create_engine (db_url f) = Ok engine ->
  snd (execute engine db "CREATE EXTENSION IF NOT EXISTS postgis;") = Ok tt ->
  read_parquet (SourceUpload u) None = Raise e ->
  seek0 u = Raise e' ->
  let evs := log (final recreate_project_py f db) in
  errors evs = [ErrorDuringImport e'] /\
  written evs = [] /\
  filter is_io evs
  = [call_create_engine (db_url f);
     call_execute "CREATE EXTENSION IF NOT EXISTS postgis;";
     call_read_parquet (SourceUpload u) None;
     call_seek (SourceUpload u)].
Proof.
  intros Hcfg Hsrc Hengine Hexec Hfail Hseek. cbv zeta.
  simpl in Hcfg.
  apply andb_true_iff in Hcfg. destruct Hcfg as [Hcfg H3].
  apply andb_true_iff in Hcfg. destruct Hcfg as [H1 H2].
  unfold final. simpl start_import. unfold Recreated.start_import.
  rewrite H1, H2, H3, Hsrc. simpl.
  unfold try_except, Recreated.stream, Recreated.setup,
    Recreated.enable_postgis, bind, emit, lift.
  rewrite Hengine. cbn -[Recreated.probe db_url].
  destruct (execute engine db "CREATE EXTENSION IF NOT EXISTS postgis;")
    as [db' r]. simpl in Hexec. subst r. cbn -[Recreated.probe db_url].
  rewrite (probe_after_failure (SourceUpload u) _ e Hfail), Hseek.
  simpl. repeat split.
Qed.

Lemma Recreated_setup_unprobed (f : Form) (src : Source) (m m0 : Machine)
    (p : Engine * ParquetFile) :
  (forall n c, read_parquet src (probe_rows src) <> Ok (ProbeGeo n c)) ->
  Recreated.setup f src m = (m0, Ok p) ->
  is_spatial_file m0 = false /\ total_rows m0 <> None.
Proof.
  intros Hplain Hsetup.
  split; [ | destruct (Recreated_setup_spec f src m m0 _ Hsetup)
               as (_ & _ & _ & _ & _ & _ & Ht); exact Ht ].
  revert Hsetup. unfold Recreated.setup, Recreated.enable_postgis.
  unfold bind at 1. unfold emit at 1.
  unfold bind at 1. unfold lift at 1.
  destruct (create_engine (db_url f)) as [engine | e]; simpl; [ | discriminate ].
  unfold bind at 1.
  match goal with |- context [execute engine ?d ?q] =>
    destruct (execute engine d q) as [db [[] | e]] end;
    unfold bind at 1; unfold emit at 1; unfold lift at 1; simpl;
    [ | discriminate ].
  unfold bind at 1.
  match goal with |- context [Recreated.probe src ?m1] =>
    assert (Hprobe : is_spatial_file (fst (Recreated.probe src m1)) = false);
    [ | destruct (Recreated.probe src m1) as [m2 [[] | e]]; [ | discriminate ] ]
  end.
  { unfold Recreated.probe, bind, try_except, lift, emit, ret,
      assign_probe_defaults, assign_detected. simpl.
    fold (probe_rows src).
    destruct (read_parquet src (probe_rows src)) as [[n c | ] | e] eqn:Hread.
    - exfalso. exact (Hplain n c eq_refl).
    - reflexivity.
    - destruct src as [path | u]; simpl; [reflexivity | ].
      destruct (seek0 u); reflexivity. }
  simpl in Hprobe.
  unfold bind, lift, emit, ret, assign_rows_processed, assign_total_rows,
    assign_is_first_chunk. simpl.
  destruct (pq_ParquetFile src); simpl; [ | discriminate ].
  intros H; inversion H; subst. exact Hprobe.
Qed.

(** The loop never assigns [is_spatial_file]. *)
Lemma write_and_count_keeps_mark (f : Form) (engine : Engine) (df : DataFrame)
    (c : Chunk) (m : Machine) :
  is_spatial_file (fst (write_and_count f engine df c m)) = is_spatial_file m.
Proof.
  unfold write_and_count, write, bind, get, emit, raise,
    assign_rows_processed, assign_is_first_chunk. simpl.
  destruct (match c with
            | Spatial g => to_postgis engine (store m) (table_name f) _ g
            | Plain d => to_sql engine (store m) (table_name f) _ d
            end) as [db [[] | e]]; reflexivity.
Qed.

Lemma Recreated_report_keeps_mark (m : Machine) :
  is_spatial_file (fst (Recreated.update_progress m)) = is_spatial_file m.
Proof.
  unfold Recreated.update_progress, bind, get, lift, ret, emit, py_gt,
    py_truediv. simpl.
  destruct (total_rows m) as [t | ]; simpl; [ | reflexivity ].
  destruct (1 <? t); simpl; [destruct (t =? 0); reflexivity | reflexivity].
Qed.

Lemma Recreated_body_keeps_mark (f : Form) (engine : Engine) (b : Batch)
    (m : Machine) :
  is_spatial_file (fst (Recreated.body f engine b m)) = is_spatial_file m.
Proof.
  unfold Recreated.body. unfold bind at 1.
  pose proof (quiet_Recreated_prepare b m) as Hq.
  destruct (Recreated.prepare b m) as [m1 [[df c] | e]]; simpl in Hq;
    destruct Hq as (_ & _ & _ & _ & _ & Hs & _); [ | exact Hs ].
  unfold bind at 1. simpl fst. simpl snd.
  pose proof (write_and_count_keeps_mark f engine df c m1) as Hw.
  destruct (write_and_count f engine df c m1) as [m2 [[] | e]]; simpl in Hw.
  - rewrite Recreated_report_keeps_mark. congruence.
  - simpl. congruence.
Qed.

Lemma Recreated_loop_keeps_mark (f : Form) (engine : Engine) (bs : list Batch) :
  forall m,
    is_spatial_file (fst (for_each bs (Recreated.body f engine) m))
    = is_spatial_file m.
Proof.
  induction bs as [| b rest IH]; intro m; [reflexivity | ].
  simpl. unfold bind.
  pose proof (Recreated_body_keeps_mark f engine b m) as Hb.
  destruct (Recreated.body f engine b m) as [m1 [[] | e]]; simpl in Hb.
  - rewrite IH. exact Hb.
  - exact Hb.
Qed.

(** On a source that is not marked spatial the normalizer is the
    'geometry' heuristic of lines 172-179. *)
Lemma Recreated_normalize_unmarked (df : DataFrame) (m : Machine) :
  is_spatial_file m = false ->
  Recreated.normalize df m
  = match column "geometry" (columns df) with
    | Some col =>
        (geoms <- lift (GeoSeries_from_wkb col) ;;
         g <- lift (gpd_GeoDataFrame df (GeomValues geoms)) ;;
         assign_gdf_chunk g ;;
         assume_4326 ;;
         chunk_to_write <- read_gdf_chunk ;;
         ret (Spatial chunk_to_write)) m
    | None => (m, Ok (Plain df))
    end.
Proof.
  intro Hfile.
  unfold Recreated.normalize. unfold bind at 1 2 3. unfold get.
  cbv beta iota. rewrite Hfile.
  change (Recreated.probed_column false (detected_geometry_col m) df)
    with (@None (string * Series)).
  cbv beta iota. destruct (column "geometry" (columns df)); reflexivity.
Qed.

End Probe.

(** C5, as the recreated script has it.  When [read_parquet] raises, the
    probe leaves the source marked non-spatial with no column and no system.
    In a run that reaches the loop every batch, the first and each one after
    any number of others, is then normalized by the 'geometry' heuristic
    alone: a frame with a column named 'geometry' is decoded with
    [GeoSeries.from_wkb], made a geo frame and given EPSG:4326 if it carries
    no system; any other frame is handed on as it is.  A path
    string has no [seek] and the probe returns; a file object is rewound
    with [seek(0)] and the probe's outcome is the outcome of that call: if
    it returns the run goes on, if it raises the exception is not caught
    there and the run ends with it shown, the file never opened for
    streaming. *)
Theorem probe_failure {L : Library} (source : Source) (m : Machine) (e : Exn) :
  read_parquet source (if isinstance_str source then Some 1 else None) = Raise e ->
  let m' := fst (Recreated.probe source m) in
  (is_spatial_file m' = false /\ detected_geometry_col m' = None /\
   detected_crs m' = None) /\
  (forall f db engine pf m0 bs df,
     Recreated.setup f source (boot db) = (m0, Ok (engine, pf)) ->
     let m1 := fst (for_each bs (Recreated.body f engine) m0) in
     Recreated.normalize df m1
     = match column "geometry" (columns df) with
       | Some col =>
           (geoms <- lift (GeoSeries_from_wkb col) ;;
            g <- lift (gpd_GeoDataFrame df (GeomValues geoms)) ;;
            assign_gdf_chunk g ;;
            assume_4326 ;;
            chunk_to_write <- read_gdf_chunk ;;
            ret (Spatial chunk_to_write)) m1
       | None => (m1, Ok (Plain df))
       end) /\
  match source with
  | SourcePath _ =>
      snd (Recreated.probe source m) = Ok tt /\
      log m' = log m ++ [call_read_parquet source (Some 1)]
  | SourceUpload u =>
      snd (Recreated.probe source m) = seek0 u /\
      log m' = log m ++ [call_read_parquet source None; call_seek source] /\
      forall f db engine e',
        config_ok recreate_project_py f = true ->
        determine_source f = Some source ->
        create_engine (db_url f) = Ok engine ->
        snd (execute engine db "CREATE EXTENSION IF NOT EXISTS postgis;") = Ok tt ->
        seek0 u = Raise e' ->
        errors (log (final recreate_project_py f db)) = [ErrorDuringImport e'] /\
        written (log (final recreate_project_py f db)) = [] /\
        filter is_io (log (final recreate_project_py f db))
        = [call_create_engine (db_url f);
           call_execute "CREATE EXTENSION IF NOT EXISTS postgis;";
           call_read_parquet source None;
           call_seek source]
  end.
Proof.
  intros Hfail m'. subst m'.
  assert (Hloop : forall f db engine pf m0 bs df,
    Recreated.setup f source (boot db) = (m0, Ok (engine, pf)) ->
    let m1 := fst (for_each bs (Recreated.body f engine) m0) in
    Recreated.normalize df m1
    = match column "geometry" (columns df) with
      | Some col =>
          (geoms <- lift (GeoSeries_from_wkb col) ;;
           g <- lift (gpd_GeoDataFrame df (GeomValues geoms)) ;;
           assign_gdf_chunk g ;;
           assume_4326 ;;
           chunk_to_write <- read_gdf_chunk ;;
           ret (Spatial chunk_to_write)) m1
      | None => (m1, Ok (Plain df))
      end).
  { intros f db engine pf m0 bs df Hsetup m1.
    apply Recreated_normalize_unmarked. subst m1.
    rewrite Recreated_loop_keeps_mark.
    apply (Recreated_setup_unprobed f source (boot db) m0 (engine, pf));
      [ | exact Hsetup ].
    intros n c. unfold probe_rows. rewrite Hfail. discriminate. }
  rewrite (probe_after_failure source m e Hfail).
  destruct source as [p | u]; simpl.
  - split; [repeat split | split; [exact Hloop | repeat split]].
  - split; [repeat split | split; [exact Hloop | ]].
    split; [reflexivity | split; [reflexivity | ]].
    intros f db engine e' Hcfg Hsrc Hengine Hexec Hseek.
    exact (seek_failure_aborts f db u engine e e' Hcfg Hsrc Hengine Hexec
             Hfail Hseek).
Qed.

(** An uploaded file that is plain Parquet and rewinds: the probe fails,
    the file is rewound, the probe returns, and the batches are imported. *)
Lemma probe_failure_witness :
  snd (Recreated.probe (L := Inputs.small_lib) (SourceUpload Inputs.open_upload)
         (boot (L := Inputs.small_lib) Reference.empty)) = Ok tt /\
  success_reports (log (final (L := Inputs.small_lib) recreate_project_py
                          (Inputs.upload_form append_ Inputs.open_upload)
                          Reference.empty)) = [3].
Proof.
  destruct (probe_failure (L := Inputs.small_lib)
              (SourceUpload Inputs.open_upload)
              (boot (L := Inputs.small_lib) Reference.empty)
              (ValueError "Missing geo metadata in Parquet/Feather file.")
              eq_refl)
    as (_ & _ & Hok & _).
  split; [exact Hok | reflexivity].
Defined.

(** The same upload with a [seek] that raises: the probe fails, the rewind
    raises, and the run ends with that error instead of going on to the
    batches. *)
Lemma seek_failure_is_fatal :
  read_parquet (Library := Inputs.small_lib)
    (SourceUpload Inputs.closed_upload) None
  = Raise (ValueError "Missing geo metadata in Parquet/Feather file.") /\
  errors Inputs.closed_upload_log
  = [ErrorDuringImport (ValueError "I/O operation on closed file.")] /\
  written Inputs.closed_upload_log = [] /\
  success_reports Inputs.closed_upload_log = [].
Proof.
  split; [reflexivity | ].
  repeat split; vm_compute; reflexivity.
Qed.

(** ** The reference system of a spatial chunk *)

Section ReferenceSystem.
Context {L : Library}.


Lemma assign_gdf_chunk_twice (m : Machine) (g g' : GeoDataFrame) :
  fst (assign_gdf_chunk g' (fst (assign_gdf_chunk g m)))
  = fst (assign_gdf_chunk g' m).
Proof. reflexivity. Qed.







End ReferenceSystem.



(** ** Geometry bytes that do not decode *)

Section Decoding.
Context {L : Library}.

Lemma Recreated_normalize_raises (df : DataFrame) (m : Machine) (col : Series)
    (e : Exn) :
  Recreated.decoded_column (is_spatial_file m) (detected_geometry_col m) df
    = Some col ->
  GeoSeries_from_wkb col = Raise e ->
  Recreated.normalize df m = (m, Raise e).
Proof.
  unfold Recreated.decoded_column, Recreated.normalize.
  unfold bind at 1 2 3. unfold get.
  destruct (Recreated.probed_column _ _ df) as [[n c] | ].
  - destruct (dtype c); try discriminate;
      (destruct (values c) as [| v rest]; [discriminate | ];
       destruct (isinstance_bytes v); [ | discriminate ];
       intros H Hwkb; inversion H; subst c;
       unfold bind, lift; rewrite Hwkb; reflexivity).
  - intros Hcol Hwkb. rewrite Hcol. unfold bind, lift. rewrite Hwkb. reflexivity.
Qed.

Lemma App_normalize_falls_back (df : DataFrame) (m : Machine) (col : Series)
    (e : Exn) :
  column "geometry" (columns df) = Some col ->
  dtype col = DObject \/ dtype col = DCategory ->
  from_wkb col = Raise e ->
  App.normalize df m
  = (g <- lift (gpd_GeoDataFrame df (GeomColumn "geometry")) ;;
     assign_gdf_chunk g ;;
     assume_4326 ;;
     chunk_to_write <- read_gdf_chunk ;;
     ret (Spatial chunk_to_write)) m.
Proof.
  intros Hcol Hdtype Hwkb. unfold App.normalize. rewrite Hcol.
  destruct Hdtype as [Hd | Hd]; rewrite Hd;
    unfold bind at 1; unfold try_except;
    unfold bind at 1; unfold lift at 1; rewrite Hwkb;
    unfold bind at 1 4; unfold lift;
    destruct (gpd_GeoDataFrame df (GeomColumn "geometry")); reflexivity.
Qed.

End Decoding.

(** C3, as the scripts have it.  In the recreated script, a batch on whose
    geometry column the normalizer calls [GeoSeries.from_wkb] (the
    'geometry' fallback, or the probed column when its first value is
    [bytes]) and gets a decode error makes the normalizer raise that error;
    it reaches the outer handler, is shown, and the run stops there: the
    chunk is not written and no later batch is read.  In [src/app.py]
    whatever [gpd.from_wkb] raises is caught by the bare [except] around
    it: the normalizer goes on with
    [GeoDataFrame(df_chunk, geometry='geometry')] on the undecoded column,
    and what that call does decides the chunk. *)
Theorem decode_failure {L : Library} :
  (forall f db src engine pf m0 m1 pre post b df col e,
     config_ok recreate_project_py f = true ->
     determine_source f = Some src ->
     Recreated.setup f src (boot db) = (m0, Ok (engine, pf)) ->
     iter_batches pf batch_size = pre ++ b :: post ->
     for_each pre (Recreated.body f engine) m0 = (m1, Ok tt) ->
     Recreated.convert b = Ok df ->
     Recreated.decoded_column (is_spatial_file m1) (detected_geometry_col m1) df
       = Some col ->
     GeoSeries_from_wkb col = Raise e ->
     Recreated.normalize df m1 = (m1, Raise e) /\
     Recreated.start_import f (boot db)
     = (logged [st_error (ErrorDuringImport e); st_exception e] m1, Ok tt))
  /\
  (forall df m col e,
     column "geometry" (columns df) = Some col ->
     dtype col = DObject \/ dtype col = DCategory ->
     from_wkb col = Raise e ->
     App.normalize df m
     = (g <- lift (gpd_GeoDataFrame df (GeomColumn "geometry")) ;;
        assign_gdf_chunk g ;;
        assume_4326 ;;
        chunk_to_write <- read_gdf_chunk ;;
        ret (Spatial chunk_to_write)) m).
Proof.
  split.
  - intros f db src engine pf m0 m1 pre post b df col e
      Hcfg Hsrc Hsetup Hsplit Hpre Hconv Hcol Hwkb.
    pose proof (Recreated_normalize_raises df m1 col e Hcol Hwkb) as Hnorm.
    split; [exact Hnorm | ].
    apply (run_aborts recreate_project_py f db src engine pf m0 m1 m1
             pre post b); auto.
    simpl. unfold Recreated.body, Recreated.prepare, bind, lift.
    rewrite Hconv, Hnorm. reflexivity.
  - intros df m col e. apply App_normalize_falls_back.
Qed.

(** One batch whose 'geometry' column holds two bytes that are no WKB: the
    recreated script ends with the decode error and nothing written;
    the normalizer of [src/app.py] ends with the constructor's [TypeError]. *)
Lemma decode_failure_witness :
  (errors (Inputs.bad_bytes_log recreate_project_py)
   = [ErrorDuringImport
        (WKBReadingError
           "Could not create geometry because of errors while reading input.")]
   /\
   written (Inputs.bad_bytes_log recreate_project_py) = []) /\
  App.normalize (L := Inputs.bad_lib) Inputs.bad_frame
    (boot (L := Inputs.bad_lib) Reference.empty)
  = (boot (L := Inputs.bad_lib) Reference.empty,
     Raise (TypeError "Input must be valid geometry objects")).
Proof.
  destruct (decode_failure (L := Inputs.bad_lib)) as (Hrecreated & Happ).
  pose (src := SourcePath "/mnt/data/big_file.parquet").
  pose (engine := {| url := db_url (Inputs.form append_) |}).
  pose (m0 := fst (Recreated.setup (L := Inputs.bad_lib) (Inputs.form append_)
                     src (boot (L := Inputs.bad_lib) Reference.empty))).
  split.
  - destruct (Hrecreated (Inputs.form append_) Reference.empty src engine
                Inputs.bad_bytes m0 m0 [] []
                (Inputs.batch_of Inputs.bad_frame) Inputs.bad_frame
                Inputs.bad_column
                (WKBReadingError
                   "Could not create geometry because of errors while reading input.")
                eq_refl eq_refl eq_refl eq_refl eq_refl eq_refl eq_refl eq_refl)
      as (_ & Hrun).
    unfold Inputs.bad_bytes_log, final. simpl start_import. rewrite Hrun.
    split; reflexivity.
  - rewrite (Happ Inputs.bad_frame _ Inputs.bad_column
               (AttributeError "module 'geopandas' has no attribute 'from_wkb'")
               eq_refl (or_introl eq_refl) eq_refl).
    reflexivity.
Defined.

(** The same batch through [src/app.py]: the bytes are no WKB and the
    decoding call of the script raises, yet no decode error reaches the
    outer handler; the run ends with the [TypeError] of the fallback
    constructor. *)
Lemma decode_error_swallowed_in_app_py :
  GeoSeries_from_wkb (Library := Inputs.bad_lib) Inputs.bad_column
  = Raise (WKBReadingError
             "Could not create geometry because of errors while reading input.") /\
  is_ok (from_wkb (Library := Inputs.bad_lib) Inputs.bad_column) = false /\
  errors (Inputs.bad_bytes_log app_py)
  = [ErrorDuringImport (TypeError "Input must be valid geometry objects")] /\
  ~ (exists e, is_geometry_decode_error e = true /\
               In (ErrorDuringImport e) (errors (Inputs.bad_bytes_log app_py))).
Proof.
  split; [reflexivity | split; [reflexivity | ]].
  assert (He : errors (Inputs.bad_bytes_log app_py)
               = [ErrorDuringImport (TypeError "Input must be valid geometry objects")])
    by (vm_compute; reflexivity).
  split; [exact He | ].
  rewrite He. intros (e & Hdec & [Hin | []]).
  inversion Hin; subst e. discriminate Hdec.
Qed.

(** * Further properties of the scripts *)

(** ** The conversion of a batch in the recreated script *)

(** X1. The conversion succeeds exactly when the default conversion or the
    one that ignores the metadata succeeds; it gives the frame of the
    default conversion when there is one, and otherwise the frame of the
    retry. *)
Theorem convert_succeeds_iff (b : Batch) :
  is_ok (Recreated.convert b)
  = is_ok (to_pandas b false) || is_ok (to_pandas b true) /\
  (forall df, to_pandas b false = Ok df -> Recreated.convert b = Ok df) /\
  (forall e df, to_pandas b false = Raise e -> to_pandas b true = Ok df ->
                Recreated.convert b = Ok df).
Proof.
  unfold Recreated.convert. split; [ | split].
  - destruct (to_pandas b false) as [df | e]; [reflexivity | ].
    destruct (is_ValueError e), (to_pandas b true); reflexivity.
  - intros df ->. reflexivity.
  - intros e df -> ->. destruct (is_ValueError e); reflexivity.
Qed.

Lemma convert_succeeds_iff_witness :
  Recreated.convert Samples.knime_batch = Ok (Inputs.plain_frame 2).
Proof.
  destruct (convert_succeeds_iff Samples.knime_batch) as (_ & _ & Hretry).
  exact (Hretry (ValueError "unsupported metadata") (Inputs.plain_frame 2)
           eq_refl eq_refl).
Defined.

(** X2. When the conversion raises, both conversions raised, and the error
    is the one of the retry if the default conversion raised a
    [ValueError], and the one of the default conversion otherwise. *)
Theorem convert_error (b : Batch) (e : Exn) :
  Recreated.convert b = Raise e ->
  exists e1 e2,
    to_pandas b false = Raise e1 /\ to_pandas b true = Raise e2 /\
    e = if is_ValueError e1 then e2 else e1.
Proof.
  unfold Recreated.convert.
  destruct (to_pandas b false) as [df | e1]; [discriminate | ].
  destruct (is_ValueError e1) eqn:Hv.
  - intros H. exists e1, e. rewrite Hv. auto.
  - destruct (to_pandas b true) as [df | e2]; [discriminate | ].
    intros H. inversion H; subst. exists e, e2. rewrite Hv. auto.
Qed.

Lemma convert_error_witness :
  exists e1 e2,
    to_pandas Samples.broken_batch false = Raise e1 /\
    to_pandas Samples.broken_batch true = Raise e2 /\
    OSError "first" = if is_ValueError e1 then e2 else e1.
Proof.
  exact (convert_error Samples.broken_batch (OSError "first") eq_refl).
Defined.

(** ** What a run may log *)

Section Emitted.
Context {L : Library}.
Variable P : Event -> Prop.

Lemma emits_quiet {A} (c : M A) : Quiet c -> Emits P c.
Proof.
  intros Hq m. destruct (Hq m) as (Hl & _).
  exists []. rewrite app_nil_r. split; [exact Hl | constructor].
Qed.

Lemma emits_ret {A} (a : A) : Emits P (ret a).
Proof. apply emits_quiet, quiet_ret. Qed.

Lemma emits_lift {A} (r : Result A) : Emits P (lift r).
Proof. apply emits_quiet, quiet_lift. Qed.

Lemma emits_get {A} (g : Machine -> A) : Emits P (get g).
Proof. apply emits_quiet, quiet_get. Qed.

Lemma emits_same_log {A} (c : M A) :
  (forall m, log (fst (c m)) = log m) -> Emits P c.
Proof.
  intros H m. exists []. rewrite app_nil_r. split; [apply H | constructor].
Qed.

Lemma emits_emit (e : Event) : P e -> Emits P (emit e).
Proof.
  intros He m. exists [e]. split; [reflexivity | repeat constructor; exact He].
Qed.

Lemma emits_bind {A B} (c : M A) (k : A -> M B) :
  Emits P c -> (forall a, Emits P (k a)) -> Emits P (bind c k).
Proof.
  intros Hc Hk m. unfold bind.
  destruct (Hc m) as (evs1 & Hl1 & Hp1).
  destruct (c m) as [m1 [a | e]]; simpl in *.
  - destruct (Hk a m1) as (evs2 & Hl2 & Hp2).
    exists (evs1 ++ evs2). rewrite Hl2, Hl1, app_assoc.
    split; [reflexivity | apply Forall_app; auto].
  - exists evs1. auto.
Qed.

Lemma emits_try_except {A} (c : M A) (h : Exn -> M A) :
  Emits P c -> (forall e, Emits P (h e)) -> Emits P (try_except c h).
Proof.
  intros Hc Hh m. unfold try_except.
  destruct (Hc m) as (evs1 & Hl1 & Hp1).
  destruct (c m) as [m1 [a | e]]; simpl in *.
  - exists evs1. auto.
  - destruct (Hh e m1) as (evs2 & Hl2 & Hp2).
    exists (evs1 ++ evs2). rewrite Hl2, Hl1, app_assoc.
    split; [reflexivity | apply Forall_app; auto].
Qed.

Lemma emits_for_each {A} (xs : list A) (step : A -> M unit) :
  (forall x, Emits P (step x)) -> Emits P (for_each xs step).
Proof.
  intro Hstep. induction xs as [| x rest IH]; simpl.
  - apply emits_ret.
  - apply emits_bind; [apply Hstep | intro; exact IH].
Qed.

End Emitted.

Section Soundness.
Context {L : Library}.
Variable f : Form.

Lemma py_min_range (q : Q) :
  (0 <= q)%Q -> (0 <= py_min q 1 /\ py_min q 1 <= 1)%Q.
Proof.
  intro Hq. unfold py_min. destruct (Qle_bool q 1) eqn:Hle.
  - apply Qle_bool_iff in Hle. auto.
  - split; [discriminate | apply Qle_refl].
Qed.

Lemma py_truediv_range (n : N) (t : option N) (q : Q) :
  py_truediv n t = Ok q -> (0 <= py_min q 1 /\ py_min q 1 <= 1)%Q.
Proof.
  unfold py_truediv. destruct t as [t | ]; [ | discriminate ].
  destruct (t =? 0); [discriminate | ].
  intros H; inversion H; subst. apply py_min_range.
  unfold Qle. simpl. lia.
Qed.

Lemma emits_write (engine : Engine) (p : IfExists) (c : Chunk) :
  Emits (sound_event f) (write engine (table_name f) p c).
Proof.
  intro m. unfold write.
  destruct (match c with
            | Spatial g => to_postgis engine (store m) (table_name f) p g
            | Plain d => to_sql engine (store m) (table_name f) p d
            end) as [db [u | e]]; simpl;
    eexists; (split; [reflexivity | repeat constructor]).
Qed.

Lemma emits_write_and_count (engine : Engine) (df : DataFrame) (c : Chunk) :
  Emits (sound_event f) (write_and_count f engine df c).
Proof.
  unfold write_and_count.
  apply emits_bind; [apply emits_get | intro first].
  apply emits_bind; [apply emits_write | intros _].
  apply emits_bind; [apply emits_get | intro n].
  apply emits_bind; apply emits_same_log || intro; try reflexivity.
  apply emits_same_log. reflexivity.
Qed.

Lemma emits_progress_step (n : N) (t : option N) :
  Emits (sound_event f)
    (q <- lift (py_truediv n t) ;; emit (progress_bar_progress (py_min q 1))).
Proof.
  intro m. unfold bind, lift.
  destruct (py_truediv n t) as [q | e] eqn:Hdiv; simpl.
  - exists [progress_bar_progress (py_min q 1)].
    split; [reflexivity | ].
    repeat constructor; simpl; apply (py_truediv_range n t q Hdiv).
  - exists []. rewrite app_nil_r. split; [reflexivity | constructor].
Qed.

Lemma emits_update_progress (s : Script) :
  Emits (sound_event f) (update_progress s).
Proof.
  destruct s; simpl; unfold App.update_progress, Recreated.update_progress.
  - apply emits_bind; [apply emits_get | intro t].
    apply emits_bind.
    + destruct (truthy_int t); [ | apply emits_ret ].
      apply emits_bind; [apply emits_get | intro n].
      apply emits_progress_step.
    + intros _. apply emits_bind; [apply emits_get | intro n].
      apply emits_emit. exact I.
  - apply emits_bind; [apply emits_get | intro t].
    apply emits_bind; [apply emits_lift | intro more].
    apply emits_bind.
    + destruct more; [ | apply emits_ret ].
      apply emits_bind; [apply emits_get | intro n].
      apply emits_progress_step.
    + intros _. apply emits_bind; [apply emits_get | intro n].
      apply emits_emit. exact I.
Qed.

Lemma emits_body (s : Script) (engine : Engine) (b : Batch) :
  Emits (sound_event f) (body s f engine b).
Proof.
  destruct s; simpl; unfold App.body, Recreated.body.
  - apply emits_bind; [apply emits_quiet, quiet_App_prepare | intro p].
    apply emits_bind; [apply emits_write_and_count | intros _].
    apply (emits_update_progress app_py).
  - apply emits_bind; [apply emits_quiet, quiet_Recreated_prepare | intro p].
    apply emits_bind; [apply emits_write_and_count | intros _].
    apply (emits_update_progress recreate_project_py).
Qed.

Lemma emits_enable_postgis (engine : Engine) :
  Emits (sound_event f) (Recreated.enable_postgis engine).
Proof.
  intro m. unfold Recreated.enable_postgis.
  destruct (execute engine (store m) _) as [db r].
  unfold bind, emit, lift. simpl.
  eexists; split; [reflexivity | repeat constructor].
Qed.

(** Splits an [Emits] goal along the shape of the computation. *)
Ltac emits :=
  repeat first
    [ apply emits_ret | apply emits_lift | apply emits_get
    | apply emits_enable_postgis
    | apply emits_emit; simpl;
      solve [exact I | split; unfold Qle; simpl; lia]
    | apply emits_same_log; reflexivity
    | apply emits_bind; [ | intro ]
    | apply emits_try_except; [ | intro ]
    | match goal with
      | |- Emits _ (match ?x with _ => _ end) => destruct x
      end ].

Lemma emits_setup (s : Script) (src : Source) :
  Emits (sound_event f) (setup s f src).
Proof.
  destruct s; simpl; unfold App.setup, Recreated.setup, Recreated.probe; emits.
Qed.

Lemma emits_start_import (s : Script) :
  Emits (sound_event f) (start_import s f).
Proof.
  assert (Hstream : forall src,
    Emits (sound_event f)
      (p <- setup s f src ;;
       for_each (iter_batches (snd p) batch_size) (body s f (fst p)) ;;
       n <- get rows_processed ;;
       emit (st_success_imported n (table_name f)))).
  { intro src.
    apply emits_bind; [apply emits_setup | intro p].
    apply emits_bind; [apply emits_for_each; intro; apply emits_body | intros _].
    emits. }
  destruct s; simpl; unfold App.start_import, Recreated.start_import.
  - destruct (_ || _); [emits | ].
    destruct (determine_source f) as [src | ]; [ | emits ].
    apply emits_try_except; [exact (Hstream src) | intro e].
    unfold report_failure. emits.
  - destruct (_ || _); [emits | ].
    destruct (determine_source f) as [src | ]; [ | emits ].
    apply emits_try_except; [exact (Hstream src) | intro e].
    unfold report_failure. emits.
Qed.

End Soundness.

(** X8. Every value handed to [progress_bar.progress] in a run of either
    script lies between 0 and 1. *)
Theorem progress_within_range {L : Library} (s : Script) (f : Form) (db : Db)
    (v : Q) :
  In v (progress_values (log (final s f db))) -> (0 <= v /\ v <= 1)%Q.
Proof.
  destruct (emits_start_import f s (boot db)) as (evs & Hl & Hp).
  unfold final. rewrite Hl. simpl. intro Hin.
  unfold progress_values in Hin. apply in_flat_map in Hin.
  destruct Hin as (e & He & Hv).
  rewrite Forall_forall in Hp. specialize (Hp e He).
  destruct e; simpl in Hv; try contradiction.
  destruct Hv as [<- | []]. exact Hp.
Qed.

Lemma progress_within_range_witness :
  (0 <= py_min (2 # 3) 1 /\ py_min (2 # 3) 1 <= 1)%Q.
Proof.
  apply (progress_within_range (L := Inputs.small_lib) app_py
           (Inputs.form append_) Reference.empty).
  vm_compute. right. left. reflexivity.
Defined.

(** X9. Every write call of a run of either script names the table of the
    form. *)
Theorem writes_name_the_table {L : Library} (s : Script) (f : Form) (db : Db)
    (t : string) :
  In t (write_tables (log (final s f db))) -> t = table_name f.
Proof.
  destruct (emits_start_import f s (boot db)) as (evs & Hl & Hp).
  unfold final. rewrite Hl. simpl. intro Hin.
  unfold write_tables in Hin. apply in_flat_map in Hin.
  destruct Hin as (e & He & Hv).
  rewrite Forall_forall in Hp. specialize (Hp e He).
  destruct e; simpl in Hv; try contradiction.
  destruct Hv as [<- | []]. exact Hp.
Qed.

Lemma writes_name_the_table_witness :
  write_tables (log (final (L := Inputs.small_lib) recreate_project_py
                       (Inputs.form append_) Reference.empty))
  = ["imported_data"; "imported_data"] /\
  "imported_data" = table_name (Inputs.form append_).
Proof.
  split; [vm_compute; reflexivity | ].
  apply (writes_name_the_table (L := Inputs.small_lib) recreate_project_py
           (Inputs.form append_) Reference.empty).
  vm_compute. left. reflexivity.
Defined.

(** ** Runs that stop before the loop, or have nothing to loop over *)

Section Endings.
Context {L : Library}.

Lemma config_ok_guard (s : Script) (f : Form) :
  config_ok s f = true ->
  start_import s f
  = match determine_source f with
    | Some source =>
        try_except
          (p <- setup s f source ;;
           for_each (iter_batches (snd p) batch_size) (body s f (fst p)) ;;
           n <- get rows_processed ;;
           emit (st_success_imported n (table_name f)))
          report_failure
    | None => emit (st_error ProvideValidFile)
    end.
Proof.
  intro Hcfg. destruct s; simpl in *.
  - apply andb_true_iff in Hcfg. destruct Hcfg as [H1 H2].
    unfold App.start_import. rewrite H1, H2. reflexivity.
  - apply andb_true_iff in Hcfg. destruct Hcfg as [Hcfg H3].
    apply andb_true_iff in Hcfg. destruct Hcfg as [H1 H2].
    unfold Recreated.start_import. rewrite H1, H2, H3. reflexivity.
Qed.

Lemma setup_spec (s : Script) (f : Form) (src : Source) (m m0 : Machine)
    (r : Result (Engine * ParquetFile)) :
  setup s f src m = (m0, r) ->
  exists evs,
    log m0 = log m ++ evs /\ silent evs /\
    match r with
    | Ok p =>
        pq_ParquetFile src = Ok (snd p) /\
        rows_processed m0 = 0 /\ is_first_chunk m0 = true
    | Raise _ => True
    end.
Proof.
  destruct s; simpl; intro Hsetup.
  - destruct (App_setup_spec f src m m0 r Hsetup) as (evs & Hl & Hs & Hr).
    exists evs. split; [exact Hl | split; [exact Hs | ]].
    destruct r; [tauto | exact I].
  - destruct (Recreated_setup_spec f src m m0 r Hsetup) as (evs & Hl & Hs & Hr).
    exists evs. split; [exact Hl | split; [exact Hs | ]].
    destruct r; [tauto | exact I].
Qed.

Lemma run_stops_in_setup (s : Script) (f : Form) (db : Db) (src : Source)
    (m0 : Machine) (e : Exn) :
  config_ok s f = true ->
  determine_source f = Some src ->
  setup s f src (boot db) = (m0, Raise e) ->
  start_import s f (boot db)
  = (logged [st_error (ErrorDuringImport e); st_exception e] m0, Ok tt).
Proof.
  intros Hcfg Hsrc Hsetup. rewrite (config_ok_guard s f Hcfg), Hsrc.
  unfold try_except. unfold bind at 1. rewrite Hsetup.
  unfold report_failure, bind, emit. simpl. rewrite logged_logged. reflexivity.
Qed.

End Endings.

(** X4. A source without batches: once the file is open, either script goes
    straight to the success message with 0 rows; no write call is made
    and the destination is as the steps before the loop left it, whatever
    the configured policy. *)
Theorem empty_source_writes_nothing {L : Library} (s : Script) (f : Form)
    (db : Db) (src : Source) (engine : Engine) (pf : ParquetFile) (m0 : Machine) :
  config_ok s f = true ->
  determine_source f = Some src ->
  setup s f src (boot db) = (m0, Ok (engine, pf)) ->
  iter_batches pf batch_size = [] ->
  start_import s f (boot db)
  = (logged [st_success_imported 0 (table_name f)] m0, Ok tt) /\
  write_policies (log (final s f db)) = [] /\
  store (final s f db) = store m0.
Proof.
  intros Hcfg Hsrc Hsetup Hempty.
  destruct (setup_spec s f src _ _ _ Hsetup)
    as (evs & Hl & (Hp & _) & _ & Hrows & _).
  assert (Hrun : start_import s f (boot db)
                 = (logged [st_success_imported 0 (table_name f)] m0, Ok tt)).
  { rewrite (config_ok_guard s f Hcfg), Hsrc.
    unfold try_except. unfold bind at 1. rewrite Hsetup. simpl.
    rewrite Hempty. unfold bind, get, ret, emit. simpl.
    rewrite Hrows. reflexivity. }
  split; [exact Hrun | ]. unfold final. rewrite Hrun. simpl.
  split; [ | reflexivity ].
  rewrite write_policies_app, Hl. simpl in *. rewrite Hp. reflexivity.
Qed.

(** Under 'replace' into a table that exists, a file without batches leaves
    the table and its ten rows alone. *)
Lemma empty_source_writes_nothing_witness :
  success_reports (log (final (L := Samples.empty_lib) recreate_project_py
                          (Inputs.form replace_) Inputs.occupied)) = [0] /\
  store (final (L := Samples.empty_lib) recreate_project_py
           (Inputs.form replace_) Inputs.occupied) = Inputs.occupied.
Proof.
  destruct (empty_source_writes_nothing (L := Samples.empty_lib)
              recreate_project_py (Inputs.form replace_) Inputs.occupied
              (SourcePath "/mnt/data/big_file.parquet")
              {| url := db_url (Inputs.form replace_) |} Samples.no_batches
              (fst (Recreated.setup (L := Samples.empty_lib)
                      (Inputs.form replace_)
                      (SourcePath "/mnt/data/big_file.parquet")
                      (boot (L := Samples.empty_lib) Inputs.occupied)))
              eq_refl eq_refl eq_refl eq_refl)
    as (Hrun & _ & Hstore).
  split; [ | rewrite Hstore; reflexivity ].
  unfold final. rewrite Hrun. reflexivity.
Defined.

(** X5. A source that [pq.ParquetFile] cannot open: the run of either script
    ends with one error shown; nothing is written, no count and no success
    message is shown.  In [src/app.py], where only the engine comes before
    the file, the error shown is the one [pq.ParquetFile] raised. *)
Theorem unreadable_source {L : Library} (s : Script) (f : Form) (db : Db)
    (src : Source) (e : Exn) :
  config_ok s f = true ->
  determine_source f = Some src ->
  pq_ParquetFile src = Raise e ->
  written (log (final s f db)) = [] /\
  write_policies (log (final s f db)) = [] /\
  status_reports (log (final s f db)) = [] /\
  success_reports (log (final s f db)) = [] /\
  (exists e', errors (log (final s f db)) = [ErrorDuringImport e']) /\
  (s = app_py -> is_ok (create_engine (db_url f)) = true ->
   errors (log (final s f db)) = [ErrorDuringImport e]).
Proof.
  intros Hcfg Hsrc Hopen.
  destruct (setup s f src (boot db)) as [m0 [[engine pf] | e']] eqn:Hsetup.
  { destruct (setup_spec s f src _ _ _ Hsetup) as (_ & _ & _ & Hok & _).
    simpl in Hok. congruence. }
  destruct (setup_spec s f src _ _ _ Hsetup)
    as (evs & Hl & (Hp & Hw & _ & Hst & He & Hs) & _).
  pose proof (run_stops_in_setup s f db src m0 e' Hcfg Hsrc Hsetup) as Hrun.
  unfold final. rewrite Hrun. simpl. simpl in Hl. rewrite Hl.
  rewrite written_app, write_policies_app, status_reports_app,
    success_reports_app, errors_app, Hw, Hp, Hst, Hs, He. simpl.
  repeat split; eauto.
  intros -> Hengine. simpl in Hsetup.
  unfold App.setup, bind, lift, emit in Hsetup. simpl in Hsetup.
  destruct (create_engine (db_url f)); [ | discriminate Hengine ].
  simpl in Hsetup. rewrite Hopen in Hsetup. simpl in Hsetup.
  inversion Hsetup; subst. reflexivity.
Qed.

Lemma unreadable_source_witness :
  errors (log (final (L := Samples.unreadable_lib) app_py (Inputs.form append_)
                 Reference.empty))
  = [ErrorDuringImport (OSError "Parquet magic bytes not found in footer.")].
Proof.
  destruct (unreadable_source (L := Samples.unreadable_lib) app_py
              (Inputs.form append_) Reference.empty
              (SourcePath "/mnt/data/big_file.parquet")
              (OSError "Parquet magic bytes not found in footer.")
              eq_refl eq_refl eq_refl)
    as (_ & _ & _ & _ & _ & Hsame).
  exact (Hsame eq_refl eq_refl).
Defined.

(** X7. When [create_engine] raises, the run of either script consists of
    that call, the error message and the trace: no SQL is executed, no file
    is probed or opened, and the destination is untouched. *)
Theorem engine_failure {L : Library} (s : Script) (f : Form) (db : Db)
    (src : Source) (e : Exn) :
  config_ok s f = true ->
  determine_source f = Some src ->
  create_engine (db_url f) = Raise e ->
  log (final s f db)
  = [call_create_engine (db_url f);
     st_error (ErrorDuringImport e); st_exception e] /\
  store (final s f db) = db.
Proof.
  intros Hcfg Hsrc Hengine.
  assert (Hsetup : setup s f src (boot db)
                   = (logged [call_create_engine (db_url f)] (boot db), Raise e)).
  { destruct s; simpl; unfold App.setup, Recreated.setup;
      unfold bind at 1; unfold emit at 1;
      unfold bind at 1; unfold lift at 1; rewrite Hengine; reflexivity. }
  unfold final.
  rewrite (run_stops_in_setup s f db src _ e Hcfg Hsrc Hsetup).
  split; reflexivity.
Qed.

(** X6. In the recreated script, when the statement that enables PostGIS
    raises, the run ends there: after the engine and that statement nothing
    else reaches the outside, and the error shown is the statement's. *)
Theorem extension_failure {L : Library} (f : Form) (db db' : Db) (src : Source)
    (engine : Engine) (e : Exn) :
  config_ok recreate_project_py f = true ->
  determine_source f = Some src ->
  create_engine (db_url f) = Ok engine ->
  execute engine db "CREATE EXTENSION IF NOT EXISTS postgis;" = (db', Raise e) ->
  log (final recreate_project_py f db)
  = [call_create_engine (db_url f);
     call_execute "CREATE EXTENSION IF NOT EXISTS postgis;";
     st_error (ErrorDuringImport e); st_exception e] /\
  store (final recreate_project_py f db) = db'.
Proof.
  intros Hcfg Hsrc Hengine Hexec.
  assert (Hsetup :
    Recreated.setup f src (boot db)
    = (logged [call_create_engine (db_url f);
               call_execute "CREATE EXTENSION IF NOT EXISTS postgis;"]
         (set_store db' (boot db)), Raise e)).
  { unfold Recreated.setup, Recreated.enable_postgis.
    unfold bind at 1. unfold emit at 1.
    unfold bind at 1. unfold lift at 1. rewrite Hengine.
    unfold bind at 1. simpl store. rewrite Hexec.
    unfold bind, emit, lift. reflexivity. }
  unfold final.
  rewrite (run_stops_in_setup recreate_project_py f db src _ e Hcfg Hsrc Hsetup).
  split; reflexivity.
Qed.

Lemma engine_failure_witness :
  log (final (L := Samples.faulty_lib (Some Samples.bad_port) None) app_py
         (Inputs.form append_) Reference.empty)
  = [call_create_engine (db_url (Inputs.form append_));
     st_error (ErrorDuringImport Samples.bad_port);
     st_exception Samples.bad_port].
Proof.
  destruct (engine_failure (L := Samples.faulty_lib (Some Samples.bad_port) None)
              app_py (Inputs.form append_) Reference.empty
              (SourcePath "/mnt/data/big_file.parquet") Samples.bad_port
              eq_refl eq_refl eq_refl)
    as (Hlog & _).
  exact Hlog.
Defined.

Lemma extension_failure_witness :
  errors (log (final (L := Samples.faulty_lib None (Some Samples.no_privilege))
                 recreate_project_py (Inputs.form append_) Reference.empty))
  = [ErrorDuringImport Samples.no_privilege].
Proof.
  destruct (extension_failure
              (L := Samples.faulty_lib None (Some Samples.no_privilege))
              (Inputs.form append_) Reference.empty Reference.empty
              (SourcePath "/mnt/data/big_file.parquet")
              {| url := db_url (Inputs.form append_) |} Samples.no_privilege
              eq_refl eq_refl eq_refl eq_refl)
    as (Hlog & _).
  rewrite Hlog. reflexivity.
Defined.

(** ** Which chunks are spatial *)

Section Routing.
Context {L : Library}.

Lemma bind_ok {A B} (c : M A) (k : A -> M B) (m m' : Machine) (b : B) :
  bind c k m = (m', Ok b) ->
  exists a m1, c m = (m1, Ok a) /\ k a m1 = (m', Ok b).
Proof.
  unfold bind. destruct (c m) as [m1 [a | e]]; [eauto | discriminate].
Qed.

Lemma App_routing (df : DataFrame) (m m' : Machine) (c : Chunk) :
  App.normalize df m = (m', Ok c) ->
  is_spatial c = has_geometry_column df /\
  (is_spatial c = false -> c = Plain df).
Proof.
  unfold App.normalize, has_geometry_column.
  destruct (column "geometry" (columns df)) as [col | ].
  - intro H.
    repeat (apply bind_ok in H; destruct H as (? & ? & _ & H)).
    inversion H; subst. split; [reflexivity | discriminate].
  - intro H. inversion H; subst. auto.
Qed.

Lemma Recreated_routing (df : DataFrame) (m m' : Machine) (c : Chunk) :
  Recreated.normalize df m = (m', Ok c) ->
  is_spatial c = has_probed_column m df || has_geometry_column df /\
  (is_spatial c = false -> c = Plain df).
Proof.
  unfold Recreated.normalize, has_probed_column, has_geometry_column.
  unfold bind at 1 2 3. unfold get.
  destruct (Recreated.probed_column _ _ df) as [[n col] | ].
  - intro H.
    repeat (apply bind_ok in H; destruct H as (? & ? & _ & H)).
    inversion H; subst. split; [reflexivity | discriminate].
  - destruct (column "geometry" (columns df)) as [col | ].
    + intro H.
      repeat (apply bind_ok in H; destruct H as (? & ? & _ & H)).
      inversion H; subst. split; [reflexivity | discriminate].
    + intro H. inversion H; subst. auto.
Qed.

End Routing.

(** X12. Whether a chunk goes to [to_postgis] or to [to_sql] is decided by
    the column names alone: a frame that the normalizer lets through is
    spatial exactly when it has a column named 'geometry' or, in the
    recreated script, the column the probe named; the values of the column
    play no part, and a frame that is not spatial is handed on as it is. *)
Theorem spatial_by_column_names {L : Library} (s : Script) (df : DataFrame)
    (m m' : Machine) (c : Chunk) :
  match s with
  | app_py => App.normalize df m
  | recreate_project_py => Recreated.normalize df m
  end = (m', Ok c) ->
  is_spatial c
  = match s with
    | app_py => has_geometry_column df
    | recreate_project_py => has_probed_column m df || has_geometry_column df
    end /\
  (is_spatial c = false -> c = Plain df).
Proof.
  destruct s; [apply App_routing | apply Recreated_routing].
Qed.

(** An empty batch with a 'geometry' column is spatial all the same. *)
Lemma spatial_by_column_names_witness :
  is_spatial
    (Spatial {| gdf_frame := Inputs.geo_frame "geometry" DObject [];
                gdf_geometry := []; gdf_crs := Some (EPSG 4326) |})
  = has_probed_column (L := Inputs.bad_lib)
      (boot (L := Inputs.bad_lib) Reference.empty)
      (Inputs.geo_frame "geometry" DObject [])
    || has_geometry_column (Inputs.geo_frame "geometry" DObject []).
Proof.
  destruct (spatial_by_column_names (L := Inputs.bad_lib) recreate_project_py
              (Inputs.geo_frame "geometry" DObject [])
              (boot (L := Inputs.bad_lib) Reference.empty)
              (fst (Recreated.normalize (L := Inputs.bad_lib)
                      (Inputs.geo_frame "geometry" DObject [])
                      (boot (L := Inputs.bad_lib) Reference.empty)))
              (Spatial {| gdf_frame := Inputs.geo_frame "geometry" DObject [];
                          gdf_geometry := []; gdf_crs := Some (EPSG 4326) |})
              eq_refl)
    as (Hspatial & _).
  exact Hspatial.
Defined.

Lemma bind_lift_ok {L : Library} {A B} (a : A) (k : A -> M B) (m : Machine) :
  bind (lift (Ok a)) k m = k a m.
Proof. reflexivity. Qed.

(** ** A probe that returns *)

(** X11. When [read_parquet] returns, the probe returns too and never calls
    [seek]: the log gets the read, and for a geo frame the detection notice.
    A geo frame marks the source spatial with its reference system and a
    column name that is never empty: the active geometry name, or 'geometry'
    when that is missing or empty.  Any other frame leaves the source
    unmarked.  A path is read with [rows=1], a file object without limit. *)
Theorem probe_success {L : Library} (source : Source) (m : Machine)
    (frame : ProbeFrame) :
  read_parquet source (probe_rows source) = Ok frame ->
  let m' := fst (Recreated.probe source m) in
  snd (Recreated.probe source m) = Ok tt /\
  probe_rows source
  = match source with SourcePath _ => Some 1 | SourceUpload _ => None end /\
  match frame with
  | ProbeGeo name crs =>
      exists col,
        log m' = log m ++ [call_read_parquet source (probe_rows source);
                           st_success_detected col crs] /\
        is_spatial_file m' = true /\
        detected_geometry_col m' = Some col /\ detected_crs m' = crs /\
        truthy col = true /\
        (forall n, name = Some n -> truthy n = true -> col = n) /\
        (name = None \/ name = Some "" -> col = "geometry")
  | ProbePlain =>
      log m' = log m ++ [call_read_parquet source (probe_rows source)] /\
      is_spatial_file m' = false /\
      detected_geometry_col m' = None /\ detected_crs m' = None
  end.
Proof.
  intros Hread m'. subst m'.
  unfold Recreated.probe, bind, try_except, lift, emit, ret,
    assign_probe_defaults, assign_detected. simpl.
  fold (probe_rows source). rewrite Hread.
  split; [destruct frame; reflexivity | ].
  split; [destruct source; reflexivity | ].
  destruct frame as [name crs | ]; simpl.
  - eexists. split; [rewrite <- app_assoc; reflexivity | ].
    repeat split.
    + destruct name as [n | ]; [ | reflexivity ].
      destruct (truthy n) eqn:Hn; [exact Hn | reflexivity].
    + intros n -> Hn. rewrite Hn. reflexivity.
    + intros [-> | ->]; reflexivity.
  - repeat split.
Qed.

(** A geo frame without an active geometry name: the column is 'geometry'. *)
Lemma probe_success_witness :
  detected_geometry_col
    (fst (Recreated.probe (L := Samples.probed_lib)
            (SourceUpload Inputs.open_upload)
            (boot (L := Samples.probed_lib) Reference.empty)))
  = Some "geometry".
Proof.
  destruct (probe_success (L := Samples.probed_lib)
              (SourceUpload Inputs.open_upload)
              (boot (L := Samples.probed_lib) Reference.empty)
              (ProbeGeo None (Some (EPSG 3857))) eq_refl)
    as (_ & _ & col & _ & _ & Hcol & _ & _ & _ & Hdefault).
  rewrite Hcol. f_equal. apply Hdefault. left. reflexivity.
Defined.

(** ** Plain frames reach the sink as they are *)

Section PassThrough.
Context {L : Library}.

Lemma config_not_ok_guard (s : Script) (f : Form) (m : Machine) :
  config_ok s f = false ->
  start_import s f m = (logged [st_error FillConnectionDetails] m, Ok tt).
Proof.
  intro Hcfg. destruct s; simpl in *;
    unfold App.start_import, Recreated.start_import.
  - rewrite <- negb_andb, Hcfg. reflexivity.
  - rewrite <- !negb_andb, Hcfg. reflexivity.
Qed.

Lemma report_any (s : Script) (m : Machine) :
  (s = recreate_project_py -> total_rows m <> None) ->
  exists evs, update_progress s m = (logged evs m, Ok tt) /\ written evs = [].
Proof.
  intro Hgood. destruct s; simpl.
  - destruct (App_report m I) as (evs & Hrep & _ & _ & Hw & _). eauto.
  - destruct (Recreated_report m (Hgood eq_refl)) as (evs & Hrep & _ & _ & Hw & _).
    eauto.
Qed.

Lemma write_and_count_cases (f : Form) (engine : Engine) (df : DataFrame)
    (c : Chunk) (m : Machine) :
  (exists m2 e,
     write_and_count f engine df c m = (m2, Raise e) /\
     written (log m2) = written (log m))
  \/
  (exists m2,
     write_and_count f engine df c m = (m2, Ok tt) /\
     written (log m2) = written (log m) ++ [c] /\
     is_spatial_file m2 = is_spatial_file m /\
     total_rows m2 = total_rows m).
Proof.
  unfold write_and_count, write, bind, get, emit, raise,
    assign_rows_processed, assign_is_first_chunk. simpl.
  destruct (match c with
            | Spatial g => to_postgis engine (store m) (table_name f) _ g
            | Plain d => to_sql engine (store m) (table_name f) _ d
            end) as [db [[] | e]]; simpl.
  - right. eexists. split; [reflexivity | ]. simpl.
    rewrite written_app. auto.
  - left. eexists. eexists. split; [reflexivity | ]. simpl.
    rewrite written_app. simpl. apply app_nil_r.
Qed.

(** A frame without the probed column and without a 'geometry' column is
    not touched by the normalizer. *)
Lemma Recreated_normalize_plain (df : DataFrame) (m : Machine) :
  is_spatial_file m = false ->
  column "geometry" (columns df) = None ->
  Recreated.normalize df m = (m, Ok (Plain df)).
Proof.
  intros Hfile Hplain.
  unfold Recreated.normalize. unfold bind at 1 2 3. unfold get.
  cbv beta iota. rewrite Hfile.
  change (Recreated.probed_column false (detected_geometry_col m) df)
    with (@None (string * Series)).
  cbv beta iota. rewrite Hplain. reflexivity.
Qed.

Lemma plain_body (s : Script) (f : Form) (engine : Engine) (b : Batch)
    (m : Machine) (df : DataFrame) :
  (s = recreate_project_py -> is_spatial_file m = false) ->
  conversion s b = Ok df ->
  column "geometry" (columns df) = None ->
  body s f engine b m
  = (write_and_count f engine df (Plain df) ;; update_progress s) m.
Proof.
  intros Hfile Hconv Hplain. destruct s; simpl in *.
  - unfold App.body, App.prepare. unfold bind at 1.
    rewrite Hconv, bind_lift_ok.
    unfold App.normalize. rewrite Hplain. reflexivity.
  - unfold Recreated.body, Recreated.prepare. unfold bind at 1.
    rewrite Hconv, bind_lift_ok. unfold bind at 1.
    rewrite (Recreated_normalize_plain df m (Hfile eq_refl) Hplain).
    reflexivity.
Qed.

Lemma failed_conversion_body (s : Script) (f : Form) (engine : Engine)
    (b : Batch) (m : Machine) (e : Exn) :
  conversion s b = Raise e -> body s f engine b m = (m, Raise e).
Proof.
  intro Hconv. destruct s; simpl in *.
  - unfold App.body, App.prepare, bind, lift. rewrite Hconv. reflexivity.
  - unfold Recreated.body, Recreated.prepare, bind, lift. rewrite Hconv.
    reflexivity.
Qed.

Lemma plain_loop (s : Script) (f : Form) (engine : Engine) (bs : list Batch) :
  Forall (fun b => forall df, conversion s b = Ok df ->
                              column "geometry" (columns df) = None) bs ->
  forall (m m' : Machine) (r : Result unit),
    (s = recreate_project_py -> is_spatial_file m = false) ->
    (s = recreate_project_py -> total_rows m <> None) ->
    for_each bs (body s f engine) m = (m', r) ->
    exists k,
      (k <= List.length bs)%nat /\
      (r = Ok tt -> k = List.length bs) /\
      written (log m') = written (log m) ++ map Plain (frames s (firstn k bs)).
Proof.
  induction 1 as [| b rest Hb _ IH]; intros m m' r Hfile Hgood Hrun.
  - inversion Hrun; subst. exists 0%nat. simpl. rewrite app_nil_r. auto.
  - simpl in Hrun. unfold bind in Hrun.
    destruct (conversion s b) as [df | e] eqn:Hconv.
    2:{ rewrite (failed_conversion_body s f engine b m e Hconv) in Hrun.
        inversion Hrun; subst. exists 0%nat. simpl. rewrite app_nil_r.
        repeat split; [lia | discriminate]. }
    rewrite (plain_body s f engine b m df Hfile Hconv (Hb df eq_refl)) in Hrun.
    unfold bind at 1 in Hrun.
    destruct (write_and_count_cases f engine df (Plain df) m)
      as [(m2 & e & Hw & Hlog) | (m2 & Hw & Hlog & Hf2 & Ht2)];
      rewrite Hw in Hrun.
    { inversion Hrun; subst. exists 0%nat. simpl. rewrite app_nil_r.
      repeat split; [lia | discriminate | exact Hlog]. }
    destruct (report_any s m2) as (evs & Hrep & Hevs);
      [rewrite Ht2; exact Hgood | ].
    rewrite Hrep in Hrun.
    destruct (IH (logged evs m2) m' r) as (k & Hk & Hall & Hwritten);
      [simpl; rewrite Hf2; exact Hfile | simpl; rewrite Ht2; exact Hgood
      | exact Hrun | ].
    exists (S k). split; [simpl; lia | split].
    + intro Hr. simpl. f_equal. auto.
    + rewrite Hwritten. simpl log. rewrite written_app, Hevs, app_nil_r, Hlog.
      simpl. unfold frames at 2. simpl. rewrite Hconv. simpl.
      rewrite <- app_assoc. reflexivity.
Qed.

End PassThrough.

(** X3. In a run on a source the probe did not mark spatial ([src/app.py]
    has no probe), over batches whose frames have no 'geometry' column, the
    chunks handed to the sink are the converted frames themselves, in batch
    order, each once; in a run that shows no error they are the frames of
    all the batches. *)
Theorem plain_frames_pass_through {L : Library} (s : Script) (f : Form)
    (db : Db) (src : Source) (pf : ParquetFile) :
  determine_source f = Some src ->
  pq_ParquetFile src = Ok pf ->
  (s = recreate_project_py ->
   forall n c, read_parquet src (probe_rows src) <> Ok (ProbeGeo n c)) ->
  Forall (fun b => forall df, conversion s b = Ok df ->
                              column "geometry" (columns df) = None)
    (iter_batches pf batch_size) ->
  (exists k,
     written (log (final s f db))
     = map Plain (frames s (firstn k (iter_batches pf batch_size)))) /\
  (errors (log (final s f db)) = [] ->
   written (log (final s f db))
   = map Plain (frames s (iter_batches pf batch_size))).
Proof.
  intros Hsrc Hopen Hprobe Hplain.
  assert (Hnone : forall m e,
    written (log m) = [] ->
    final s f db = logged [st_error (ErrorDuringImport e); st_exception e] m
    \/ (exists msg, final s f db = logged [st_error msg] m) ->
    (exists k,
       written (log (final s f db))
       = map Plain (frames s (firstn k (iter_batches pf batch_size)))) /\
    (errors (log (final s f db)) = [] ->
     written (log (final s f db))
     = map Plain (frames s (iter_batches pf batch_size)))).
  { intros m e Hw [Hfin | (msg & Hfin)]; rewrite Hfin; simpl;
      rewrite written_app, errors_app, Hw; simpl.
    - split; [exists 0%nat; reflexivity | ].
      intro H. apply app_eq_nil in H. destruct H; discriminate.
    - split; [exists 0%nat; reflexivity | ].
      intro H. apply app_eq_nil in H. destruct H; discriminate. }
  destruct (config_ok s f) eqn:Hcfg.
  2:{ apply (Hnone (boot db) ZeroDivisionError); [reflexivity | ].
      right. exists FillConnectionDetails. unfold final.
      rewrite (config_not_ok_guard s f _ Hcfg). reflexivity. }
  destruct (setup s f src (boot db)) as [m0 [[engine pf'] | e]] eqn:Hsetup.
  2:{ destruct (setup_spec s f src _ _ _ Hsetup) as (evs & Hl & (_ & Hw & _) & _).
      apply (Hnone m0 e); [rewrite Hl; exact Hw | ].
      left. unfold final.
      rewrite (run_stops_in_setup s f db src m0 e Hcfg Hsrc Hsetup). reflexivity. }
  destruct (setup_spec s f src _ _ _ Hsetup)
    as (evs & Hl & (_ & Hw & _ & _ & He & _) & Hopen' & _).
  simpl in Hopen', Hl. assert (pf' = pf) by congruence. subst pf'.
  assert (Hstate : (s = recreate_project_py -> is_spatial_file m0 = false) /\
                   (s = recreate_project_py -> total_rows m0 <> None)).
  { split; intros ->; simpl in Hsetup;
      destruct (Recreated_setup_unprobed f src _ _ _ (Hprobe eq_refl) Hsetup);
      assumption. }
  destruct Hstate as (Hfile & Hgood).
  destruct (for_each (iter_batches pf batch_size) (body s f engine) m0)
    as [m1 r] eqn:Hloop.
  destruct (plain_loop s f engine _ Hplain m0 m1 r Hfile Hgood Hloop)
    as (k & Hk & Hall & Hwritten).
  rewrite Hl, Hw in Hwritten. simpl in Hwritten.
  assert (Hrun : start_import s f (boot db)
                 = match r with
                   | Ok _ => (logged [st_success_imported (rows_processed m1)
                                        (table_name f)] m1, Ok tt)
                   | Raise e => (logged [st_error (ErrorDuringImport e);
                                         st_exception e] m1, Ok tt)
                   end).
  { rewrite (config_ok_guard s f Hcfg), Hsrc.
    unfold try_except. unfold bind at 1. rewrite Hsetup. simpl.
    unfold bind at 1. rewrite Hloop.
    destruct r as [[] | e].
    - reflexivity.
    - unfold report_failure, bind, emit. simpl. rewrite logged_logged.
      reflexivity. }
  unfold final. rewrite Hrun.
  destruct r as [[] | e]; simpl; rewrite written_app, Hwritten; simpl;
    rewrite app_nil_r.
  - split; [exists k; reflexivity | ].
    intros _. rewrite (Hall eq_refl), firstn_all. reflexivity.
  - split; [exists k; reflexivity | ].
    rewrite errors_app. simpl. intro H.
    apply app_eq_nil in H. destruct H; discriminate.
Qed.

(** Two plain batches, 'append': the two frames are what [to_sql] gets. *)
Lemma plain_frames_pass_through_witness :
  written (log (final (L := Inputs.small_lib) recreate_project_py
                  (Inputs.form append_) Reference.empty))
  = [Plain (Inputs.plain_frame 2); Plain (Inputs.plain_frame 1)].
Proof.
  destruct (plain_frames_pass_through (L := Inputs.small_lib)
              recreate_project_py (Inputs.form append_) Reference.empty
              (SourcePath "/mnt/data/big_file.parquet") Inputs.two_batches
              eq_refl eq_refl)
    as (_ & Hall).
  - intros _ n c. discriminate.
  - repeat constructor; intros df H; inversion H; subst df; reflexivity.
  - exact (Hall eq_refl).
Defined.

(** ** From the widgets to the source *)

(** X13. The source the button handler works on is what the chosen input
    method offers and nothing else: a path only under the path method, and
    then the typed one, not empty and existing; a file object only under the
    upload method, and then the uploaded one.  "File not found." was not
    shown in either case. *)
Theorem source_is_what_was_chosen (path_exists : string -> bool)
    (w : Page.Widgets) (src : Source) :
  determine_source (Page.form_of path_exists w) = Some src ->
  match src with
  | SourcePath p =>
      Page.method w = LocalFilePath /\ p = Page.file_path_input w /\
      p <> "" /\ path_exists p = true
  | SourceUpload u =>
      Page.method w = UploadFile /\ Page.file_uploader w = Some u
  end /\
  Page.file_not_found path_exists w = false.
Proof.
  unfold determine_source, Page.form_of, Page.file_not_found,
    Page.uploaded, Page.resolved_path. simpl.
  destruct (Page.method w).
  - destruct (Page.file_uploader w) as [u | ]; [ | discriminate ].
    intros H; inversion H; subst. auto.
  - destruct (truthy (Page.file_path_input w)) eqn:Ht; simpl; [ | discriminate ].
    destruct (path_exists (Page.file_path_input w)) eqn:He; [ | discriminate ].
    rewrite Ht. intros H; inversion H; subst.
    repeat split; auto. intro Hempty. rewrite Hempty in Ht. discriminate.
Qed.

Lemma source_is_what_was_chosen_witness :
  Page.method (Samples.widgets LocalFilePath (Some Inputs.open_upload)
                 "/mnt/data/big_file.parquet") = LocalFilePath /\
  Samples.one_file "/mnt/data/big_file.parquet" = true.
Proof.
  destruct (source_is_what_was_chosen Samples.one_file
              (Samples.widgets LocalFilePath (Some Inputs.open_upload)
                 "/mnt/data/big_file.parquet")
              (SourcePath "/mnt/data/big_file.parquet") eq_refl)
    as ((Hm & _ & _ & He) & _).
  split; [exact Hm | exact He].
Defined.

(** X14. With the connection filled in and the button pressed, a page that
    offers no source (no file uploaded under the upload method; an empty or
    non-existing path under the path method) only shows "Please provide a
    valid file.": no call reaches the outside and the machine is otherwise
    untouched.  "File not found." was shown before exactly under the path
    method with a path that is not empty. *)
Theorem nothing_to_import {L : Library} (path_exists : string -> bool)
    (s : Script) (w : Page.Widgets) (m : Machine) :
  config_ok s (Page.form_of path_exists w) = true ->
  Page.button w = true ->
  match Page.method w with
  | UploadFile => Page.file_uploader w = None
  | LocalFilePath =>
      Page.file_path_input w = ""
      \/ path_exists (Page.file_path_input w) = false
  end ->
  Page.script path_exists s w m
  = (match Page.method w with
     | UploadFile => false
     | LocalFilePath => truthy (Page.file_path_input w)
     end,
     (logged [st_error ProvideValidFile] m, Ok tt)).
Proof.
  intros Hcfg Hbutton Hnone. unfold Page.script. rewrite Hbutton.
  rewrite (config_ok_guard s _ Hcfg).
  unfold determine_source, Page.form_of, Page.file_not_found,
    Page.uploaded, Page.resolved_path. simpl.
  destruct (Page.method w).
  - rewrite Hnone. reflexivity.
  - destruct Hnone as [Hempty | Hmissing].
    + rewrite Hempty. reflexivity.
    + rewrite Hmissing, andb_false_r. reflexivity.
Qed.

Lemma nothing_to_import_witness :
  Page.script (L := Inputs.small_lib) Samples.one_file app_py
    (Samples.widgets LocalFilePath None "/mnt/data/missing.parquet")
    (boot (L := Inputs.small_lib) Reference.empty)
  = (true,
     (logged [st_error ProvideValidFile]
        (boot (L := Inputs.small_lib) Reference.empty), Ok tt)).
Proof.
  apply (nothing_to_import (L := Inputs.small_lib) Samples.one_file app_py
           (Samples.widgets LocalFilePath None "/mnt/data/missing.parquet")).
  - reflexivity.
  - reflexivity.
  - right. reflexivity.
Defined.

(** ** [recreate_files] *)

Lemma chmod_adds_execute_bits (mode : Z) :
  Z.lor (Z.land mode (Z.lnot Project.permission_bits))
    (Z.land (Z.lor mode Project.execute_bits) Project.permission_bits)
  = Z.lor mode Project.execute_bits.
Proof.
  assert (Hsub : forall i, Z.testbit Project.execute_bits i = true ->
                           Z.testbit Project.permission_bits i = true).
  { intros i Hi.
    assert (H : Z.land Project.execute_bits Project.permission_bits
                = Project.execute_bits) by reflexivity.
    rewrite <- H, Z.land_spec in Hi. apply andb_true_iff in Hi. tauto. }
  apply Z.bits_inj'. intros i Hi.
  rewrite !Z.lor_spec, !Z.land_spec, Z.lnot_spec, Z.lor_spec by exact Hi.
  specialize (Hsub i).
  destruct (Z.testbit mode i), (Z.testbit Project.permission_bits i),
    (Z.testbit Project.execute_bits i); simpl; try reflexivity.
  discriminate (Hsub eq_refl).
Qed.

Section ProjectFacts.
Variables app_py_text requirements_txt_text Dockerfile_text run_sh_text
  generate_data_py_text : string.
Variable default_mode : Z.
Variable unwritable : string -> bool.
Variable not_owner : string -> bool.

Let files : list (string * string) :=
  Project.PROJECT_FILES app_py_text requirements_txt_text Dockerfile_text
    run_sh_text generate_data_py_text.

Let recreate_one := Project.recreate_one default_mode unwritable not_owner.
Let recreate_all := Project.recreate_all default_mode unwritable not_owner.
Let mode_of := Project.mode_of default_mode.
Let mode_after := Project.mode_after default_mode.

(** The names [open] and [os.chmod] accept, as far as the loop asks. *)
Let accepted (n : string) : Prop :=
  unwritable n = false /\
  (Project.endswith n ".sh" = true -> not_owner n = false).

(** The directory after the items were recreated over [d]. *)
Let recreated (items : list (string * string)) (d d' : Project.FileSystem) : Prop :=
  forall name,
    d' name
    = match Project.lookup name items with
      | Some text =>
          Some {| Project.content := text;
                  Project.st_mode := mode_after d name |}
      | None => d name
      end.

Lemma recreate_one_accepted (n text : string) (w : Project.World) :
  accepted n ->
  exists w',
    recreate_one n text w = (w', Ok tt) /\
    recreated [(n, text)] (Project.fs w) (Project.fs w') /\
    Project.stdout w' = Project.stdout w ++ ["Created/Updated " ++ n]%string.
Proof.
  intros (Hw & Ho).
  unfold recreate_one, Project.recreate_one, Project.open_write. rewrite Hw.
  destruct (Project.endswith n ".sh") eqn:Hsh.
  - unfold Project.stat, Project.chmod. rewrite String.eqb_refl.
    rewrite (Ho eq_refl). eexists. split; [reflexivity | ].
    split; [ | reflexivity ].
    intro name. unfold Project.print, Project.fs, Project.lookup.
    rewrite (String.eqb_sym n name).
    destruct (String.eqb_spec name n) as [-> | Hne]; [ | reflexivity ].
    unfold mode_after, Project.mode_after. rewrite Hsh.
    unfold Project.st_mode at 1 2. rewrite chmod_adds_execute_bits. reflexivity.
  - eexists. split; [reflexivity | ].
    split; [ | reflexivity ].
    intro name. unfold Project.print, Project.fs, Project.lookup.
    rewrite (String.eqb_sym n name).
    destruct (String.eqb_spec name n) as [-> | Hne]; [ | reflexivity ].
    unfold mode_after, Project.mode_after. rewrite Hsh. reflexivity.
Qed.

Lemma lookup_absent (name : string) (items : list (string * string)) :
  ~ In name (map fst items) -> Project.lookup name items = None.
Proof.
  induction items as [| [n c] rest IH]; intro Hin; [reflexivity | ].
  simpl in *. destruct (String.eqb_spec n name) as [-> | Hne].
  - exfalso. auto.
  - apply IH. tauto.
Qed.

Lemma recreate_all_accepted (items : list (string * string)) :
  NoDup (map fst items) ->
  Forall (fun item => accepted (fst item)) items ->
  forall w,
  exists w',
    recreate_all items w = (w', Ok tt) /\
    recreated items (Project.fs w) (Project.fs w') /\
    Project.stdout w'
    = Project.stdout w
      ++ map (fun item => "Created/Updated " ++ fst item)%string items.
Proof.
  induction items as [| [n text] rest IH]; intros Hnodup Hok w.
  - exists w. simpl. rewrite app_nil_r. repeat split.
  - inversion Hnodup as [| ? ? Hfresh Hrest]; subst.
    inversion Hok as [| ? ? Hn Hoks]; subst. simpl in Hn.
    destruct (recreate_one_accepted n text w Hn) as (w1 & Hone & Hfs1 & Hout1).
    destruct (IH Hrest Hoks w1) as (w' & Hall & Hfs & Hout).
    exists w'. split; [ | split].
    + simpl. fold recreate_one. rewrite Hone. exact Hall.
    + intro name. rewrite (Hfs name). simpl.
      specialize (Hfs1 name). simpl in Hfs1.
      destruct (String.eqb_spec n name) as [-> | Hne].
      * rewrite (lookup_absent name rest Hfresh). exact Hfs1.
      * unfold mode_after, Project.mode_after, Project.mode_of.
        rewrite Hfs1. reflexivity.
    + rewrite Hout, Hout1, <- app_assoc. reflexivity.
Qed.

Lemma project_keys_nodup : NoDup (map fst files).
Proof.
  simpl. repeat constructor; simpl; intuition discriminate.
Qed.

Lemma project_keys (name text : string) :
  Project.lookup name files = Some text ->
  In name ["app.py"; "requirements.txt"; "Dockerfile"; "run.sh";
           "generate_data.py"]%string.
Proof.
  cbv [files Project.PROJECT_FILES Project.lookup].
  repeat match goal with
         | |- context [String.eqb ?k name] =>
             destruct (String.eqb_spec k name) as [<- | ?];
             [intros _; simpl; tauto | ]
         end.
  discriminate.
Qed.

End ProjectFacts.

Lemma nodup_app_disjoint {A : Type} (l1 l2 : list A) (a : A) :
  NoDup (l1 ++ l2) -> In a l2 -> ~ In a l1.
Proof.
  induction l1 as [| x l1 IH]; simpl; intros Hnodup Hin2; [tauto | ].
  inversion Hnodup as [| y l Hx Hrest]; subst.
  intros [-> | Hin1].
  - apply Hx, in_or_app. right. exact Hin2.
  - exact (IH Hrest Hin2 Hin1).
Qed.

Section ProjectTheorems.
Variables app_py_text requirements_txt_text Dockerfile_text run_sh_text
  generate_data_py_text : string.
Variable default_mode : Z.
Variable unwritable : string -> bool.
Variable not_owner : string -> bool.

Let files : list (string * string) :=
  Project.PROJECT_FILES app_py_text requirements_txt_text Dockerfile_text
    run_sh_text generate_data_py_text.

Let recreate_files : Project.World -> Project.World * Result unit :=
  Project.recreate_files app_py_text requirements_txt_text Dockerfile_text
    run_sh_text generate_data_py_text default_mode unwritable not_owner.

Let recreate_all := Project.recreate_all default_mode unwritable not_owner.
Let mode_of := Project.mode_of default_mode.
Let mode_after := Project.mode_after default_mode.

Lemma recreate_all_app (pre rest : list (string * string)) (w : Project.World) :
  recreate_all (pre ++ rest) w
  = match recreate_all pre w with
    | (w1, Ok _) => recreate_all rest w1
    | (w1, Raise e) => (w1, Raise e)
    end.
Proof.
  revert w. induction pre as [| [n text] pre IH]; intro w; [reflexivity | ].
  simpl.
  destruct (Project.recreate_one default_mode unwritable not_owner n text w)
    as [w1 [[] | e]]; [apply IH | reflexivity].
Qed.

Lemma project_files_accepted :
  (forall name text, Project.lookup name files = Some text ->
                     unwritable name = false) ->
  not_owner "run.sh" = false ->
  Forall (fun item =>
            unwritable (fst item) = false /\
            (Project.endswith (fst item) ".sh" = true ->
             not_owner (fst item) = false)) files.
Proof.
  intros Hw Ho.
  repeat constructor; simpl;
    try (apply (Hw _ _) with (text := _); reflexivity || idtac);
    try (intro H; first [discriminate H | exact Ho]).
  all: try (eapply Hw; reflexivity).
Qed.

Lemma recreate_files_accepted (w : Project.World) :
  (forall name text, Project.lookup name files = Some text ->
                     unwritable name = false) ->
  not_owner "run.sh" = false ->
  exists w',
    recreate_files w = (w', Ok tt) /\
    (forall name,
       Project.fs w' name
       = match Project.lookup name files with
         | Some text =>
             Some {| Project.content := text;
                     Project.st_mode := mode_after (Project.fs w) name |}
         | None => Project.fs w name
         end) /\
    Project.stdout w'
    = Project.stdout w
      ++ ["Recreating project files...";
          "Created/Updated app.py";
          "Created/Updated requirements.txt";
          "Created/Updated Dockerfile";
          "Created/Updated run.sh";
          "Created/Updated generate_data.py";
          String (Ascii.ascii_of_nat 10) "Done! You can run the app using:";
          "  ./run.sh"]%string.
Proof.
  intros Hw Ho.
  destruct (recreate_all_accepted app_py_text requirements_txt_text
              Dockerfile_text run_sh_text generate_data_py_text
              default_mode unwritable not_owner files
              (project_keys_nodup app_py_text requirements_txt_text
                 Dockerfile_text run_sh_text generate_data_py_text
                 default_mode unwritable not_owner)
              (project_files_accepted Hw Ho)
              (Project.print "Recreating project files..." w))
    as (w1 & Hall & Hfs & Hout).
  unfold recreate_files, Project.recreate_files.
  fold files. rewrite Hall.
  eexists. split; [reflexivity | split].
  - intro name. simpl. exact (Hfs name).
  - simpl. rewrite Hout. simpl. rewrite <- !app_assoc. reflexivity.
Qed.

(** X15. When [open] accepts the five names and [os.chmod] accepts
    [run.sh], [recreate_files] returns; afterwards each of the five files
    holds the text [PROJECT_FILES] gives it, every other file of the
    directory is as it was, and the output is the opening line, one line
    per file in the order of the dictionary, and the two closing lines. *)
Theorem recreate_files_contents (w : Project.World) :
  (forall name text, Project.lookup name files = Some text ->
                     unwritable name = false) ->
  not_owner "run.sh" = false ->
  exists w',
    recreate_files w = (w', Ok tt) /\
    (forall name text,
       Project.lookup name files = Some text ->
       exists mode,
         Project.fs w' name
         = Some {| Project.content := text; Project.st_mode := mode |}) /\
    (forall name,
       Project.lookup name files = None ->
       Project.fs w' name = Project.fs w name) /\
    Project.stdout w'
    = Project.stdout w
      ++ ["Recreating project files...";
          "Created/Updated app.py";
          "Created/Updated requirements.txt";
          "Created/Updated Dockerfile";
          "Created/Updated run.sh";
          "Created/Updated generate_data.py";
          String (Ascii.ascii_of_nat 10) "Done! You can run the app using:";
          "  ./run.sh"]%string.
Proof.
  intros Hw Ho.
  destruct (recreate_files_accepted w Hw Ho) as (w' & Hrun & Hfs & Hout).
  exists w'. split; [exact Hrun | split; [ | split; [ | exact Hout]]].
  - intros name text Hl. rewrite (Hfs name), Hl. eauto.
  - intros name Hl. rewrite (Hfs name), Hl. reflexivity.
Qed.

(** X16. After such a run [run.sh] has the three execute bits set and every
    other bit of its mode as before (those of [default_mode] if the file is
    new); the other four files have the mode they had, or [default_mode]. *)
Theorem recreate_files_modes (w : Project.World) (name text : string)
    (file : Project.File) :
  (forall name text, Project.lookup name files = Some text ->
                     unwritable name = false) ->
  not_owner "run.sh" = false ->
  Project.lookup name files = Some text ->
  Project.fs (fst (recreate_files w)) name = Some file ->
  if String.eqb name "run.sh" then
    Z.land (Project.st_mode file) Project.execute_bits = Project.execute_bits /\
    (forall i, (0 <= i)%Z ->
               Z.testbit Project.execute_bits i = false ->
               Z.testbit (Project.st_mode file) i
               = Z.testbit (mode_of (Project.fs w) name) i)
  else Project.st_mode file = mode_of (Project.fs w) name.
Proof.
  intros Hw Ho Hl Hfile.
  destruct (recreate_files_accepted w Hw Ho) as (w' & Hrun & Hfs & _).
  rewrite Hrun in Hfile. simpl in Hfile.
  rewrite (Hfs name), Hl in Hfile. inversion Hfile; subst file. simpl.
  pose proof (project_keys app_py_text requirements_txt_text Dockerfile_text
                run_sh_text generate_data_py_text default_mode unwritable
                not_owner name text Hl) as Hkey.
  simpl in Hkey.
  destruct Hkey as [<- | [<- | [<- | [<- | [<- | []]]]]];
    try reflexivity.
  change (mode_after (Project.fs w) "run.sh")
    with (Z.lor (mode_of (Project.fs w) "run.sh") Project.execute_bits).
  simpl String.eqb. cbv iota. split.
  - apply Z.bits_inj'. intros i Hi.
    rewrite Z.land_spec, Z.lor_spec.
    destruct (Z.testbit Project.execute_bits i);
      [apply andb_true_iff; split; [apply orb_true_r | reflexivity]
      | apply andb_false_r].
  - intros i Hi Hbit. rewrite Z.lor_spec, Hbit. apply orb_false_r.
Qed.

(** X17. Running [recreate_files] again changes nothing in the directory:
    the second run returns as well and leaves every file, text and mode, as
    the first run left it. *)
Theorem recreate_files_idempotent (w : Project.World) :
  (forall name text, Project.lookup name files = Some text ->
                     unwritable name = false) ->
  not_owner "run.sh" = false ->
  let w1 := fst (recreate_files w) in
  snd (recreate_files w1) = Ok tt /\
  forall name,
    Project.fs (fst (recreate_files w1)) name = Project.fs w1 name.
Proof.
  intros Hw Ho w1. subst w1.
  destruct (recreate_files_accepted w Hw Ho) as (w1 & Hrun1 & Hfs1 & _).
  rewrite Hrun1. simpl fst.
  destruct (recreate_files_accepted w1 Hw Ho) as (w2 & Hrun2 & Hfs2 & _).
  rewrite Hrun2. simpl. split; [reflexivity | ].
  intro name. rewrite (Hfs2 name), (Hfs1 name).
  destruct (Project.lookup name files) as [text | ] eqn:Hl; [ | reflexivity ].
  f_equal. f_equal.
  unfold mode_after, Project.mode_after.
  replace (Project.mode_of default_mode (Project.fs w1) name)
    with (mode_after (Project.fs w) name)
    by (unfold Project.mode_of at 1; rewrite (Hfs1 name), Hl; reflexivity).
  unfold mode_after, Project.mode_after.
  destruct (Project.endswith name ".sh"); [ | reflexivity ].
  rewrite <- Z.lor_assoc, Z.lor_diag. reflexivity.
Qed.

(** X18. [recreate_files] stops at the first name [open] refuses: the call
    raises the error of [open], the files before that name in the dictionary
    are written, that file and every later one are as they were, and the
    output ends with the line of the last file written, without the closing
    lines. *)
Theorem recreate_files_stops_at_refusal (w : Project.World)
    (pre post : list (string * string)) (name text : string) :
  files = pre ++ (name, text) :: post ->
  Forall (fun item =>
            unwritable (fst item) = false /\
            (Project.endswith (fst item) ".sh" = true ->
             not_owner (fst item) = false)) pre ->
  unwritable name = true ->
  exists w',
    recreate_files w = (w', Raise (OSError "Permission denied")) /\
    (forall n,
       Project.fs w' n
       = match Project.lookup n pre with
         | Some t =>
             Some {| Project.content := t;
                     Project.st_mode := mode_after (Project.fs w) n |}
         | None => Project.fs w n
         end) /\
    (forall n, In n (name :: map fst post) ->
               Project.fs w' n = Project.fs w n) /\
    Project.stdout w'
    = Project.stdout w
      ++ "Recreating project files..."
         :: map (fun item => ("Created/Updated " ++ fst item)%string) pre.
Proof.
  intros Hfiles Hpre Hname.
  pose proof (project_keys_nodup app_py_text requirements_txt_text
                Dockerfile_text run_sh_text generate_data_py_text
                default_mode unwritable not_owner) as Hkeys.
  fold files in Hkeys. rewrite Hfiles, map_app in Hkeys.
  assert (Hnodup : NoDup (map fst pre))
    by exact (NoDup_app_remove_r _ _ Hkeys).
  destruct (recreate_all_accepted app_py_text requirements_txt_text
              Dockerfile_text run_sh_text generate_data_py_text
              default_mode unwritable not_owner pre Hnodup Hpre
              (Project.print "Recreating project files..." w))
    as (w1 & Hall & Hfs & Hout).
  exists w1.
  unfold recreate_files, Project.recreate_files. fold files.
  rewrite Hfiles.
  fold recreate_all. rewrite recreate_all_app.
  fold recreate_all in Hall. rewrite Hall.
  unfold recreate_all.
  simpl. unfold Project.recreate_one, Project.open_write. rewrite Hname.
  split; [reflexivity | split; [ | split]].
  - exact Hfs.
  - intros n Hin. rewrite (Hfs n).
    rewrite (lookup_absent app_py_text requirements_txt_text Dockerfile_text
               run_sh_text generate_data_py_text default_mode unwritable
               not_owner n pre (nodup_app_disjoint _ _ n Hkeys Hin)).
    reflexivity.
  - rewrite Hout. simpl. rewrite <- app_assoc. reflexivity.
Qed.

(** X19. When [os.chmod] refuses [run.sh], the call raises its error after
    [run.sh] has been rewritten: the file holds the new text with the mode it
    had, [generate_data.py] is not written, and the output stops after the
    line for [Dockerfile]. *)
Theorem recreate_files_chmod_refused (w : Project.World) :
  unwritable "app.py" = false ->
  unwritable "requirements.txt" = false ->
  unwritable "Dockerfile" = false ->
  unwritable "run.sh" = false ->
  not_owner "run.sh" = true ->
  exists w',
    recreate_files w = (w', Raise (OSError "Operation not permitted")) /\
    Project.fs w' "run.sh"
    = Some {| Project.content := run_sh_text;
              Project.st_mode := mode_of (Project.fs w) "run.sh" |} /\
    Project.fs w' "generate_data.py" = Project.fs w "generate_data.py" /\
    Project.stdout w'
    = Project.stdout w
      ++ ["Recreating project files...";
          "Created/Updated app.py";
          "Created/Updated requirements.txt";
          "Created/Updated Dockerfile"]%string.
Proof.
  intros Happ Hreq Hdocker Hrun Howner.
  set (pre := [("app.py", app_py_text);
               ("requirements.txt", requirements_txt_text);
               ("Dockerfile", Dockerfile_text)]%string).
  assert (Hnodup : NoDup (map fst pre)).
  { simpl. repeat constructor; simpl; intuition discriminate. }
  assert (Hpre : Forall (fun item =>
                           unwritable (fst item) = false /\
                           (Project.endswith (fst item) ".sh" = true ->
                            not_owner (fst item) = false)) pre).
  { repeat constructor; simpl; try assumption; discriminate. }
  destruct (recreate_all_accepted app_py_text requirements_txt_text
              Dockerfile_text run_sh_text generate_data_py_text
              default_mode unwritable not_owner pre Hnodup Hpre
              (Project.print "Recreating project files..." w))
    as (w1 & Hall & Hfs & Hout).
  eexists.
  unfold recreate_files, Project.recreate_files.
  change (Project.PROJECT_FILES app_py_text requirements_txt_text
            Dockerfile_text run_sh_text generate_data_py_text)
    with (pre ++ [("run.sh", run_sh_text);
                  ("generate_data.py", generate_data_py_text)]%string).
  fold recreate_all. rewrite recreate_all_app.
  fold recreate_all in Hall. rewrite Hall.
  unfold recreate_all.
  simpl. unfold Project.recreate_one, Project.open_write. rewrite Hrun.
  simpl. unfold Project.chmod. simpl. rewrite Howner.
  split; [reflexivity | split; [ | split]].
  - simpl. unfold Project.mode_of. rewrite (Hfs "run.sh"). reflexivity.
  - simpl. rewrite (Hfs "generate_data.py"). reflexivity.
  - simpl. rewrite Hout. simpl. rewrite <- app_assoc. reflexivity.
Qed.

End ProjectTheorems.

Lemma recreate_files_contents_witness :
  Project.stdout
    (fst (Project.recreate_files "import streamlit as st" "streamlit"
            "FROM python:3.11" "#!/bin/bash" "import numpy as np" 33188
            Samples.nothing Samples.nothing Samples.world))
  = ["Recreating project files...";
     "Created/Updated app.py";
     "Created/Updated requirements.txt";
     "Created/Updated Dockerfile";
     "Created/Updated run.sh";
     "Created/Updated generate_data.py";
     String (Ascii.ascii_of_nat 10) "Done! You can run the app using:";
     "  ./run.sh"]%string /\
  Project.fs
    (fst (Project.recreate_files "import streamlit as st" "streamlit"
            "FROM python:3.11" "#!/bin/bash" "import numpy as np" 33188
            Samples.nothing Samples.nothing Samples.world)) "notes.txt"
  = Some {| Project.content := "keep"; Project.st_mode := 33188 |}.
Proof.
  destruct (recreate_files_contents "import streamlit as st" "streamlit"
              "FROM python:3.11" "#!/bin/bash" "import numpy as np" 33188
              Samples.nothing Samples.nothing Samples.world
              (fun _ _ _ => eq_refl) eq_refl)
    as (w' & Hrun & _ & Hother & Hout).
  rewrite Hrun. simpl fst. split.
  - rewrite Hout. reflexivity.
  - rewrite (Hother "notes.txt" eq_refl). reflexivity.
Defined.

Lemma recreate_files_modes_witness :
  Project.fs
    (fst (Project.recreate_files "import streamlit as st" "streamlit"
            "FROM python:3.11" "#!/bin/bash" "import numpy as np" 33188
            Samples.nothing Samples.nothing Samples.world)) "run.sh"
  = Some {| Project.content := "#!/bin/bash"; Project.st_mode := 33261 |} /\
  Z.land 33261 Project.execute_bits = Project.execute_bits.
Proof.
  split; [reflexivity | ].
  exact (proj1 (recreate_files_modes "import streamlit as st" "streamlit"
                  "FROM python:3.11" "#!/bin/bash" "import numpy as np" 33188
                  Samples.nothing Samples.nothing Samples.world
                  "run.sh" "#!/bin/bash"
                  {| Project.content := "#!/bin/bash";
                     Project.st_mode := 33261 |}
                  (fun _ _ _ => eq_refl) eq_refl eq_refl eq_refl)).
Defined.

Lemma recreate_files_idempotent_witness :
  Project.fs
    (fst (Project.recreate_files "import streamlit as st" "streamlit"
            "FROM python:3.11" "#!/bin/bash" "import numpy as np" 33188
            Samples.nothing Samples.nothing
            (fst (Project.recreate_files "import streamlit as st" "streamlit"
                    "FROM python:3.11" "#!/bin/bash" "import numpy as np"
                    33188 Samples.nothing Samples.nothing Samples.world))))
    "run.sh"
  = Some {| Project.content := "#!/bin/bash"; Project.st_mode := 33261 |}.
Proof.
  rewrite (proj2 (recreate_files_idempotent "import streamlit as st"
                    "streamlit" "FROM python:3.11" "#!/bin/bash"
                    "import numpy as np" 33188 Samples.nothing
                    Samples.nothing Samples.world
                    (fun _ _ _ => eq_refl) eq_refl) "run.sh").
  reflexivity.
Defined.

Lemma recreate_files_stops_at_refusal_witness :
  Project.recreate_files "import streamlit as st" "streamlit"
    "FROM python:3.11" "#!/bin/bash" "import numpy as np" 33188
    Samples.only_dockerfile Samples.nothing Samples.world
  = ({| Project.fs :=
          Project.fs
            (fst (Project.recreate_files "import streamlit as st" "streamlit"
                    "FROM python:3.11" "#!/bin/bash" "import numpy as np"
                    33188 Samples.only_dockerfile Samples.nothing
                    Samples.world));
        Project.stdout :=
          ["Recreating project files...";
           "Created/Updated app.py";
           "Created/Updated requirements.txt"]%string |},
     Raise (OSError "Permission denied")).
Proof.
  assert (Hpre : Forall
                   (fun item : string * string =>
                      Samples.only_dockerfile (fst item) = false /\
                      (Project.endswith (fst item) ".sh" = true ->
                       Samples.nothing (fst item) = false))
                   [("app.py", "import streamlit as st");
                    ("requirements.txt", "streamlit")]%string)
    by (repeat constructor).
  destruct (recreate_files_stops_at_refusal "import streamlit as st"
              "streamlit" "FROM python:3.11" "#!/bin/bash"
              "import numpy as np" 33188 Samples.only_dockerfile
              Samples.nothing Samples.world
              [("app.py", "import streamlit as st");
               ("requirements.txt", "streamlit")]%string
              [("run.sh", "#!/bin/bash");
               ("generate_data.py", "import numpy as np")]%string
              "Dockerfile" "FROM python:3.11" eq_refl Hpre eq_refl)
    as (w' & Hrun & _ & _ & Hout).
  rewrite Hrun. simpl fst. destruct w' as [d out]. simpl in Hout.
  rewrite Hout. reflexivity.
Defined.

Lemma recreate_files_chmod_refused_witness :
  Project.fs
    (fst (Project.recreate_files "import streamlit as st" "streamlit"
            "FROM python:3.11" "#!/bin/bash" "import numpy as np" 33188
            Samples.nothing (String.eqb "run.sh") Samples.world)) "run.sh"
  = Some {| Project.content := "#!/bin/bash"; Project.st_mode := 33188 |} /\
  snd (Project.recreate_files "import streamlit as st" "streamlit"
         "FROM python:3.11" "#!/bin/bash" "import numpy as np" 33188
         Samples.nothing (String.eqb "run.sh") Samples.world)
  = Raise (OSError "Operation not permitted").
Proof.
  destruct (recreate_files_chmod_refused "import streamlit as st" "streamlit"
              "FROM python:3.11" "#!/bin/bash" "import numpy as np" 33188
              Samples.nothing (String.eqb "run.sh") Samples.world
              eq_refl eq_refl eq_refl eq_refl eq_refl)
    as (w' & Hrun & Hsh & _).
  rewrite Hrun. simpl. split; [exact Hsh | reflexivity].
Defined.
